(** * Flight simulator core: aircraft physics, mission profile, collision check

    A shallow embedding of [aircraft.py], [mission.py], the collision queries
    and the view of [world.py], the driver and the camera of [main.py], the
    numbers of [hud.py] and the atmosphere of [physics.py].

    Numbers.  The program computes with Python floats.  Here every float is a
    real number ([R]): arithmetic is exact, there is no rounding, no NaN and
    no overflow.  Python's [float('inf')] is kept as a separate value
    ([Dist.Inf]).  What can raise in the source (a division by zero, the
    normalisation of a null vector, arithmetic on [None], a name that is
    not defined) returns [None] here, and the functions that may raise live
    in the [option] monad. *)

From Stdlib Require Import Reals Lra Lia ZArith String Bool.
From stdpp Require Import base option list.

Open Scope R_scope.

(** ** Python primitives *)

(** [a / b] on floats: raises ZeroDivisionError when [b] is zero. *)
Definition py_div (a b : R) : option R :=
  if Req_dec_T b 0 then None else Some (a / b).

(** [int(x)]: truncation toward zero. *)
Definition py_int (x : R) : Z :=
  if Rle_dec 0 x then Zfloor x else Zceil x.

(** Truthiness of an optional number ([if segment.distance:]): [None] and
    zero are false. *)
Definition py_truthy (o : option R) : bool :=
  match o with
  | None => false
  | Some d => if Req_dec_T d 0 then false else true
  end.

(** ** pygame.math.Vector3 *)

Module Vector3.

Record t := mk { x : R; y : R; z : R }.

Definition zero : t := mk 0 0 0.

Definition add (u v : t) : t := mk (x u + x v) (y u + y v) (z u + z v).

Definition scale (v : t) (k : R) : t := mk (x v * k) (y v * k) (z v * k).

Definition length_squared (v : t) : R := x v * x v + y v * y v + z v * z v.

Definition length (v : t) : R := sqrt (length_squared v).

(** [v.normalize()]: raises ValueError on a vector of length zero. *)
Definition normalize (v : t) : option t :=
  let l := length v in
  if Req_dec_T l 0 then None else Some (mk (x v / l) (y v / l) (z v / l)).

Definition set_x (v : t) (r : R) : t := mk r (y v) (z v).
Definition set_y (v : t) (r : R) : t := mk (x v) r (z v).
Definition set_z (v : t) (r : R) : t := mk (x v) (y v) r.

End Vector3.

(** ** aircraft.py *)

Module Aircraft.

(** [pygame.key.get_pressed()], restricted to the keys [Aircraft.update]
    reads. *)
Record Keys := mkKeys {
  K_w : bool; K_s : bool; K_a : bool; K_d : bool; K_q : bool; K_e : bool;
  K_LSHIFT : bool; K_LCTRL : bool; K_SPACE : bool }.

Definition no_keys : Keys :=
  mkKeys false false false false false false false false false.

(** The [mission_data] dictionary. *)
Record MissionData := mkData {
  time : list R; altitude : list R; speed : list R; fuel : list R;
  range : list R; phase : string }.

Definition empty_mission_data : MissionData :=
  mkData [] [] [] [] [] "GROUND".

(** The five values [__init__] takes from the configuration file or from
    its built-in defaults. *)
Record Config := mkConfig {
  cfg_mass : R; cfg_wing_area : R; cfg_max_thrust : R;
  cfg_fuel_capacity : R; cfg_fuel_flow_rate : R }.

Definition default_config : Config := mkConfig 50000 150 200000 15000 2.

Record t := mk {
  position : Vector3.t;      (* x, y (altitude), z *)
  velocity : Vector3.t;
  rotation : Vector3.t;      (* pitch, yaw, roll *)
  mass : R; wing_area : R; max_thrust : R;
  fuel_capacity : R; fuel_flow_rate : R;
  fuel_mass : R; throttle : R;
  mission_data : MissionData;
  total_range : R; mission_time : R }.

(** Aerodynamic coefficients and performance limits: [__init__] assigns
    them literal values and nothing writes them afterwards. *)
Definition CL0 : R := 0.2.
Definition CL_alpha : R := 5.
Definition CD0 : R := 0.025.
Definition K : R := 0.04.
Definition max_speed : R := 250.
Definition min_speed : R := 60.
Definition service_ceiling : R := 12000.
Definition max_load_factor : R := 2.5.

Definition set_position (a : t) (p : Vector3.t) : t :=
  mk p (velocity a) (rotation a) (mass a) (wing_area a) (max_thrust a)
     (fuel_capacity a) (fuel_flow_rate a) (fuel_mass a) (throttle a)
     (mission_data a) (total_range a) (mission_time a).
Definition set_velocity (a : t) (v : Vector3.t) : t :=
  mk (position a) v (rotation a) (mass a) (wing_area a) (max_thrust a)
     (fuel_capacity a) (fuel_flow_rate a) (fuel_mass a) (throttle a)
     (mission_data a) (total_range a) (mission_time a).
Definition set_rotation (a : t) (r : Vector3.t) : t :=
  mk (position a) (velocity a) r (mass a) (wing_area a) (max_thrust a)
     (fuel_capacity a) (fuel_flow_rate a) (fuel_mass a) (throttle a)
     (mission_data a) (total_range a) (mission_time a).
Definition set_fuel_mass (a : t) (f : R) : t :=
  mk (position a) (velocity a) (rotation a) (mass a) (wing_area a)
     (max_thrust a) (fuel_capacity a) (fuel_flow_rate a) f (throttle a)
     (mission_data a) (total_range a) (mission_time a).
Definition set_throttle (a : t) (th : R) : t :=
  mk (position a) (velocity a) (rotation a) (mass a) (wing_area a)
     (max_thrust a) (fuel_capacity a) (fuel_flow_rate a) (fuel_mass a) th
     (mission_data a) (total_range a) (mission_time a).
Definition set_mission_data (a : t) (d : MissionData) : t :=
  mk (position a) (velocity a) (rotation a) (mass a) (wing_area a)
     (max_thrust a) (fuel_capacity a) (fuel_flow_rate a) (fuel_mass a)
     (throttle a) d (total_range a) (mission_time a).
Definition set_range_time (a : t) (rg tm : R) : t :=
  mk (position a) (velocity a) (rotation a) (mass a) (wing_area a)
     (max_thrust a) (fuel_capacity a) (fuel_flow_rate a) (fuel_mass a)
     (throttle a) (mission_data a) rg tm.
Definition set_phase (a : t) (ph : string) : t :=
  let d := mission_data a in
  set_mission_data a
    (mkData (time d) (altitude d) (speed d) (fuel d) (range d) ph).

Definition pitch (a : t) : R := Vector3.x (rotation a).
Definition yaw (a : t) : R := Vector3.y (rotation a).
Definition roll (a : t) : R := Vector3.z (rotation a).
Definition set_pitch (a : t) (r : R) : t :=
  set_rotation a (Vector3.set_x (rotation a) r).
Definition set_yaw (a : t) (r : R) : t :=
  set_rotation a (Vector3.set_y (rotation a) r).
Definition set_roll (a : t) (r : R) : t :=
  set_rotation a (Vector3.set_z (rotation a) r).

(** [Aircraft.__init__] *)
Definition init (c : Config) : t :=
  mk (Vector3.mk 0 500 0) (Vector3.mk 0 0 100) (Vector3.mk 0 0 0)
     (cfg_mass c) (cfg_wing_area c) (cfg_max_thrust c)
     (cfg_fuel_capacity c) (cfg_fuel_flow_rate c)
     (cfg_fuel_capacity c * 0.8) 0.5
     empty_mission_data 0 0.

Definition get_total_mass (a : t) : R := mass a + fuel_mass a.

(** The two local factors of [get_thrust]. *)
Definition altitude_factor (a : t) : R :=
  let alt := Vector3.y (position a) in
  if Rlt_dec alt 20000 then 1 - alt / 20000 else 0.5.

Definition speed_factor (a : t) : R :=
  let speed := Vector3.length (velocity a) in
  if Rlt_dec speed 1000 then 1 - speed / 1000 else 0.

Definition get_thrust (a : t) : R :=
  max_thrust a * throttle a * altitude_factor a * speed_factor a.

(** Air density of the simple exponential model. *)
Definition rho (a : t) : R := 1.225 * exp (- Vector3.y (position a) / 8000).

Definition get_lift (a : t) (alpha : R) : R :=
  let V := Vector3.length (velocity a) in
  if Rlt_dec V 0.1 then 0
  else
    let CL := CL0 + CL_alpha * alpha in
    let CL := Rmax (-1.5) (Rmin 1.5 CL) in
    0.5 * rho a * V * V * wing_area a * CL.

Definition get_drag (a : t) (alpha : R) : R :=
  let V := Vector3.length (velocity a) in
  if Rlt_dec V 0.1 then 0
  else
    let CL := CL0 + CL_alpha * alpha in
    let CD := CD0 + K * CL * CL in
    0.5 * rho a * V * V * wing_area a * CD.

(** [update_fuel] returns the consumption and stores the new fuel mass. *)
Definition update_fuel (dt : R) (a : t) : R * t :=
  let fuel_consumption := fuel_flow_rate a * throttle a * dt in
  let alt := Vector3.y (position a) in
  let altitude_efficiency :=
    if Rlt_dec alt 15000 then 1 - alt / 30000 else 0.5 in
  let fuel_consumption := fuel_consumption * altitude_efficiency in
  (fuel_consumption,
   set_fuel_mass a (Rmax 0 (fuel_mass a - fuel_consumption))).

(** [update], lines 138-174, block by block in the order of the source:
    the fuel check, then the pitch, roll, yaw and throttle keys, then the
    auto-level key. *)
Definition fuel_check (a : t) : t :=
  if Rle_dec (fuel_mass a) 0 then set_throttle a 0 else a.

Definition pitch_control (dt : R) (keys : Keys) (a : t) : t :=
  let pitch_rate := 1.5 * dt in
  let a := if K_w keys
           then set_pitch a (Rmin (PI / 6) (pitch a + pitch_rate)) else a in
  if K_s keys
  then set_pitch a (Rmax (- PI / 6) (pitch a - pitch_rate)) else a.

Definition roll_control (dt : R) (keys : Keys) (a : t) : t :=
  let roll_rate := 2 * dt in
  let a := if K_a keys
           then set_roll a (Rmax (- PI / 3) (roll a - roll_rate)) else a in
  if K_d keys
  then set_roll a (Rmin (PI / 3) (roll a + roll_rate)) else a.

Definition yaw_control (dt : R) (keys : Keys) (a : t) : t :=
  let yaw_rate := 1 * dt in
  let a := if K_q keys then set_yaw a (yaw a - yaw_rate) else a in
  if K_e keys then set_yaw a (yaw a + yaw_rate) else a.

Definition throttle_control (dt : R) (keys : Keys) (a : t) : t :=
  let a := if K_LSHIFT keys
           then set_throttle a (Rmin 1 (throttle a + dt)) else a in
  if K_LCTRL keys
  then set_throttle a (Rmax 0 (throttle a - dt)) else a.

Definition auto_level (keys : Keys) (a : t) : t :=
  if K_SPACE keys
  then set_roll (set_pitch a (pitch a * 0.95)) (roll a * 0.95)
  else a.

Definition apply_controls (dt : R) (keys : Keys) (a : t) : t :=
  auto_level keys
    (throttle_control dt keys
       (yaw_control dt keys
          (roll_control dt keys
             (pitch_control dt keys (fuel_check a))))).

(** Lines 240-243: the speed limit. *)
Definition clamp_speed (v : Vector3.t) : option Vector3.t :=
  if Rgt_dec (Vector3.length v) max_speed
  then n ← Vector3.normalize v; Some (Vector3.scale n max_speed)
  else Some v.

(** Lines 248-255: the altitude limits, on the position and velocity. *)
Definition clamp_altitude (p v : Vector3.t) : Vector3.t * Vector3.t :=
  let '(p, v) :=
    if Rlt_dec (Vector3.y p) 10
    then (Vector3.set_y p 10,
          if Rlt_dec (Vector3.y v) 0 then Vector3.set_y v 0 else v)
    else (p, v) in
  let p := if Rgt_dec (Vector3.y p) service_ceiling
           then Vector3.set_y p service_ceiling else p in
  (p, v).

Definition update_physics (dt : R) (a : t) : option t :=
  let speed := Vector3.length (velocity a) in
  let alpha := if Rgt_dec speed 0.1 then pitch a else 0 in
  let thrust := get_thrust a in
  let lift := get_lift a alpha in
  let drag := get_drag a alpha in
  let cos_pitch := cos (pitch a) in
  let sin_pitch := sin (pitch a) in
  let thrust_dir_y := sin_pitch in
  let thrust_dir_z := cos_pitch in
  let cos_yaw := cos (yaw a) in
  let sin_yaw := sin (yaw a) in
  let thrust_dir_x := thrust_dir_z * sin_yaw in
  let thrust_dir_z := thrust_dir_z * cos_yaw in
  let thrust_dir := Vector3.mk thrust_dir_x thrust_dir_y thrust_dir_z in
  let m := get_total_mass a in
  ta ← py_div thrust m;
  let thrust_accel := Vector3.scale thrust_dir ta in
  drag_accel ←
    (if Rgt_dec speed 0.1
     then n ← Vector3.normalize (velocity a);
          da ← py_div (- drag) m;
          Some (Vector3.scale n da)
     else Some Vector3.zero);
  la ← py_div lift m;
  let lift_accel := Vector3.mk 0 la 0 in
  let gravity := Vector3.mk 0 (-9.81) 0 in
  let acceleration :=
    Vector3.add (Vector3.add (Vector3.add thrust_accel drag_accel)
                             lift_accel) gravity in
  v ← clamp_speed (Vector3.add (velocity a) (Vector3.scale acceleration dt));
  let p := Vector3.add (position a) (Vector3.scale v dt) in
  let '(p, v) := clamp_altitude p v in
  Some (set_velocity (set_position a p) v).

Definition update_mission_data (dt : R) (a : t) : t :=
  let tm := mission_time a + dt in
  let v := velocity a in
  let horizontal_speed :=
    sqrt (Vector3.x v * Vector3.x v + Vector3.z v * Vector3.z v) in
  let rg := total_range a + horizontal_speed * dt in
  let a := set_range_time a rg tm in
  let d := mission_data a in
  if Z.ltb (Z.of_nat (List.length (time d))) (py_int tm)
  then set_mission_data a
         (mkData (time d ++ [tm])
                 (altitude d ++ [Vector3.y (position a)])
                 (speed d ++ [Vector3.length v])
                 (fuel d ++ [fuel_mass a])
                 (range d ++ [rg])
                 (phase d))
  else a.

Definition update (dt : R) (keys : Keys) (a : t) : option t :=
  a ← update_physics dt (apply_controls dt keys a);
  Some (update_mission_data dt (snd (update_fuel dt a))).

Definition reset (a : t) : t :=
  mk (Vector3.mk 0 500 0) (Vector3.mk 0 0 100) (Vector3.mk 0 0 0)
     (mass a) (wing_area a) (max_thrust a)
     (fuel_capacity a) (fuel_flow_rate a)
     (fuel_capacity a * 0.8) 0.5
     empty_mission_data 0 0.

(** A sequence of [update] calls, each with its own time step and keys. *)
Fixpoint updates (steps : list (R * Keys)) (a : t) : option t :=
  match steps with
  | [] => Some a
  | (dt, keys) :: rest => a' ← update dt keys a; updates rest a'
  end.

End Aircraft.

(** ** mission.py *)

Module MissionSegment.

(** [turn_time] is the attribute [execute_turn] adds at run time: [None]
    here means the attribute is absent ([hasattr] is false).  The four
    targets are optional arguments of the constructor. *)
Record t := mk {
  name : string;
  target_altitude : option R; target_speed : option R;
  duration : option R; distance : option R;
  completed : bool; progress : R;
  turn_time : option R }.

Definition init (n : string) (ta ts du di : option R) : t :=
  mk n ta ts du di false 0 None.

Definition set_completed (g : t) (c : bool) : t :=
  mk (name g) (target_altitude g) (target_speed g) (duration g) (distance g)
     c (progress g) (turn_time g).
Definition set_progress (g : t) (p : R) : t :=
  mk (name g) (target_altitude g) (target_speed g) (duration g) (distance g)
     (completed g) p (turn_time g).
Definition set_turn_time (g : t) (tt : option R) : t :=
  mk (name g) (target_altitude g) (target_speed g) (duration g) (distance g)
     (completed g) (progress g) tt.

End MissionSegment.

Module MissionProfile.

(** The [profile_data] dictionary. *)
Record ProfileData := mkProfile {
  p_altitude : list R; p_range : list R; p_fuel : list R;
  p_segments : list string }.

Definition empty_profile_data : ProfileData := mkProfile [] [] [] [].

(** The [aircraft] attribute is a reference to the simulator's aircraft:
    the functions below take that aircraft and return it updated. *)
Record t := mk {
  segments : list MissionSegment.t;
  current_segment_index : nat;
  mission_complete : bool;
  total_fuel_consumed : R; total_distance : R; total_time : R;
  display_enabled : bool;
  profile_data : ProfileData }.

Definition create_default_mission : list MissionSegment.t :=
  [ MissionSegment.init "WUTO" (Some 100) (Some 80) (Some 60) None;
    MissionSegment.init "CLIMB" (Some 5000) (Some 150) None (Some 50000);
    MissionSegment.init "CRUISE" (Some 5000) (Some 200) None (Some 200000);
    MissionSegment.init "TURN" (Some 5000) (Some 180) (Some 120) None;
    MissionSegment.init "DESCENT" (Some 500) (Some 150) None (Some 40000);
    MissionSegment.init "LANDING" (Some 0) (Some 70) None (Some 10000) ].

Definition init : t :=
  mk create_default_mission 0 false 0 0 0 true empty_profile_data.

Definition alt (a : Aircraft.t) : R := Vector3.y (Aircraft.position a).
Definition spd (a : Aircraft.t) : R := Vector3.length (Aircraft.velocity a).

Definition execute_wuto (g : MissionSegment.t) (dt : R) (a : Aircraft.t)
  : option (Aircraft.t * MissionSegment.t) :=
  if Rlt_dec (MissionSegment.progress g) 30
  then Some (Aircraft.set_throttle a 0.3,
             MissionSegment.set_progress g (MissionSegment.progress g + dt))
  else
    let a := Aircraft.set_throttle a 1 in
    ta ← MissionSegment.target_altitude g;
    if Rge_dec (alt a) ta
    then Some (a, MissionSegment.set_completed g true)
    else Some (a, g).

Definition execute_climb (g : MissionSegment.t) (dt : R) (a : Aircraft.t)
  : option (Aircraft.t * MissionSegment.t) :=
  target_alt ← MissionSegment.target_altitude g;
  let current_alt := alt a in
  if Rlt_dec current_alt target_alt
  then
    let altitude_error := target_alt - current_alt in
    let desired_pitch := Rmin 0.3 (altitude_error / 1000) in
    let pitch_rate := 0.5 * dt in
    let a :=
      if Rlt_dec (Aircraft.pitch a) desired_pitch
      then Aircraft.set_pitch a (Aircraft.pitch a + pitch_rate)
      else if Rgt_dec (Aircraft.pitch a) desired_pitch
           then Aircraft.set_pitch a (Aircraft.pitch a - pitch_rate)
           else a in
    let current_speed := spd a in
    ts ← MissionSegment.target_speed g;
    let a :=
      if Rlt_dec current_speed ts
      then Aircraft.set_throttle a (Rmin 1 (Aircraft.throttle a + dt * 0.5))
      else Aircraft.set_throttle a (Rmax 0.5 (Aircraft.throttle a - dt * 0.5))
    in Some (a, g)
  else Some (Aircraft.set_pitch a 0, MissionSegment.set_completed g true).

Definition execute_cruise (g : MissionSegment.t) (dt : R) (a : Aircraft.t)
  : option (Aircraft.t * MissionSegment.t) :=
  ta ← MissionSegment.target_altitude g;
  let altitude_error := ta - alt a in
  let a := Aircraft.set_pitch a (altitude_error * 0.001) in
  let current_speed := spd a in
  ts ← MissionSegment.target_speed g;
  let speed_error := ts - current_speed in
  let a :=
    if Rgt_dec (Rabs speed_error) 5
    then let throttle_adjustment := speed_error * 0.01 in
         Aircraft.set_throttle a
           (Rmax 0.3 (Rmin 1 (Aircraft.throttle a + throttle_adjustment)))
    else a in
  if py_truthy (MissionSegment.distance g)
  then
    let g := MissionSegment.set_progress g (Aircraft.total_range a) in
    d ← MissionSegment.distance g;
    if Rge_dec (MissionSegment.progress g) d
    then Some (a, MissionSegment.set_completed g true)
    else Some (a, g)
  else Some (a, g).

Definition execute_turn (g : MissionSegment.t) (dt : R) (a : Aircraft.t)
  : option (Aircraft.t * MissionSegment.t) :=
  let bank_angle := PI / 6 in
  let tt := match MissionSegment.turn_time g with
            | None => 0
            | Some t0 => t0
            end + dt in
  let g := MissionSegment.set_turn_time g (Some tt) in
  ta ← MissionSegment.target_altitude g;
  let altitude_error := ta - alt a in
  let a := Aircraft.set_pitch a (altitude_error * 0.001) in
  let a := Aircraft.set_roll a bank_angle in
  ts ← MissionSegment.target_speed g;
  turn_rate ← py_div (9.81 * tan bank_angle) ts;
  let a := Aircraft.set_yaw a (Aircraft.yaw a + turn_rate * dt) in
  du ← MissionSegment.duration g;
  if Rge_dec tt du
  then Some (Aircraft.set_roll a 0, MissionSegment.set_completed g true)
  else Some (a, g).

Definition execute_descent (g : MissionSegment.t) (dt : R) (a : Aircraft.t)
  : option (Aircraft.t * MissionSegment.t) :=
  target_alt ← MissionSegment.target_altitude g;
  let current_alt := alt a in
  if Rgt_dec current_alt target_alt
  then
    let altitude_error := current_alt - target_alt in
    let desired_pitch := - Rmin 0.2 (altitude_error / 2000) in
    let pitch_rate := 0.3 * dt in
    let a :=
      if Rgt_dec (Aircraft.pitch a) desired_pitch
      then Aircraft.set_pitch a (Aircraft.pitch a - pitch_rate)
      else a in
    Some (Aircraft.set_throttle a (Rmax 0.2 (Aircraft.throttle a - dt * 0.3)),
          g)
  else Some (Aircraft.set_pitch a 0, MissionSegment.set_completed g true).

Definition execute_landing (g : MissionSegment.t) (dt : R) (a : Aircraft.t)
  : option (Aircraft.t * MissionSegment.t) :=
  let current_speed := spd a in
  ts ← MissionSegment.target_speed g;
  let a :=
    if Rgt_dec current_speed ts
    then Aircraft.set_throttle a (Rmax 0.1 (Aircraft.throttle a - dt * 0.5))
    else a in
  if Rgt_dec (alt a) 10
  then Some (Aircraft.set_pitch a (-0.1), g)
  else Some (Aircraft.set_velocity (Aircraft.set_throttle a 0) Vector3.zero,
             MissionSegment.set_completed g true).

Definition execute_segment (g : MissionSegment.t) (dt : R) (a : Aircraft.t)
  : option (Aircraft.t * MissionSegment.t) :=
  let n := MissionSegment.name g in
  let a := Aircraft.set_phase a n in
  if String.eqb n "WUTO" then execute_wuto g dt a
  else if String.eqb n "CLIMB" then execute_climb g dt a
  else if String.eqb n "CRUISE" then execute_cruise g dt a
  else if String.eqb n "TURN" then execute_turn g dt a
  else if String.eqb n "DESCENT" then execute_descent g dt a
  else if String.eqb n "LANDING" then execute_landing g dt a
  else Some (a, g).

Definition set_segments (m : t) (l : list MissionSegment.t) : t :=
  mk l (current_segment_index m) (mission_complete m) (total_fuel_consumed m)
     (total_distance m) (total_time m) (display_enabled m) (profile_data m).
Definition set_totals (m : t) (d tm : R) : t :=
  mk (segments m) (current_segment_index m) (mission_complete m)
     (total_fuel_consumed m) d tm (display_enabled m) (profile_data m).
Definition set_profile_data (m : t) (pd : ProfileData) : t :=
  mk (segments m) (current_segment_index m) (mission_complete m)
     (total_fuel_consumed m) (total_distance m) (total_time m)
     (display_enabled m) pd.
Definition set_index (m : t) (i : nat) : t :=
  mk (segments m) i (mission_complete m) (total_fuel_consumed m)
     (total_distance m) (total_time m) (display_enabled m) (profile_data m).
Definition set_complete (m : t) (c : bool) : t :=
  mk (segments m) (current_segment_index m) c (total_fuel_consumed m)
     (total_distance m) (total_time m) (display_enabled m) (profile_data m).
Definition set_display (m : t) (d : bool) : t :=
  mk (segments m) (current_segment_index m) (mission_complete m)
     (total_fuel_consumed m) (total_distance m) (total_time m) d
     (profile_data m).

Definition get_current_segment_name (m : t) : string :=
  match segments m !! current_segment_index m with
  | Some g => MissionSegment.name g
  | None => "COMPLETE"
  end.

Definition record_profile_data (a : Aircraft.t) (m : t) : t :=
  let pd := profile_data m in
  if Z.ltb (Z.of_nat (length (p_altitude pd))) (py_int (total_time m))
  then set_profile_data m
         (mkProfile (p_altitude pd ++ [alt a])
                    (p_range pd ++ [Aircraft.total_range a])
                    (p_fuel pd ++ [Aircraft.fuel_mass a])
                    (p_segments pd ++ [get_current_segment_name m]))
  else m.

Definition update (dt : R) (am : Aircraft.t * t) : option (Aircraft.t * t) :=
  let '(a, m) := am in
  let i := current_segment_index m in
  if mission_complete m || (length (segments m) <=? i)%nat
  then Some (a, m)
  else
    current_segment ← segments m !! i;
    '(a, g) ← execute_segment current_segment dt a;
    let m := set_segments m (<[i := g]> (segments m)) in
    let m := set_totals m (Aircraft.total_range a) (total_time m + dt) in
    let m := record_profile_data a m in
    if MissionSegment.completed g
    then
      let m := set_index m (S i) in
      if (length (segments m) <=? S i)%nat
      then Some (Aircraft.set_phase a "COMPLETE", set_complete m true)
      else Some (a, m)
    else Some (a, m).

Definition get_mission_progress (m : t) : R :=
  if (length (segments m) =? 0)%nat then 0
  else INR (current_segment_index m) / INR (length (segments m)) * 100.

Definition toggle_display (m : t) : t :=
  set_display m (negb (display_enabled m)).

Definition reset_segment (g : MissionSegment.t) : MissionSegment.t :=
  MissionSegment.set_turn_time
    (MissionSegment.set_progress (MissionSegment.set_completed g false) 0)
    None.

Definition reset (m : t) : t :=
  mk (map reset_segment (segments m)) 0 false 0 0 0
     (display_enabled m) empty_profile_data.

(** A sequence of [update] calls.  Each call comes with its time step and
    with the aircraft as it is when the call is made: between two calls
    the driver runs [Aircraft.update], which this sequence leaves free. *)
Fixpoint updates (steps : list (R * Aircraft.t)) (m : t) : option t :=
  match steps with
  | [] => Some m
  | (dt, a) :: rest => am ← update dt (a, m); updates rest (snd am)
  end.

End MissionProfile.

(** ** world.py: the two queries of the collision check *)

(** A distance that may be Python's [float('inf')]. *)
Module Dist.

Inductive t := Inf | Fin (r : R).

Definition min (d : t) (r : R) : t :=
  match d with
  | Inf => Fin r
  | Fin r0 => Fin (Rmin r0 r)
  end.

Definition ltb (d : t) (r : R) : bool :=
  match d with
  | Inf => false
  | Fin r0 => if Rlt_dec r0 r then true else false
  end.

Definition leb (d : t) (r : R) : bool :=
  match d with
  | Inf => false
  | Fin r0 => if Rle_dec r0 r then true else false
  end.

End Dist.

Module World.

Record Building := mkBuilding {
  b_position : Vector3.t; width : R; height : R; depth : R }.

Record Mountain := mkMountain {
  m_position : Vector3.t; radius : R; m_height : R }.

(** Buildings and mountains are drawn at random by the constructor.  Trees
    and clouds only reach the renderer and are left out, and with them
    [World.update], which moves the clouds. *)
Record t := mk { buildings : list Building; mountains : list Mountain }.

Definition terrain_size : Z := 100.
Definition terrain_scale : R := 50.

(** [_generate_terrain]: five octaves of a sine product on the grid. *)
Definition octave (i : nat) (gx gz : Z) : R :=
  let scale := 2 ^ i in
  let amplitude := 50 / scale in
  amplitude * sin (IZR gx / (10 * scale)) * cos (IZR gz / (10 * scale)).

Definition height_map (gx gz : Z) : R :=
  fold_left (fun h i => h + octave i gx gz) (seq 0 5) 0.

Definition get_terrain_height (w : t) (x z : R) : R :=
  let grid_x := py_int (x / terrain_scale + IZR terrain_size / 2) in
  let grid_z := py_int (z / terrain_scale + IZR terrain_size / 2) in
  let base_height :=
    if ((0 <=? grid_x)%Z && (grid_x <? terrain_size)%Z
        && (0 <=? grid_z)%Z && (grid_z <? terrain_size)%Z)%bool
    then height_map grid_x grid_z
    else 0 in
  fold_left
    (fun base_height mo =>
       let dist := sqrt ((x - Vector3.x (m_position mo)) ^ 2
                         + (z - Vector3.z (m_position mo)) ^ 2) in
       if Rlt_dec dist (radius mo)
       then Rmax base_height (m_height mo * (1 - dist / radius mo))
       else base_height)
    (mountains w) base_height.

Definition check_building_collision (p : Vector3.t) (b : Building) : R :=
  let min_x := Vector3.x (b_position b) - width b / 2 in
  let max_x := Vector3.x (b_position b) + width b / 2 in
  let min_z := Vector3.z (b_position b) - depth b / 2 in
  let max_z := Vector3.z (b_position b) + depth b / 2 in
  let min_y := 0 in
  let max_y := height b in
  let dx := Rmax (Rmax (min_x - Vector3.x p) 0) (Vector3.x p - max_x) in
  let dy := Rmax (Rmax (min_y - Vector3.y p) 0) (Vector3.y p - max_y) in
  let dz := Rmax (Rmax (min_z - Vector3.z p) 0) (Vector3.z p - max_z) in
  sqrt (dx * dx + dy * dy + dz * dz).

End World.

(** ** main.py: the camera *)

Module Camera.

(** The values [camera_mode] takes: the four strings of the list in
    [cycle_camera_mode], of which the constructor assigns the first. *)
Inductive mode := third_person | chase | orbit | free.

Definition mode_eqb (a b : mode) : bool :=
  match a, b with
  | third_person, third_person | chase, chase
  | orbit, orbit | free, free => true
  | _, _ => false
  end.

Record t := mk {
  camera_offset : Vector3.t;
  camera_position : Vector3.t;
  camera_mode : mode }.

Definition init : t :=
  mk (Vector3.mk 0 15 (-50)) Vector3.zero third_person.

Definition modes : list mode := [third_person; chase; orbit; free].

(** [list.index]: the place of the first occurrence; [None] stands for the
    ValueError raised when there is none. *)
Fixpoint index (l : list mode) (s : mode) : option nat :=
  match l with
  | [] => None
  | x :: rest => if mode_eqb x s then Some 0%nat else S <$> index rest s
  end.

Definition cycle_camera_mode (c : t) : option t :=
  current_index ← index modes (camera_mode c);
  mode ← modes !! ((current_index + 1) mod length modes)%nat;
  let offset :=
    match mode with
    | third_person => Vector3.mk 0 20 (-60)
    | chase => Vector3.mk 0 10 (-40)
    | orbit => Vector3.mk 30 15 (-30)
    | free => Vector3.mk 0 50 (-100)
    end in
  Some (mk offset (camera_position c) mode).

(** [n] presses of the camera key. *)
Fixpoint cycles (n : nat) (c : t) : option t :=
  match n with
  | O => Some c
  | S n => c' ← cycle_camera_mode c; cycles n c'
  end.

(** The three assignments [camera_position.x += (target_pos.x -
    camera_position.x) * k] and likewise for y and z. *)
Definition follow (c : t) (target_pos : Vector3.t) (k : R) : t :=
  let p := camera_position c in
  mk (camera_offset c)
     (Vector3.mk
        (Vector3.x p + (Vector3.x target_pos - Vector3.x p) * k)
        (Vector3.y p + (Vector3.y target_pos - Vector3.y p) * k)
        (Vector3.z p + (Vector3.z target_pos - Vector3.z p) * k))
     (camera_mode c).

Section Rotations.

(** pygame's [Vector3.rotate_x] and [Vector3.rotate_y]. *)
Variables rotate_x rotate_y : Vector3.t -> R -> Vector3.t.

(** The point a mode steers the camera to; the orbit mode has none, see
    [update_camera]. *)
Definition target_pos (a : Aircraft.t) (c : t) : Vector3.t :=
  let target_offset := camera_offset c in
  let target_offset :=
    match camera_mode c with
    | third_person =>
        rotate_x (rotate_y target_offset (Aircraft.yaw a))
                 (Aircraft.pitch a * 0.3)
    | chase =>
        rotate_x (rotate_y target_offset (Aircraft.yaw a))
                 (Aircraft.pitch a * 0.5)
    | _ => rotate_y target_offset (Aircraft.yaw a * 0.5)
    end in
  Vector3.add (Aircraft.position a) target_offset.

(** [update_camera].  The orbit branch calls [math.sin], and main.py does
    not import [math]: the call raises NameError, which is the [None]
    here. *)
Definition update_camera (a : Aircraft.t) (c : t) : option t :=
  match camera_mode c with
  | third_person => Some (follow c (target_pos a c) 0.1)
  | chase => Some (follow c (target_pos a c) 0.2)
  | orbit => None
  | free => Some (follow c (target_pos a c) 0.05)
  end.

(** [n] camera updates while the aircraft stays as it is. *)
Fixpoint update_cameras (n : nat) (a : Aircraft.t) (c : t) : option t :=
  match n with
  | O => Some c
  | S n => c' ← update_camera a c; update_cameras n a c'
  end.

End Rotations.

End Camera.

(** ** pygame: the rotations of [Vector3] *)

(** [Vector3.rotate_x] and [Vector3.rotate_y] are library code, used by
    the camera only; nothing is assumed about them. *)
Class Pygame := {
  rotate_x : Vector3.t -> R -> Vector3.t;
  rotate_y : Vector3.t -> R -> Vector3.t }.

(** ** main.py: the driver *)

Module FlightSimulator.

(** State of the driver: the simulation and the camera.  The screen, the
    clock and the HUD are presentation and are left out. *)
Record t := mk {
  aircraft : Aircraft.t;
  world : World.t;
  mission : MissionProfile.t;
  running : bool; paused : bool; crashed : bool;
  warning_timer : R; collision_warning : bool;
  debug_mode : bool;
  camera : Camera.t }.

(** [__init__]: the aircraft is built without a configuration file. *)
Definition init (w : World.t) : t :=
  mk (Aircraft.init Aircraft.default_config) w MissionProfile.init
     true false false 0 false true Camera.init.

Inductive key :=
  K_ESCAPE | K_p | K_r | K_m | K_d | K_c | K_TAB | K_other.

Inductive event := QUIT | KEYDOWN (k : key) | OTHER.

Definition set_running (s : t) (b : bool) : t :=
  mk (aircraft s) (world s) (mission s) b (paused s) (crashed s)
     (warning_timer s) (collision_warning s) (debug_mode s) (camera s).
Definition set_paused (s : t) (b : bool) : t :=
  mk (aircraft s) (world s) (mission s) (running s) b (crashed s)
     (warning_timer s) (collision_warning s) (debug_mode s) (camera s).
Definition set_mission (s : t) (m : MissionProfile.t) : t :=
  mk (aircraft s) (world s) m (running s) (paused s) (crashed s)
     (warning_timer s) (collision_warning s) (debug_mode s) (camera s).
Definition set_debug_mode (s : t) (b : bool) : t :=
  mk (aircraft s) (world s) (mission s) (running s) (paused s) (crashed s)
     (warning_timer s) (collision_warning s) b (camera s).
Definition set_flight (s : t) (a : Aircraft.t) (m : MissionProfile.t) : t :=
  mk a (world s) m (running s) (paused s) (crashed s)
     (warning_timer s) (collision_warning s) (debug_mode s) (camera s).
Definition set_camera (s : t) (c : Camera.t) : t :=
  mk (aircraft s) (world s) (mission s) (running s) (paused s) (crashed s)
     (warning_timer s) (collision_warning s) (debug_mode s) c.

Definition reset_simulation (s : t) : t :=
  mk (Aircraft.reset (aircraft s)) (world s)
     (MissionProfile.reset (mission s))
     (running s) (paused s) false 0 false (debug_mode s) (camera s).

(** One event of [handle_events].  [K_c] cycles the camera mode; [K_TAB]
    changes the HUD only. *)
Definition handle_event (e : event) (s : t) : option t :=
  match e with
  | QUIT => Some (set_running s false)
  | KEYDOWN K_ESCAPE => Some (set_running s false)
  | KEYDOWN K_p => Some (set_paused s (negb (paused s)))
  | KEYDOWN K_r => Some (if crashed s then reset_simulation s else s)
  | KEYDOWN K_m =>
      Some (set_mission s (MissionProfile.toggle_display (mission s)))
  | KEYDOWN K_d => Some (set_debug_mode s (negb (debug_mode s)))
  | KEYDOWN K_c =>
      c ← Camera.cycle_camera_mode (camera s); Some (set_camera s c)
  | KEYDOWN K_TAB => Some s
  | KEYDOWN K_other => Some s
  | OTHER => Some s
  end.

Fixpoint handle_events (evs : list event) (s : t) : option t :=
  match evs with
  | [] => Some s
  | e :: rest => s' ← handle_event e s; handle_events rest s'
  end.

Definition altitude_agl (s : t) : R :=
  let p := Aircraft.position (aircraft s) in
  Vector3.y p - World.get_terrain_height (world s) (Vector3.x p) (Vector3.z p).

Definition min_building_distance (s : t) : Dist.t :=
  fold_left
    (fun d b =>
       Dist.min d
         (World.check_building_collision (Aircraft.position (aircraft s)) b))
    (World.buildings (world s)) Dist.Inf.

Definition warning_threshold : R := 100.
Definition critical_threshold : R := 30.

Definition check_collisions (dt : R) (s : t) : t :=
  let agl := altitude_agl s in
  let mbd := min_building_distance s in
  if (if Rlt_dec agl critical_threshold then true
      else Dist.ltb mbd critical_threshold)
  then
    let tm := warning_timer s + dt in
    if (if Rle_dec agl 5 then true else Dist.leb mbd 10)
    then mk (Aircraft.set_velocity (aircraft s) Vector3.zero) (world s)
            (mission s) (running s) (paused s) true tm true (debug_mode s)
            (camera s)
    else mk (aircraft s) (world s) (mission s) (running s) (paused s)
            (crashed s) tm true (debug_mode s) (camera s)
  else if (if Rlt_dec agl warning_threshold then true
           else Dist.ltb mbd warning_threshold)
  then mk (aircraft s) (world s) (mission s) (running s) (paused s)
          (crashed s) (warning_timer s + dt) true (debug_mode s) (camera s)
  else mk (aircraft s) (world s) (mission s) (running s) (paused s)
          (crashed s) 0 false (debug_mode s) (camera s).

(** [update] from the aircraft update to the collision check.
    [World.update] between the two moves the clouds only, which are not
    part of this state. *)
Definition update_flight (dt : R) (keys : Aircraft.Keys) (s : t) : option t :=
  a ← Aircraft.update dt keys (aircraft s);
  '(a, m) ← MissionProfile.update dt (a, mission s);
  Some (check_collisions dt (set_flight s a m)).

(** What the main loop does to the state: it handles an event, or it
    calls [update] with the frame's time step and pressed keys. *)
Inductive op := Event (e : event) | Update (dt : R) (keys : Aircraft.Keys).

Section Rotations.

Context {pygame : Pygame}.

(** [update]: nothing when paused or crashed; otherwise the flight and,
    last, the camera. *)
Definition update (dt : R) (keys : Aircraft.Keys) (s : t) : option t :=
  if paused s || crashed s then Some s
  else
    s ← update_flight dt keys s;
    c ← Camera.update_camera rotate_x rotate_y (aircraft s) (camera s);
    Some (set_camera s c).

Definition apply_op (o : op) (s : t) : option t :=
  match o with
  | Event e => handle_event e s
  | Update dt keys => update dt keys s
  end.

Fixpoint run (ops : list op) (s : t) : option t :=
  match ops with
  | [] => Some s
  | o :: rest => s' ← apply_op o s; run rest s'
  end.

(** The states the loop can reach from a fresh simulator. *)
Inductive reachable (w : World.t) : t -> Prop :=
  | reachable_init : reachable w (init w)
  | reachable_op o s s' :
      reachable w s -> apply_op o s = Some s' -> reachable w s'.

End Rotations.

End FlightSimulator.

(** ** world.py: the view and the clouds *)

Module WorldView.

(** pygame's [Vector3.__sub__]. *)
Definition sub (u v : Vector3.t) : Vector3.t :=
  Vector3.mk (Vector3.x u - Vector3.x v) (Vector3.y u - Vector3.y v)
             (Vector3.z u - Vector3.z v).

(** [rotate_vector]: the axis is a string, and any string other than 'y'
    and 'x' returns the vector as it is. *)
Definition rotate_vector (vector : Vector3.t) (angle : R) (axis : string)
  : Vector3.t :=
  let cos_a := cos angle in
  let sin_a := sin angle in
  if String.eqb axis "y"
  then Vector3.mk (Vector3.x vector * cos_a + Vector3.z vector * sin_a)
                  (Vector3.y vector)
                  (- Vector3.x vector * sin_a + Vector3.z vector * cos_a)
  else if String.eqb axis "x"
  then Vector3.mk (Vector3.x vector)
                  (Vector3.y vector * cos_a - Vector3.z vector * sin_a)
                  (Vector3.y vector * sin_a + Vector3.z vector * cos_a)
  else vector.

(** [math.radians]. *)
Definition radians (d : R) : R := d * PI / 180.

(** What [project_3d_to_2d] returns: [None] for a point behind the
    camera, or the pixel. *)
Inductive projection := Hidden | Pixel (px py : Z).

(** [project_3d_to_2d]; the outer [option] is [None] when a division
    raises. *)
Definition project_3d_to_2d (screen_width screen_height : Z)
  (point3d camera_pos aircraft_rotation : Vector3.t) : option projection :=
  let relative := sub point3d camera_pos in
  let relative :=
    rotate_vector relative (- Vector3.y aircraft_rotation) "y" in
  let relative :=
    rotate_vector relative (- Vector3.x aircraft_rotation * 0.5) "x" in
  if Rle_dec (Vector3.z relative) 0 then Some Hidden
  else
    let fov := 60 in
    factor ← py_div (IZR screen_height / 2) (tan (radians (fov / 2)));
    qx ← py_div (Vector3.x relative * factor) (Vector3.z relative);
    qy ← py_div (Vector3.y relative * factor) (Vector3.z relative);
    let x := IZR screen_width / 2 + qx in
    let y := IZR screen_height / 2 - qy in
    Some (Pixel (py_int x) (py_int y)).

(** A cloud of [_generate_clouds]. *)
Record Cloud := mkCloud { c_position : Vector3.t; c_size : Z; c_speed : R }.

(** [World.update]: the clouds drift along x and wrap around at 3500.  The
    position of the aircraft is an argument the function does not use. *)
Definition update (dt : R) (aircraft_pos : Vector3.t) (clouds : list Cloud)
  : list Cloud :=
  map (fun cloud =>
         let x := Vector3.x (c_position cloud) + c_speed cloud * dt in
         let x := if Rgt_dec x 3500 then -3500 else x in
         mkCloud (Vector3.set_x (c_position cloud) x)
                 (c_size cloud) (c_speed cloud))
      clouds.

End WorldView.

(** ** hud.py: the numbers on the display *)

Module HUD.

(** Python's [x // y] and [x % y] on floats, for a divisor [y] that is
    positive. *)
Definition py_floordiv (x y : R) : R := IZR (Zfloor (x / y)).
Definition py_mod (x y : R) : R := x - y * IZR (Zfloor (x / y)).

(** [math.degrees]. *)
Definition degrees (r : R) : R := r * 180 / PI.

(** [render_basic_hud]: the heading shown. *)
Definition heading (a : Aircraft.t) : Z :=
  py_int (py_mod (degrees (Aircraft.yaw a)) 360).

(** [render_mission_info]: the minutes and seconds shown. *)
Definition mission_clock (m : MissionProfile.t) : Z * Z :=
  let minutes := py_int (py_floordiv (MissionProfile.total_time m) 60) in
  let seconds := py_int (py_mod (MissionProfile.total_time m) 60) in
  (minutes, seconds).

(** [render_warning]: whether the blinking warning is drawn. *)
Definition warning_visible (warning_timer : R) : bool :=
  (py_int (warning_timer * 4) mod 2 =? 0)%Z.

(** [render_detailed_view]: the lift-to-drag ratio, climb rate, endurance
    and range estimate it prints. *)
Definition performance_data (a : Aircraft.t) : option (R * R * R * R) :=
  let speed := Vector3.length (Aircraft.velocity a) in
  if Rgt_dec speed 0
  then
    let alpha := Aircraft.pitch a in
    let CL := Aircraft.CL0 + Aircraft.CL_alpha * alpha in
    let CD := Aircraft.CD0 + Aircraft.K * CL * CL in
    LD_ratio ← (if Rgt_dec CD 0 then py_div CL CD else Some 0);
    let climb_rate := Vector3.y (Aircraft.velocity a) in
    if Rgt_dec (Aircraft.fuel_flow_rate a * Aircraft.throttle a) 0
    then
      endurance ← py_div (Aircraft.fuel_mass a)
                         (Aircraft.fuel_flow_rate a * Aircraft.throttle a);
      let range_estimate := speed * endurance in
      Some (LD_ratio, climb_rate, endurance, range_estimate)
    else Some (LD_ratio, climb_rate, 0, 0)
  else Some (0, 0, 0, 0).

End HUD.

(** ** physics.py *)

Module AtmosphereISA.

Definition SEA_LEVEL_TEMP : R := 288.15.
Definition SEA_LEVEL_PRESSURE : R := 101325.
Definition SEA_LEVEL_DENSITY : R := 1.225.
Definition TEMP_LAPSE_RATE : R := -0.0065.
Definition GAS_CONSTANT : R := 287.05.
Definition GRAVITY : R := 9.80665.

(** [x ** y] on floats: the real power for a positive base, 0 for base 0
    with a positive exponent.  [None] covers what is left: base 0 with an
    exponent that is not positive, and a negative base, where Python
    raises or returns a complex number. *)
Definition py_pow (x y : R) : option R :=
  if Rlt_dec 0 x then Some (Rpower x y)
  else if Req_dec_T x 0
       then if Rlt_dec 0 y then Some 0 else None
       else None.

Definition get_temperature (altitude : R) : R :=
  if Rlt_dec altitude 11000
  then SEA_LEVEL_TEMP + TEMP_LAPSE_RATE * altitude
  else 216.65.

(** The branch of [get_pressure] below 11000 m. *)
Definition pressure_troposphere (altitude : R) : option R :=
  let temp := get_temperature altitude in
  temp_ratio ← py_div temp SEA_LEVEL_TEMP;
  exponent ← py_div (- GRAVITY) (TEMP_LAPSE_RATE * GAS_CONSTANT);
  p ← py_pow temp_ratio exponent;
  Some (SEA_LEVEL_PRESSURE * p).

(** [get_pressure].  Above, the function calls itself at 10999, which is
    below 11000 and so takes the first branch. *)
Definition get_pressure (altitude : R) : option R :=
  if Rlt_dec altitude 11000
  then pressure_troposphere altitude
  else
    p_11km ← pressure_troposphere 10999;
    e ← py_div (- GRAVITY * (altitude - 11000)) (GAS_CONSTANT * 216.65);
    Some (p_11km * exp e).

Definition get_density (altitude : R) : option R :=
  pressure ← get_pressure altitude;
  let temperature := get_temperature altitude in
  py_div pressure (GAS_CONSTANT * temperature).

End AtmosphereISA.

Module PerformanceCalculator.

(** [calculate_turn_radius]; [Dist.Inf] is [float('inf')]. *)
Definition calculate_turn_radius (velocity bank_angle : R) : option Dist.t :=
  if Req_dec_T bank_angle 0 then Some Dist.Inf
  else r ← py_div (velocity ^ 2) (9.81 * tan bank_angle); Some (Dist.Fin r).

Definition calculate_turn_rate (velocity bank_angle : R) : option R :=
  if Rgt_dec velocity 0
  then py_div (9.81 * tan bank_angle) velocity
  else Some 0.

End PerformanceCalculator.

(** * Specification vocabulary *)

(** The state [Aircraft.update] expects as far as fuel is concerned: a
    positive empty mass, and fuel, throttle and fuel flow rate that are not
    negative.  [Aircraft.init] gives such a state for the default
    configuration, and every update keeps it. *)
Definition fuel_ready (a : Aircraft.t) : Prop :=
  0 < Aircraft.mass a /\ 0 <= Aircraft.fuel_mass a
  /\ 0 <= Aircraft.throttle a /\ 0 <= Aircraft.fuel_flow_rate a.

(** The throttle [update_physics] sees, computed from the throttle and fuel
    at entry and from the two throttle keys. *)
Definition throttle_at_physics (dt : R) (keys : Aircraft.Keys) (a : Aircraft.t)
  : R :=
  let th := if Rle_dec (Aircraft.fuel_mass a) 0 then 0 else Aircraft.throttle a in
  let th := if Aircraft.K_LSHIFT keys then Rmin 1 (th + dt) else th in
  if Aircraft.K_LCTRL keys then Rmax 0 (th - dt) else th.

(** An aircraft flying level at the service ceiling with the initial
    velocity and throttle. *)
Definition at_ceiling : Aircraft.t :=
  Aircraft.set_position (Aircraft.init Aircraft.default_config)
    (Vector3.mk 0 Aircraft.service_ceiling 0).

(** The initial aircraft with the tank run dry. *)
Definition out_of_fuel : Aircraft.t :=
  Aircraft.set_fuel_mass (Aircraft.init Aircraft.default_config) 0.

(** Only the throttle-up key is held. *)
Definition shift_held : Aircraft.Keys :=
  Aircraft.mkKeys false false false false false false true false false.

(** What the constructor of a segment fixes and no code writes later. *)
Definition static (g : MissionSegment.t)
  : string * option R * option R * option R * option R :=
  (MissionSegment.name g, MissionSegment.target_altitude g,
   MissionSegment.target_speed g, MissionSegment.duration g,
   MissionSegment.distance g).

Definition completed_flags (m : MissionProfile.t) : list bool :=
  map MissionSegment.completed (MissionProfile.segments m).

Definition segment_names (m : MissionProfile.t) : list string :=
  map MissionSegment.name (MissionProfile.segments m).

Definition segment_count : nat := 6.

(** The shape every mission has between a reset and the next one: the six
    segments of [create_default_mission] in their order, the cursor at
    most six, and the segments before the cursor completed, the others
    not. *)
Definition mission_wf (m : MissionProfile.t) : Prop :=
  map static (MissionProfile.segments m)
  = map static MissionProfile.create_default_mission
  /\ (MissionProfile.current_segment_index m <= segment_count)%nat
  /\ completed_flags m
     = replicate (MissionProfile.current_segment_index m) true
       ++ replicate (segment_count - MissionProfile.current_segment_index m)
                    false
  /\ (MissionProfile.mission_complete m = true ->
      MissionProfile.current_segment_index m = segment_count).

(** The progress field of the first segment (WUTO). *)
Definition wuto_progress (m : MissionProfile.t) : R :=
  match MissionProfile.segments m !! 0%nat with
  | Some g => MissionSegment.progress g
  | None => 0
  end.

(** The configuration an aircraft was built with. *)
Definition config_of (a : Aircraft.t) : Aircraft.Config :=
  Aircraft.mkConfig (Aircraft.mass a) (Aircraft.wing_area a)
    (Aircraft.max_thrust a) (Aircraft.fuel_capacity a)
    (Aircraft.fuel_flow_rate a).

(** The fields of the aircraft that the control inputs never write. *)
Definition aircraft_core (a : Aircraft.t) :=
  (config_of a, Aircraft.fuel_mass a,
   Aircraft.position a, Aircraft.velocity a).

(** What executing a segment may change: not the constructor fields of
    the segment, not a completed flag that is set, and on the aircraft
    neither the configuration, nor the fuel, nor the position. *)
Definition segment_step_ok
  (g g' : MissionSegment.t) (a a' : Aircraft.t) : Prop :=
  static g' = static g
  /\ (MissionSegment.completed g' = true
      \/ MissionSegment.completed g' = MissionSegment.completed g)
  /\ config_of a' = config_of a
  /\ Aircraft.fuel_mass a' = Aircraft.fuel_mass a
  /\ Aircraft.position a' = Aircraft.position a.

(** The one event that resets the simulation. *)
Definition is_reset (o : FlightSimulator.op) : bool :=
  match o with
  | FlightSimulator.Event (FlightSimulator.KEYDOWN FlightSimulator.K_r) => true
  | _ => false
  end.

(** What holds of the simulator in every state the loop reaches: the
    aircraft has the default configuration and no negative fuel, the
    mission is well-formed, and the warning timer is zero when there is no
    collision warning. *)
Definition sim_wf (s : FlightSimulator.t) : Prop :=
  config_of (FlightSimulator.aircraft s) = Aircraft.default_config
  /\ 0 <= Aircraft.fuel_mass (FlightSimulator.aircraft s)
  /\ mission_wf (FlightSimulator.mission s)
  /\ (FlightSimulator.collision_warning s = false ->
      FlightSimulator.warning_timer s = 0).

(** A world with no building and one mountain, 500 m high and 600 m wide
    at its foot, outside the terrain grid. *)
Definition mountain_world : World.t :=
  World.mk [] [World.mkMountain (Vector3.mk 3000 0 3000) 600 500].

(** A fresh simulator in that world whose aircraft is above the summit at
    altitude [y]. *)
Definition flying_at (y : R) : FlightSimulator.t :=
  let s := FlightSimulator.init mountain_world in
  FlightSimulator.set_flight s
    (Aircraft.set_position (FlightSimulator.aircraft s) (Vector3.mk 3000 y 3000))
    (FlightSimulator.mission s).

(** The simulator after the collision check of a 1/60 s tick found the
    aircraft 3 m above the summit. *)
Definition crashed_sim : FlightSimulator.t :=
  FlightSimulator.check_collisions (1 / 60) (flying_at 503).

(** Some building of the world is nearer to the aircraft than [r], or at
    most [r] away from it. *)
Definition building_within (s : FlightSimulator.t) (r : R) : Prop :=
  exists b, In b (World.buildings (FlightSimulator.world s))
            /\ World.check_building_collision
                 (Aircraft.position (FlightSimulator.aircraft s)) b < r.

Definition building_at_most (s : FlightSimulator.t) (r : R) : Prop :=
  exists b, In b (World.buildings (FlightSimulator.world s))
            /\ World.check_building_collision
                 (Aircraft.position (FlightSimulator.aircraft s)) b <= r.

(** A world with one airport building, 60 m wide and deep and 50 m high,
    on the origin, and the mountain of [mountain_world]. *)
Definition hangar_world : World.t :=
  World.mk [World.mkBuilding (Vector3.mk 0 0 0) 60 50 60]
           [World.mkMountain (Vector3.mk 3000 0 3000) 600 500].

(** A fresh simulator in that world with the aircraft moved to [p]. *)
Definition hangar_sim (p : Vector3.t) : FlightSimulator.t :=
  let s := FlightSimulator.init hangar_world in
  FlightSimulator.set_flight s
    (Aircraft.set_position (FlightSimulator.aircraft s) p)
    (FlightSimulator.mission s).


(** Rotations that leave every vector alone: an instance to run examples
    with, where the camera position does not matter. *)
Definition no_rotation : Pygame :=
  {| rotate_x := fun v _ => v; rotate_y := fun v _ => v |}.

(** Paused or crashed: the states in which [update] does nothing. *)
Definition frozen (s : FlightSimulator.t) : bool :=
  FlightSimulator.paused s || FlightSimulator.crashed s.

(** The camera key. *)
Definition camera_key : FlightSimulator.op :=
  FlightSimulator.Event (FlightSimulator.KEYDOWN FlightSimulator.K_c).

(** A segment as its constructor fields alone determine it: not completed,
    no progress, no turn timer. *)
Definition fresh_segment
  (st : string * option R * option R * option R * option R)
  : MissionSegment.t :=
  let '(n, ta, ts, du, di) := st in MissionSegment.init n ta ts du di.

(** Case analysis on the tests and optional fields an [execute_*] result
    [H] went through. *)
Ltac exec_cases H :=
  repeat first
    [ discriminate H
    | progress cbn [mbind option_bind] in H
    | match type of H with
      | context [mbind _ ?o] =>
          lazymatch o with
          | Some _ => fail
          | None => fail
          | _ => destruct o eqn:?
          end
      | context [if ?c then _ else _] => destruct c
      end ].

Ltac exec_done H :=
  inversion H; subst; unfold segment_step_ok; cbn; auto 8.

(** The manual attitude limits of [Aircraft.update]. *)
Definition attitude_ok (a : Aircraft.t) : Prop :=
  - (PI / 6) <= Aircraft.pitch a <= PI / 6
  /\ - (PI / 3) <= Aircraft.roll a <= PI / 3.

(** The recorded samples of an aircraft: the five lists are equally long,
    and there are at most as many samples as whole seconds of mission
    time. *)
Definition samples_ok (a : Aircraft.t) : Prop :=
  let d := Aircraft.mission_data a in
  length (Aircraft.altitude d) = length (Aircraft.time d)
  /\ length (Aircraft.speed d) = length (Aircraft.time d)
  /\ length (Aircraft.fuel d) = length (Aircraft.time d)
  /\ length (Aircraft.range d) = length (Aircraft.time d)
  /\ (Z.of_nat (length (Aircraft.time d)) <= py_int (Aircraft.mission_time a))%Z
  /\ 0 <= Aircraft.mission_time a.

(** The turn timer of the TURN segment, 0 while the attribute is absent. *)
Definition turn_elapsed (m : MissionProfile.t) : R :=
  match MissionProfile.segments m !! 3%nat with
  | Some g => match MissionSegment.turn_time g with
              | Some t0 => t0
              | None => 0
              end
  | None => 0
  end.

(** The aircraft [MissionProfile.update] hands back when the segment it
    executed left the aircraft [a1] and the flag [done]: the phase becomes
    COMPLETE when the last segment is done. *)
Definition after_segment (i : nat) (done : bool) (a1 : Aircraft.t)
  : Aircraft.t :=
  if done && (segment_count <=? S i)%nat
  then Aircraft.set_phase a1 "COMPLETE" else a1.

(** The default mission with the cursor on segment [k]: the segments
    before it completed, the others as built. *)
Definition mission_at (k : nat) : MissionProfile.t :=
  MissionProfile.set_index
    (MissionProfile.set_segments MissionProfile.init
       (map (fun g => MissionSegment.set_completed g true)
            (take k MissionProfile.create_default_mission)
        ++ drop k MissionProfile.create_default_mission)) k.

(** The initial aircraft moved to altitude [y]. *)
Definition aircraft_at (y : R) : Aircraft.t :=
  Aircraft.set_position (Aircraft.init Aircraft.default_config)
    (Vector3.mk 0 y 0).

(** The range the throttle is meant to stay in. *)
Definition throttle_ok (a : Aircraft.t) : Prop :=
  0 <= Aircraft.throttle a <= 1.

(** A loop operation whose time step, if it has one, is not negative:
    the driver takes it from [clock.tick]. *)
Definition forward (o : FlightSimulator.op) : Prop :=
  match o with
  | FlightSimulator.Update dt _ => 0 <= dt
  | FlightSimulator.Event _ => True
  end.

(** The recorded mission profile: the four lists are equally long, there
    are at most as many samples as whole seconds of mission time, and
    every recorded segment name is the name of one of the six segments. *)
Definition profile_ok (m : MissionProfile.t) : Prop :=
  let pd := MissionProfile.profile_data m in
  length (MissionProfile.p_range pd) = length (MissionProfile.p_altitude pd)
  /\ length (MissionProfile.p_fuel pd) = length (MissionProfile.p_altitude pd)
  /\ length (MissionProfile.p_segments pd)
     = length (MissionProfile.p_altitude pd)
  /\ (Z.of_nat (length (MissionProfile.p_altitude pd))
      <= py_int (MissionProfile.total_time m))%Z
  /\ 0 <= MissionProfile.total_time m
  /\ Forall (fun n => In n (map MissionSegment.name
                              MissionProfile.create_default_mission))
            (MissionProfile.p_segments pd).

(** The fraction of the remaining way the camera covers per frame. *)
Definition camera_rate (mode : Camera.mode) : R :=
  match mode with
  | Camera.third_person => 0.1
  | Camera.chase => 0.2
  | _ => 0.05
  end.

(** The modes whose branch of [update_camera] steers to a target. *)
Definition steering_mode (mode : Camera.mode) : Prop :=
  mode = Camera.third_person \/ mode = Camera.chase \/ mode = Camera.free.

(** * Properties *)

(** ** Real-number and vector facts *)

Lemma py_div_some (a b : R) : b <> 0 -> py_div a b = Some (a / b).
Proof.
  intros Hb. unfold py_div. destruct (Req_dec_T b 0); [contradiction | reflexivity].
Qed.

Lemma length_squared_nonneg (v : Vector3.t) : 0 <= Vector3.length_squared v.
Proof. unfold Vector3.length_squared. nra. Qed.

Lemma length_nonneg (v : Vector3.t) : 0 <= Vector3.length v.
Proof. apply sqrt_pos. Qed.

Lemma length_sqr (v : Vector3.t) :
  Vector3.length v * Vector3.length v = Vector3.length_squared v.
Proof. apply sqrt_sqrt, length_squared_nonneg. Qed.

Lemma length_le_iff (v : Vector3.t) (m : R) :
  0 <= m -> (Vector3.length v <= m <-> Vector3.length_squared v <= m * m).
Proof.
  intros Hm. pose proof (length_nonneg v) as Hl. pose proof (length_sqr v) as Hs.
  split; intros H; nra.
Qed.

Lemma length_axis (r : R) : 0 <= r -> Vector3.length (Vector3.mk 0 0 r) = r.
Proof.
  intros Hr. unfold Vector3.length, Vector3.length_squared. simpl.
  replace (0 * 0 + 0 * 0 + r * r) with (r * r) by ring.
  now apply sqrt_square.
Qed.

Lemma normalize_some (v : Vector3.t) :
  Vector3.length v <> 0 ->
  Vector3.normalize v =
  Some (Vector3.mk (Vector3.x v / Vector3.length v)
                   (Vector3.y v / Vector3.length v)
                   (Vector3.z v / Vector3.length v)).
Proof.
  intros Hl. unfold Vector3.normalize.
  destruct (Req_dec_T (Vector3.length v) 0); [contradiction | reflexivity].
Qed.

(** ** The clamps of [update_physics] *)

Lemma clamp_speed_bound (v : Vector3.t) :
  exists v', Aircraft.clamp_speed v = Some v'
             /\ Vector3.length v' <= Aircraft.max_speed.
Proof.
  unfold Aircraft.clamp_speed, Aircraft.max_speed.
  destruct (Rgt_dec (Vector3.length v) 250) as [Hgt | Hle].
  - assert (Hl : Vector3.length v <> 0) by lra.
    rewrite (normalize_some v Hl). simpl. eexists. split; [reflexivity |].
    apply length_le_iff; [lra |].
    pose proof (length_sqr v) as Hs.
    unfold Vector3.length_squared in *. simpl.
    set (l := Vector3.length v) in *.
    assert (E : Vector3.x v / l * (Vector3.x v / l)
                + Vector3.y v / l * (Vector3.y v / l)
                + Vector3.z v / l * (Vector3.z v / l) = 1).
    { transitivity ((Vector3.x v * Vector3.x v + Vector3.y v * Vector3.y v
                     + Vector3.z v * Vector3.z v) / (l * l)).
      - field. exact Hl.
      - rewrite <- Hs. field. exact Hl. }
    nra.
  - exists v. split; [reflexivity | lra].
Qed.

Lemma clamp_altitude_bounds (p v : Vector3.t) :
  Vector3.length v <= Aircraft.max_speed ->
  10 <= Vector3.y (fst (Aircraft.clamp_altitude p v)) <= Aircraft.service_ceiling
  /\ Vector3.length (snd (Aircraft.clamp_altitude p v)) <= Aircraft.max_speed.
Proof.
  unfold Aircraft.clamp_altitude, Aircraft.service_ceiling, Aircraft.max_speed.
  intros Hv.
  destruct (Rlt_dec (Vector3.y p) 10) as [Hlow | Hlow].
  - simpl. destruct (Rgt_dec 10 12000) as [Habs | _]; [lra |]. simpl.
    split; [lra |].
    destruct (Rlt_dec (Vector3.y v) 0) as [Hneg | _]; [| exact Hv].
    apply length_le_iff; [lra |]. apply length_le_iff in Hv; [| lra].
    unfold Vector3.length_squared in *. simpl. nra.
  - destruct (Rgt_dec (Vector3.y p) 12000) as [Hhigh | Hhigh]; simpl.
    + split; [lra | exact Hv].
    + split; [lra | exact Hv].
Qed.

Lemma clamp_altitude_horizontal (p v : Vector3.t) :
  let pv := Aircraft.clamp_altitude p v in
  Vector3.x (fst pv) = Vector3.x p /\ Vector3.z (fst pv) = Vector3.z p
  /\ Vector3.x (snd pv) = Vector3.x v /\ Vector3.z (snd pv) = Vector3.z v.
Proof.
  unfold Aircraft.clamp_altitude. cbn zeta.
  destruct (Rlt_dec (Vector3.y p) 10).
  - destruct (Rgt_dec _ _), (Rlt_dec (Vector3.y v) 0);
      cbn; repeat split; reflexivity.
  - destruct (Rgt_dec _ _); cbn; repeat split; reflexivity.
Qed.

Lemma component_le_length (v : Vector3.t) (m : R) :
  Vector3.length v <= m ->
  Rabs (Vector3.x v) <= m /\ Rabs (Vector3.z v) <= m.
Proof.
  intros Hv. pose proof (length_nonneg v) as H0.
  assert (Hm : 0 <= m) by lra.
  apply length_le_iff in Hv; [| exact Hm].
  unfold Vector3.length_squared in Hv.
  split; apply Rabs_le; split; nra.
Qed.

(** ** [Aircraft.update]: what each stage leaves alone *)

Lemma apply_controls_frame (dt : R) (keys : Aircraft.Keys) (a : Aircraft.t) :
  let a' := Aircraft.apply_controls dt keys a in
  Aircraft.mass a' = Aircraft.mass a
  /\ Aircraft.fuel_mass a' = Aircraft.fuel_mass a
  /\ Aircraft.fuel_flow_rate a' = Aircraft.fuel_flow_rate a
  /\ Aircraft.position a' = Aircraft.position a
  /\ Aircraft.velocity a' = Aircraft.velocity a
  /\ Aircraft.max_thrust a' = Aircraft.max_thrust a
  /\ config_of a' = config_of a.
Proof.
  assert (Hf : forall a0, aircraft_core (Aircraft.fuel_check a0) = aircraft_core a0).
  { intros a0. unfold Aircraft.fuel_check.
    destruct (Rle_dec (Aircraft.fuel_mass a0) 0); reflexivity. }
  assert (Hp : forall a0,
             aircraft_core (Aircraft.pitch_control dt keys a0) = aircraft_core a0).
  { intros a0. unfold Aircraft.pitch_control.
    destruct (Aircraft.K_w keys), (Aircraft.K_s keys); reflexivity. }
  assert (Hr : forall a0,
             aircraft_core (Aircraft.roll_control dt keys a0) = aircraft_core a0).
  { intros a0. unfold Aircraft.roll_control.
    destruct (Aircraft.K_a keys), (Aircraft.K_d keys); reflexivity. }
  assert (Hy : forall a0,
             aircraft_core (Aircraft.yaw_control dt keys a0) = aircraft_core a0).
  { intros a0. unfold Aircraft.yaw_control.
    destruct (Aircraft.K_q keys), (Aircraft.K_e keys); reflexivity. }
  assert (Ht : forall a0,
             aircraft_core (Aircraft.throttle_control dt keys a0)
             = aircraft_core a0).
  { intros a0. unfold Aircraft.throttle_control.
    destruct (Aircraft.K_LSHIFT keys), (Aircraft.K_LCTRL keys); reflexivity. }
  assert (Hl : forall a0,
             aircraft_core (Aircraft.auto_level keys a0) = aircraft_core a0).
  { intros a0. unfold Aircraft.auto_level.
    destruct (Aircraft.K_SPACE keys); reflexivity. }
  assert (E : aircraft_core (Aircraft.apply_controls dt keys a) = aircraft_core a).
  { unfold Aircraft.apply_controls. now rewrite Hl, Ht, Hy, Hr, Hp, Hf. }
  unfold aircraft_core, config_of in E. cbv zeta. unfold config_of.
  repeat split; congruence.
Qed.

Lemma update_physics_total (dt : R) (a : Aircraft.t) :
  Aircraft.get_total_mass a <> 0 ->
  exists p v,
    Aircraft.update_physics dt a
    = Some (Aircraft.set_velocity (Aircraft.set_position a p) v)
    /\ 10 <= Vector3.y p <= Aircraft.service_ceiling
    /\ Vector3.length v <= Aircraft.max_speed
    /\ Vector3.x p = Vector3.x (Aircraft.position a) + Vector3.x v * dt
    /\ Vector3.z p = Vector3.z (Aircraft.position a) + Vector3.z v * dt.
Proof.
  intros Hm. unfold Aircraft.update_physics.
  rewrite !(py_div_some _ _ Hm). cbn [mbind option_bind].
  destruct (Rgt_dec (Vector3.length (Aircraft.velocity a)) 0.1) as [Hs | Hs].
  - rewrite normalize_some by lra. cbn [mbind option_bind].
    match goal with
    | |- context [Aircraft.clamp_speed ?X] =>
        destruct (clamp_speed_bound X) as (v1 & -> & Hv1)
    end.
    cbn [mbind option_bind].
    match goal with
    | |- context [Aircraft.clamp_altitude ?P v1] =>
        pose proof (clamp_altitude_bounds P v1 Hv1) as [Hp Hv];
        pose proof (clamp_altitude_horizontal P v1) as (Hx & Hz & Hvx & Hvz);
        destruct (Aircraft.clamp_altitude P v1) as [p2 v2]
    end.
    cbn in Hx, Hz, Hvx, Hvz. exists p2, v2.
    rewrite Hx, Hz, Hvx, Hvz. auto.
  - cbn [mbind option_bind].
    match goal with
    | |- context [Aircraft.clamp_speed ?X] =>
        destruct (clamp_speed_bound X) as (v1 & -> & Hv1)
    end.
    cbn [mbind option_bind].
    match goal with
    | |- context [Aircraft.clamp_altitude ?P v1] =>
        pose proof (clamp_altitude_bounds P v1 Hv1) as [Hp Hv];
        pose proof (clamp_altitude_horizontal P v1) as (Hx & Hz & Hvx & Hvz);
        destruct (Aircraft.clamp_altitude P v1) as [p2 v2]
    end.
    cbn in Hx, Hz, Hvx, Hvz. exists p2, v2.
    rewrite Hx, Hz, Hvx, Hvz. auto.
Qed.

Lemma update_stages (dt : R) (keys : Aircraft.Keys) (a : Aircraft.t) :
  Aircraft.get_total_mass a <> 0 ->
  exists p v,
    10 <= Vector3.y p <= Aircraft.service_ceiling
    /\ Vector3.length v <= Aircraft.max_speed
    /\ (Vector3.x p = Vector3.x (Aircraft.position a) + Vector3.x v * dt
        /\ Vector3.z p = Vector3.z (Aircraft.position a) + Vector3.z v * dt)
    /\ Aircraft.update dt keys a
       = Some (Aircraft.update_mission_data dt
                 (snd (Aircraft.update_fuel dt
                         (Aircraft.set_velocity
                            (Aircraft.set_position
                               (Aircraft.apply_controls dt keys a) p) v)))).
Proof.
  intros Hm.
  destruct (apply_controls_frame dt keys a) as (Em & Ef & _ & Ep & _).
  destruct (update_physics_total dt (Aircraft.apply_controls dt keys a))
    as (p & v & E & Hp & Hv & Hx & Hz).
  { unfold Aircraft.get_total_mass in *. rewrite Em, Ef. exact Hm. }
  rewrite Ep in Hx, Hz.
  exists p, v. unfold Aircraft.update. rewrite E. auto.
Qed.

Lemma update_mission_data_frame (dt : R) (a : Aircraft.t) :
  let a' := Aircraft.update_mission_data dt a in
  Aircraft.position a' = Aircraft.position a
  /\ Aircraft.velocity a' = Aircraft.velocity a
  /\ Aircraft.mass a' = Aircraft.mass a
  /\ Aircraft.fuel_mass a' = Aircraft.fuel_mass a
  /\ Aircraft.fuel_flow_rate a' = Aircraft.fuel_flow_rate a
  /\ Aircraft.throttle a' = Aircraft.throttle a.
Proof.
  unfold Aircraft.update_mission_data. cbn zeta.
  destruct (Z.ltb _ _); cbn; repeat split; reflexivity.
Qed.

Lemma update_within_limits
  (dt : R) (keys : Aircraft.Keys) (a : Aircraft.t) :
  Aircraft.get_total_mass a <> 0 ->
  exists a',
    Aircraft.update dt keys a = Some a'
    /\ 10 <= Vector3.y (Aircraft.position a') <= Aircraft.service_ceiling
    /\ Vector3.length (Aircraft.velocity a') <= Aircraft.max_speed.
Proof.
  intros Hm. destruct (update_stages dt keys a Hm) as (p & v & Hp & Hv & _ & E).
  eexists. split; [exact E |].
  match goal with
  | |- context [Aircraft.update_mission_data dt ?X] =>
      destruct (update_mission_data_frame dt X) as (-> & -> & _)
  end.
  cbn. auto.
Qed.

(** C1.  After [Aircraft.update], from any state whose total mass is not
    zero (the one state in which the physics step cannot divide) and for
    any keys and time step, the update returns, the altitude lies between
    10 and the service ceiling, and the speed is at most [max_speed]. *)
Theorem update_altitude_speed_bounds
  (dt : R) (keys : Aircraft.Keys) (a : Aircraft.t) :
  Aircraft.get_total_mass a <> 0 ->
  exists a',
    Aircraft.update dt keys a = Some a'
    /\ 10 <= Vector3.y (Aircraft.position a') <= Aircraft.service_ceiling
    /\ Vector3.length (Aircraft.velocity a') <= Aircraft.max_speed.
Proof. exact (update_within_limits dt keys a). Qed.

Lemma update_altitude_speed_bounds_witness :
  exists a',
    Aircraft.update (1 / 60) Aircraft.no_keys
      (Aircraft.init Aircraft.default_config) = Some a'
    /\ 10 <= Vector3.y (Aircraft.position a') <= Aircraft.service_ceiling
    /\ Vector3.length (Aircraft.velocity a') <= Aircraft.max_speed.
Proof.
  apply update_altitude_speed_bounds.
  unfold Aircraft.get_total_mass. cbn. lra.
Defined.

(** ** Fuel *)

Lemma apply_controls_throttle (dt : R) (keys : Aircraft.Keys) (a : Aircraft.t) :
  Aircraft.throttle (Aircraft.apply_controls dt keys a)
  = throttle_at_physics dt keys a.
Proof.
  assert (Hp : forall a0,
             Aircraft.throttle (Aircraft.pitch_control dt keys a0)
             = Aircraft.throttle a0).
  { intros a0. unfold Aircraft.pitch_control.
    destruct (Aircraft.K_w keys), (Aircraft.K_s keys); reflexivity. }
  assert (Hr : forall a0,
             Aircraft.throttle (Aircraft.roll_control dt keys a0)
             = Aircraft.throttle a0).
  { intros a0. unfold Aircraft.roll_control.
    destruct (Aircraft.K_a keys), (Aircraft.K_d keys); reflexivity. }
  assert (Hy : forall a0,
             Aircraft.throttle (Aircraft.yaw_control dt keys a0)
             = Aircraft.throttle a0).
  { intros a0. unfold Aircraft.yaw_control.
    destruct (Aircraft.K_q keys), (Aircraft.K_e keys); reflexivity. }
  assert (Hl : forall a0,
             Aircraft.throttle (Aircraft.auto_level keys a0)
             = Aircraft.throttle a0).
  { intros a0. unfold Aircraft.auto_level.
    destruct (Aircraft.K_SPACE keys); reflexivity. }
  assert (Ht : forall a0,
             Aircraft.throttle (Aircraft.throttle_control dt keys a0)
             = let th := if Aircraft.K_LSHIFT keys
                         then Rmin 1 (Aircraft.throttle a0 + dt)
                         else Aircraft.throttle a0 in
               if Aircraft.K_LCTRL keys then Rmax 0 (th - dt) else th).
  { intros a0. unfold Aircraft.throttle_control.
    destruct (Aircraft.K_LSHIFT keys), (Aircraft.K_LCTRL keys); reflexivity. }
  unfold Aircraft.apply_controls, throttle_at_physics.
  rewrite Hl, Ht, Hy, Hr, Hp. unfold Aircraft.fuel_check.
  destruct (Rle_dec (Aircraft.fuel_mass a) 0); reflexivity.
Qed.

Lemma throttle_at_physics_nonneg
  (dt : R) (keys : Aircraft.Keys) (a : Aircraft.t) :
  0 <= dt -> 0 <= Aircraft.throttle a -> 0 <= throttle_at_physics dt keys a.
Proof.
  intros Hdt Hth. unfold throttle_at_physics.
  destruct (Rle_dec (Aircraft.fuel_mass a) 0), (Aircraft.K_LSHIFT keys),
    (Aircraft.K_LCTRL keys);
    unfold Rmin, Rmax; repeat destruct (Rle_dec _ _); lra.
Qed.

Lemma update_fuel_bounds (dt : R) (a : Aircraft.t) :
  0 <= dt -> 0 <= Aircraft.throttle a -> 0 <= Aircraft.fuel_flow_rate a ->
  0 <= Aircraft.fuel_mass a ->
  Vector3.y (Aircraft.position a) <= Aircraft.service_ceiling ->
  0 <= fst (Aircraft.update_fuel dt a)
  /\ 0 <= Aircraft.fuel_mass (snd (Aircraft.update_fuel dt a))
          <= Aircraft.fuel_mass a.
Proof.
  unfold Aircraft.update_fuel, Aircraft.service_ceiling.
  intros Hdt Hth Hff Hf Hy. cbn.
  set (y := Vector3.y (Aircraft.position a)) in *.
  assert (Hc : 0 <= Aircraft.fuel_flow_rate a * Aircraft.throttle a * dt).
  { apply Rmult_le_pos; [apply Rmult_le_pos |]; assumption. }
  assert (He : 0 <= (if Rlt_dec y 15000 then 1 - y / 30000 else 0.5)).
  { destruct (Rlt_dec y 15000); lra. }
  split; [apply Rmult_le_pos; assumption |].
  pose proof (Rmult_le_pos _ _ Hc He) as Hce.
  unfold Rmax. destruct (Rle_dec _ _); lra.
Qed.

Lemma update_fuel_frame (dt : R) (a : Aircraft.t) :
  let a' := snd (Aircraft.update_fuel dt a) in
  Aircraft.mass a' = Aircraft.mass a
  /\ Aircraft.fuel_flow_rate a' = Aircraft.fuel_flow_rate a
  /\ Aircraft.throttle a' = Aircraft.throttle a
  /\ Aircraft.position a' = Aircraft.position a
  /\ Aircraft.velocity a' = Aircraft.velocity a.
Proof. cbn. repeat split; reflexivity. Qed.

Lemma update_keeps_fuel_ready (dt : R) (keys : Aircraft.Keys) (a : Aircraft.t) :
  0 <= dt -> fuel_ready a ->
  exists a',
    Aircraft.update dt keys a = Some a'
    /\ fuel_ready a'
    /\ Aircraft.fuel_mass a' <= Aircraft.fuel_mass a.
Proof.
  intros Hdt (Hm & Hf & Hth & Hff).
  destruct (update_stages dt keys a) as (p & v & Hp & Hv & _ & E).
  { unfold Aircraft.get_total_mass. lra. }
  eexists. split; [exact E |].
  destruct (apply_controls_frame dt keys a) as (Em & Ef & Er & _).
  pose proof (apply_controls_throttle dt keys a) as Et.
  pose proof (throttle_at_physics_nonneg dt keys a Hdt Hth) as Ht.
  set (a0 := Aircraft.apply_controls dt keys a) in *.
  set (a1 := Aircraft.set_velocity (Aircraft.set_position a0 p) v).
  assert (E1 : Aircraft.mass a1 = Aircraft.mass a0
               /\ Aircraft.fuel_mass a1 = Aircraft.fuel_mass a0
               /\ Aircraft.fuel_flow_rate a1 = Aircraft.fuel_flow_rate a0
               /\ Aircraft.throttle a1 = Aircraft.throttle a0
               /\ Aircraft.position a1 = p)
    by (repeat split; reflexivity).
  destruct E1 as (Em1 & Ef1 & Er1 & Et1 & Ep1).
  destruct (update_fuel_frame dt a1) as (Fm & Fr & Ft & _).
  destruct (update_mission_data_frame dt (snd (Aircraft.update_fuel dt a1)))
    as (_ & _ & Dm & Df & Dr & Dt).
  destruct (update_fuel_bounds dt a1) as (_ & Hlo & Hhi).
  - exact Hdt.
  - rewrite Et1, Et. exact Ht.
  - rewrite Er1, Er. exact Hff.
  - rewrite Ef1, Ef. exact Hf.
  - rewrite Ep1. apply Hp.
  - set (a2 := snd (Aircraft.update_fuel dt a1)) in *.
    unfold fuel_ready. rewrite Dm, Df, Dr, Dt, Fm, Fr, Ft.
    rewrite Em1, Er1, Et1, Em, Er, Et. rewrite Ef1, Ef in Hhi.
    repeat split; lra.
Qed.

(** C4.  Along any sequence of [Aircraft.update] calls with time steps that
    are not negative, started in a state with positive empty mass and
    non-negative fuel, throttle and fuel flow rate, every call returns, and
    the fuel mass at any later point is at most the fuel mass at any
    earlier point and is never negative. *)
Theorem fuel_non_increasing
  (before after : list (R * Aircraft.Keys)) (a : Aircraft.t) :
  fuel_ready a ->
  Forall (fun st => 0 <= fst st) (before ++ after) ->
  exists a1 a2,
    Aircraft.updates before a = Some a1
    /\ Aircraft.updates after a1 = Some a2
    /\ Aircraft.updates (before ++ after) a = Some a2
    /\ 0 <= Aircraft.fuel_mass a2 <= Aircraft.fuel_mass a1
    /\ Aircraft.fuel_mass a1 <= Aircraft.fuel_mass a.
Proof.
  assert (Hrun : forall steps a0,
             fuel_ready a0 -> Forall (fun st => 0 <= fst st) steps ->
             exists a', Aircraft.updates steps a0 = Some a' /\ fuel_ready a'
                        /\ Aircraft.fuel_mass a' <= Aircraft.fuel_mass a0).
  { induction steps as [| [dt keys] rest IH]; intros a0 Hr Hall.
    - exists a0. split; [reflexivity |]. split; [exact Hr | lra].
    - apply Forall_cons in Hall as [Hdt Hall]. cbn in Hdt.
      destruct (update_keeps_fuel_ready dt keys a0 Hdt Hr) as (a' & E & Hr' & Hle).
      destruct (IH a' Hr' Hall) as (a'' & E' & Hr'' & Hle').
      exists a''. cbn. rewrite E. cbn. split; [exact E' |].
      split; [exact Hr'' | lra]. }
  intros Hr Hall. apply Forall_app in Hall as [Hb Ha].
  destruct (Hrun before a Hr Hb) as (a1 & E1 & Hr1 & Hle1).
  destruct (Hrun after a1 Hr1 Ha) as (a2 & E2 & Hr2 & Hle2).
  exists a1, a2. repeat split; try assumption.
  - clear - E1 E2. revert a E1.
    induction before as [| [dt keys] rest IH]; intros a E1; cbn in *.
    + now inversion E1; subst.
    + destruct (Aircraft.update dt keys a) as [a' |]; cbn in *; [| discriminate].
      now apply IH.
  - destruct Hr2 as (_ & Hf2 & _). exact Hf2.
Qed.

Lemma fuel_non_increasing_witness :
  exists a1 a2,
    Aircraft.updates [(1 / 60, Aircraft.no_keys)]
      (Aircraft.init Aircraft.default_config) = Some a1
    /\ Aircraft.updates [(1 / 30, Aircraft.no_keys)] a1 = Some a2
    /\ Aircraft.updates
         ([(1 / 60, Aircraft.no_keys)] ++ [(1 / 30, Aircraft.no_keys)])
         (Aircraft.init Aircraft.default_config) = Some a2
    /\ 0 <= Aircraft.fuel_mass a2 <= Aircraft.fuel_mass a1
    /\ Aircraft.fuel_mass a1
       <= Aircraft.fuel_mass (Aircraft.init Aircraft.default_config).
Proof.
  apply fuel_non_increasing.
  - unfold fuel_ready. cbn. lra.
  - repeat constructor; cbn; lra.
Defined.

(** ** Thrust *)

Lemma altitude_factor_cases (a : Aircraft.t) :
  let alt := Vector3.y (Aircraft.position a) in
  (alt < 20000 -> Aircraft.altitude_factor a = 1 - alt / 20000)
  /\ (20000 <= alt -> Aircraft.altitude_factor a = 0.5).
Proof.
  unfold Aircraft.altitude_factor. cbn zeta.
  destruct (Rlt_dec (Vector3.y (Aircraft.position a)) 20000); split; intros; lra.
Qed.

Lemma speed_factor_cases (a : Aircraft.t) :
  let speed := Vector3.length (Aircraft.velocity a) in
  (speed < 1000 -> Aircraft.speed_factor a = 1 - speed / 1000)
  /\ (1000 <= speed -> Aircraft.speed_factor a = 0).
Proof.
  unfold Aircraft.speed_factor. cbn zeta.
  destruct (Rlt_dec (Vector3.length (Aircraft.velocity a)) 1000);
    split; intros; lra.
Qed.

(** The altitude factor is at least one half exactly up to 10000 m and
    from 20000 m on; in between it falls from one half to zero. *)
Lemma altitude_factor_half_iff (a : Aircraft.t) :
  let alt := Vector3.y (Aircraft.position a) in
  0.5 <= Aircraft.altitude_factor a <-> alt <= 10000 \/ 20000 <= alt.
Proof.
  unfold Aircraft.altitude_factor. cbn zeta.
  destruct (Rlt_dec (Vector3.y (Aircraft.position a)) 20000); split; intros H.
  - left. lra.
  - destruct H; lra.
  - right. lra.
  - lra.
Qed.

(** C6, amended.  The thrust is the product of the maximum thrust, the
    throttle, the altitude factor and the speed factor.  The altitude
    factor is [1 - altitude/20000] below 20000 m and 0.5 from 20000 m on,
    so it is under 0.5 exactly between 10000 m and 20000 m; the speed
    factor is [1 - speed/1000] below 1000 m/s and 0 from there on. *)
Theorem get_thrust_factors (a : Aircraft.t) :
  let alt := Vector3.y (Aircraft.position a) in
  let speed := Vector3.length (Aircraft.velocity a) in
  Aircraft.get_thrust a
  = Aircraft.max_thrust a * Aircraft.throttle a
    * Aircraft.altitude_factor a * Aircraft.speed_factor a
  /\ (alt < 20000 -> Aircraft.altitude_factor a = 1 - alt / 20000)
  /\ (20000 <= alt -> Aircraft.altitude_factor a = 0.5)
  /\ (Aircraft.altitude_factor a < 0.5 <-> 10000 < alt < 20000)
  /\ (speed < 1000 -> Aircraft.speed_factor a = 1 - speed / 1000)
  /\ (1000 <= speed -> Aircraft.speed_factor a = 0).
Proof.
  cbv zeta.
  destruct (altitude_factor_cases a) as (Hlow & Hhigh).
  destruct (speed_factor_cases a) as (Hslow & Hfast).
  pose proof (altitude_factor_half_iff a) as Hhalf. cbv zeta in Hhalf.
  split; [reflexivity |]. split; [exact Hlow |]. split; [exact Hhigh |].
  split; [| split; assumption].
  split.
  - intros Hlt.
    destruct (Rlt_dec (Vector3.y (Aircraft.position a)) 20000) as [H | H].
    + specialize (Hlow H). lra.
    + specialize (Hhigh ltac:(lra)). lra.
  - intros [H1 H2]. specialize (Hlow H2). lra.
Qed.

(** C6, as stated, fails at the service ceiling (12000 m, an altitude
    [update_physics] lets the aircraft reach): the altitude factor of
    [get_thrust] is 0.4 there, below one half, and the thrust is computed
    with it; the speed factor there is [1 - 100/1000]. *)
Lemma altitude_factor_below_half_at_ceiling :
  Vector3.y (Aircraft.position at_ceiling) = 12000
  /\ Aircraft.altitude_factor at_ceiling = 0.4
  /\ Aircraft.altitude_factor at_ceiling < 0.5
  /\ Aircraft.speed_factor at_ceiling = 0.9
  /\ Aircraft.get_thrust at_ceiling = 200000 * 0.5 * 0.4 * 0.9.
Proof.
  assert (Ha : Aircraft.altitude_factor at_ceiling = 0.4).
  { unfold Aircraft.altitude_factor, at_ceiling, Aircraft.service_ceiling. cbn.
    destruct (Rlt_dec 12000 20000); lra. }
  assert (Hs : Aircraft.speed_factor at_ceiling = 0.9).
  { unfold Aircraft.speed_factor, at_ceiling. cbn.
    rewrite length_axis by lra. destruct (Rlt_dec 100 1000); lra. }
  split; [reflexivity |]. split; [exact Ha |]. split; [lra |].
  split; [exact Hs |].
  unfold Aircraft.get_thrust. rewrite Ha, Hs. cbn. reflexivity.
Qed.

(** ** Fuel exhaustion *)

Lemma throttle_at_physics_no_fuel
  (dt : R) (keys : Aircraft.Keys) (a : Aircraft.t) :
  0 <= dt -> Aircraft.fuel_mass a <= 0 -> Aircraft.K_LSHIFT keys = false ->
  Aircraft.throttle (Aircraft.apply_controls dt keys a) = 0
  /\ Aircraft.get_thrust (Aircraft.apply_controls dt keys a) = 0.
Proof.
  intros Hdt Hf Hs.
  assert (Ht : Aircraft.throttle (Aircraft.apply_controls dt keys a) = 0).
  { rewrite apply_controls_throttle. unfold throttle_at_physics. rewrite Hs.
    destruct (Rle_dec (Aircraft.fuel_mass a) 0); [| contradiction].
    destruct (Aircraft.K_LCTRL keys); [| reflexivity].
    unfold Rmax. destruct (Rle_dec 0 (0 - dt)); lra. }
  split; [exact Ht |]. unfold Aircraft.get_thrust. rewrite Ht. ring.
Qed.

(** C7.  With the tank empty and the throttle-up key held, the throttle
    that reaches the physics step of a 1/60 s tick is 1/60, not 0, and the
    thrust of that step is positive; the tick itself returns. *)
Theorem throttle_up_with_empty_tank :
  Aircraft.fuel_mass out_of_fuel = 0
  /\ Aircraft.throttle (Aircraft.apply_controls (1 / 60) shift_held out_of_fuel)
     = 1 / 60
  /\ Aircraft.get_thrust (Aircraft.apply_controls (1 / 60) shift_held out_of_fuel)
     = 2925
  /\ exists a', Aircraft.update (1 / 60) shift_held out_of_fuel = Some a'.
Proof.
  assert (Ht : Aircraft.throttle
                 (Aircraft.apply_controls (1 / 60) shift_held out_of_fuel)
               = 1 / 60).
  { rewrite apply_controls_throttle. unfold throttle_at_physics. cbn.
    destruct (Rle_dec 0 0); [| lra].
    unfold Rmin. destruct (Rle_dec 1 (0 + 1 / 60)); lra. }
  split; [reflexivity |]. split; [exact Ht |]. split.
  - unfold Aircraft.get_thrust. rewrite Ht.
    destruct (apply_controls_frame (1 / 60) shift_held out_of_fuel)
      as (_ & _ & _ & Ep & Ev & Em & _).
    unfold Aircraft.altitude_factor, Aircraft.speed_factor.
    rewrite Ep, Ev, Em. cbn. rewrite length_axis by lra.
    destruct (Rlt_dec 500 20000); [| lra].
    destruct (Rlt_dec 100 1000); [| lra]. lra.
  - destruct (update_within_limits (1 / 60) shift_held out_of_fuel)
      as (a' & E & _).
    + unfold Aircraft.get_total_mass. cbn. lra.
    + exists a'. exact E.
Qed.

(** ** Mission profile *)

Lemma init_mission_wf : mission_wf MissionProfile.init.
Proof.
  repeat split.
  - cbn. unfold segment_count. lia.
  - cbn. discriminate.
Qed.

Lemma execute_wuto_static
  (g g' : MissionSegment.t) (dt : R) (a a' : Aircraft.t) :
  MissionProfile.execute_wuto g dt a = Some (a', g') ->
  segment_step_ok g g' a a'.
Proof.
  unfold MissionProfile.execute_wuto. intros H. exec_cases H; exec_done H.
Qed.

Lemma execute_climb_static
  (g g' : MissionSegment.t) (dt : R) (a a' : Aircraft.t) :
  MissionProfile.execute_climb g dt a = Some (a', g') ->
  segment_step_ok g g' a a'.
Proof.
  unfold MissionProfile.execute_climb. intros H. exec_cases H; exec_done H.
Qed.

Lemma execute_cruise_static
  (g g' : MissionSegment.t) (dt : R) (a a' : Aircraft.t) :
  MissionProfile.execute_cruise g dt a = Some (a', g') ->
  segment_step_ok g g' a a'.
Proof.
  unfold MissionProfile.execute_cruise. intros H. exec_cases H; exec_done H.
Qed.

Lemma execute_turn_static
  (g g' : MissionSegment.t) (dt : R) (a a' : Aircraft.t) :
  MissionProfile.execute_turn g dt a = Some (a', g') ->
  segment_step_ok g g' a a'.
Proof.
  unfold MissionProfile.execute_turn. intros H. exec_cases H; exec_done H.
Qed.

Lemma execute_descent_static
  (g g' : MissionSegment.t) (dt : R) (a a' : Aircraft.t) :
  MissionProfile.execute_descent g dt a = Some (a', g') ->
  segment_step_ok g g' a a'.
Proof.
  unfold MissionProfile.execute_descent. intros H. exec_cases H; exec_done H.
Qed.

Lemma execute_landing_static
  (g g' : MissionSegment.t) (dt : R) (a a' : Aircraft.t) :
  MissionProfile.execute_landing g dt a = Some (a', g') ->
  segment_step_ok g g' a a'.
Proof.
  unfold MissionProfile.execute_landing. intros H. exec_cases H; exec_done H.
Qed.

(** Whatever the segment, executing it leaves its constructor fields
    alone and never clears the completed flag. *)
Lemma execute_segment_static
  (g g' : MissionSegment.t) (dt : R) (a a' : Aircraft.t) :
  MissionProfile.execute_segment g dt a = Some (a', g') ->
  segment_step_ok g g' a a'.
Proof.
  unfold MissionProfile.execute_segment. cbn zeta.
  set (a0 := Aircraft.set_phase a (MissionSegment.name g)).
  assert (Hphase : forall g1 a1,
             segment_step_ok g g1 a0 a1 -> segment_step_ok g g1 a a1).
  { unfold segment_step_ok. subst a0. cbn. auto. }
  repeat (destruct (String.eqb _ _);
          [eauto using execute_wuto_static, execute_climb_static,
             execute_cruise_static, execute_turn_static,
             execute_descent_static, execute_landing_static |]).
  intros H. apply Hphase. exec_done H.
Qed.

Lemma wf_segments (m : MissionProfile.t) :
  mission_wf m ->
  exists g0 g1 g2 g3 g4 g5,
    MissionProfile.segments m = [g0; g1; g2; g3; g4; g5]
    /\ map static [g0; g1; g2; g3; g4; g5]
       = map static MissionProfile.create_default_mission
    /\ Forall (fun g => In (static g)
                          (map static MissionProfile.create_default_mission))
              [g0; g1; g2; g3; g4; g5]
    /\ MissionSegment.name g0 = "WUTO"%string.
Proof.
  intros (Hst & _).
  destruct (MissionProfile.segments m)
    as [| g0 [| g1 [| g2 [| g3 [| g4 [| g5 [| g6 rest]]]]]]];
    try discriminate Hst.
  exists g0, g1, g2, g3, g4, g5. split; [reflexivity |]. split; [exact Hst |].
  split.
  - rewrite Forall_forall. intros g Hg. rewrite <- Hst.
    apply in_map, list_elem_of_In. exact Hg.
  - assert (E : map MissionSegment.name [g0; g1; g2; g3; g4; g5]
                = map MissionSegment.name MissionProfile.create_default_mission).
    { change MissionSegment.name with (fun g => fst (fst (fst (fst (static g))))).
      rewrite <- !(map_map static (fun x => fst (fst (fst (fst x))))).
      now rewrite Hst. }
    cbn in E. congruence.
Qed.

(** On a segment built by [create_default_mission], executing the segment
    returns. *)
Lemma execute_segment_total (g : MissionSegment.t) (dt : R) (a : Aircraft.t) :
  In (static g) (map static MissionProfile.create_default_mission) ->
  exists a' g', MissionProfile.execute_segment g dt a = Some (a', g').
Proof.
  intros Hin. cbn in Hin. unfold static in Hin.
  unfold MissionProfile.execute_segment. cbn zeta.
  set (a0 := Aircraft.set_phase a (MissionSegment.name g)). clearbody a0.
  destruct Hin as [H | [H | [H | [H | [H | [H | []]]]]]];
    injection H as En Ea Es Ed Ei; rewrite <- En; cbn [String.eqb Ascii.eqb
      Bool.eqb].
  - unfold MissionProfile.execute_wuto. rewrite <- Ea. cbn [mbind option_bind].
    destruct (Rlt_dec _ _); [eauto |]. destruct (Rge_dec _ _); eauto.
  - unfold MissionProfile.execute_climb. rewrite <- Ea, <- Es.
    cbn [mbind option_bind]. destruct (Rlt_dec _ _); eauto.
  - unfold MissionProfile.execute_cruise. rewrite <- Ea, <- Es, <- Ei.
    cbn [mbind option_bind MissionSegment.distance
         MissionSegment.set_progress py_truthy].
    destruct (Req_dec_T 200000 0); [lra |].
    rewrite <- Ei. cbn [mbind option_bind]. destruct (Rge_dec _ _); eauto.
  - unfold MissionProfile.execute_turn.
    cbn [MissionSegment.target_altitude MissionSegment.target_speed
         MissionSegment.duration MissionSegment.set_turn_time].
    rewrite <- Ea, <- Es, <- Ed. cbn [mbind option_bind].
    rewrite py_div_some by lra. cbn [mbind option_bind].
    destruct (Rge_dec _ _); eauto.
  - unfold MissionProfile.execute_descent. rewrite <- Ea.
    cbn [mbind option_bind]. destruct (Rgt_dec _ _); eauto.
  - unfold MissionProfile.execute_landing. rewrite <- Es.
    cbn [mbind option_bind]. destruct (Rgt_dec _ 10); eauto.
Qed.

(** On the WUTO segment, [execute_segment] adds the time step to the
    progress when the progress is below 30 and leaves it alone otherwise. *)
Lemma execute_segment_wuto_progress
  (g g' : MissionSegment.t) (dt : R) (a a' : Aircraft.t) :
  MissionSegment.name g = "WUTO"%string ->
  MissionProfile.execute_segment g dt a = Some (a', g') ->
  MissionSegment.progress g'
  = if Rlt_dec (MissionSegment.progress g) 30
    then MissionSegment.progress g + dt
    else MissionSegment.progress g.
Proof.
  intros En. unfold MissionProfile.execute_segment. rewrite En.
  cbn [String.eqb Ascii.eqb Bool.eqb]. cbn zeta.
  unfold MissionProfile.execute_wuto. intros H.
  destruct (Rlt_dec (MissionSegment.progress g) 30).
  - inversion H; subst. reflexivity.
  - exec_cases H; inversion H; subst; reflexivity.
Qed.

(** One [MissionProfile.update] on a well-formed mission: it returns, the
    mission stays well-formed, the cursor stays or advances by one, the
    aircraft keeps its mass and fuel, and the WUTO progress moves only
    while WUTO is the current segment and its progress is below 30. *)
Lemma mission_update_step (dt : R) (a : Aircraft.t) (m : MissionProfile.t) :
  mission_wf m ->
  exists a' m',
    MissionProfile.update dt (a, m) = Some (a', m')
    /\ mission_wf m'
    /\ (MissionProfile.current_segment_index m
        <= MissionProfile.current_segment_index m'
        <= S (MissionProfile.current_segment_index m))%nat
    /\ config_of a' = config_of a
    /\ Aircraft.fuel_mass a' = Aircraft.fuel_mass a
    /\ Aircraft.position a' = Aircraft.position a
    /\ (MissionProfile.current_segment_index m = 0%nat ->
        wuto_progress m'
        = if Rlt_dec (wuto_progress m) 30
          then wuto_progress m + dt else wuto_progress m)
    /\ (MissionProfile.current_segment_index m <> 0%nat ->
        wuto_progress m' = wuto_progress m).
Proof.
  intros Hwf.
  destruct (wf_segments m Hwf)
    as (g0 & g1 & g2 & g3 & g4 & g5 & Hs & Hst & Hin & N0).
  pose proof Hwf as (_ & Hidx & Hfl & Hmc).
  destruct m as [segs i mc tf td tt de pd].
  cbn in Hs, Hidx, Hfl, Hmc. subst segs.
  unfold completed_flags, segment_count in *. cbn in Hfl.
  rewrite !Forall_cons in Hin.
  destruct Hin as (I0 & I1 & I2 & I3 & I4 & I5 & _).
  cbn [map] in Hst.
  unfold MissionProfile.update.
  cbn [MissionProfile.current_segment_index MissionProfile.mission_complete
       MissionProfile.segments].
  destruct mc.
  { specialize (Hmc eq_refl). subst i. cbn [orb].
    exists a, (MissionProfile.mk [g0; g1; g2; g3; g4; g5] 6 true tf td tt de pd).
    split; [reflexivity |]. split; [exact Hwf |]. cbn.
    repeat split; try lia; try reflexivity. }
  destruct i as [| [| [| [| [| [| [| i]]]]]]]; try lia;
    cbn in Hfl; injection Hfl as F0 F1 F2 F3 F4 F5;
    cbn [orb length Nat.leb lookup list_lookup mbind option_bind].
  7: { eexists _, _. split; [reflexivity |]. split; [exact Hwf |].
       cbn. repeat split; try lia; try reflexivity. }
  all: match goal with
       | |- context [MissionProfile.execute_segment ?g ?d ?x] =>
           destruct (execute_segment_total g d x) as (a' & g' & E);
           [ assumption
           | rewrite E;
             destruct (execute_segment_static _ _ _ _ _ E)
               as (Sg & Cg & Am & Af & Ap) ]
       end.
  all: pose proof (execute_segment_wuto_progress g0 g' dt a a' N0) as Hprog.
  all: cbn [mbind option_bind]; unfold MissionProfile.record_profile_data;
    cbn [MissionProfile.set_totals MissionProfile.set_segments
         MissionProfile.profile_data MissionProfile.total_time
         MissionProfile.segments MissionProfile.current_segment_index
         MissionProfile.mission_complete MissionProfile.total_fuel_consumed
         MissionProfile.display_enabled MissionProfile.total_distance];
    destruct (Z.ltb _ _);
    destruct (MissionSegment.completed g') eqn:Ec;
    cbn [MissionProfile.set_index MissionProfile.set_profile_data
         MissionProfile.segments MissionProfile.current_segment_index
         MissionProfile.mission_complete MissionProfile.total_fuel_consumed
         MissionProfile.display_enabled MissionProfile.total_distance
         MissionProfile.total_time MissionProfile.profile_data
         length Nat.leb insert list_insert];
    (eexists _, _; split; [reflexivity |]);
    (split; [unfold mission_wf, completed_flags, segment_count;
             cbn -[static];
             rewrite ?Sg, ?F0, ?F1, ?F2, ?F3, ?F4, ?F5, ?Ec;
             repeat split; try lia; try reflexivity; try discriminate;
             try exact Hst; try (destruct Cg; congruence)
           |]);
    unfold wuto_progress; cbn -[static Rlt_dec config_of];
    repeat split; try lia; try assumption; try reflexivity;
      try (etransitivity; [| exact Am]; reflexivity);
      try (intros; discriminate); try (intros _; apply Hprog; exact E);
      try (intros; exfalso; lia).
Qed.

Lemma wf_names (m : MissionProfile.t) :
  mission_wf m ->
  segment_names m
  = ["WUTO"; "CLIMB"; "CRUISE"; "TURN"; "DESCENT"; "LANDING"]%string.
Proof.
  intros (Hst & _). unfold segment_names.
  change MissionSegment.name with (fun g => fst (fst (fst (fst (static g))))).
  rewrite <- (map_map static (fun x => fst (fst (fst (fst x))))).
  now rewrite Hst.
Qed.

Lemma prefix_flags_lookup (i k j : nat) :
  (replicate i true ++ replicate k false) !! j = Some true <-> (j < i)%nat.
Proof.
  split.
  - intros H. destruct (Nat.lt_ge_cases j i) as [Hlt | Hge]; [exact Hlt |].
    rewrite lookup_app_r in H by (rewrite length_replicate; exact Hge).
    apply lookup_replicate in H as [H _]. discriminate.
  - intros Hlt. rewrite lookup_app_l by (rewrite length_replicate; exact Hlt).
    now apply lookup_replicate_2.
Qed.

Lemma mission_updates_wf (steps : list (R * Aircraft.t)) (m : MissionProfile.t) :
  mission_wf m ->
  exists m',
    MissionProfile.updates steps m = Some m'
    /\ mission_wf m'
    /\ (MissionProfile.current_segment_index m
        <= MissionProfile.current_segment_index m')%nat.
Proof.
  revert m. induction steps as [| [dt a] rest IH]; intros m Hwf.
  - exists m. split; [reflexivity |]. split; [exact Hwf | lia].
  - destruct (mission_update_step dt a m Hwf)
      as (a' & m1 & E & Hwf1 & Hidx & _).
    destruct (IH m1 Hwf1) as (m' & E' & Hwf' & Hidx').
    exists m'. cbn [MissionProfile.updates]. rewrite E.
    cbn [mbind option_bind snd]. split; [exact E' |].
    split; [exact Hwf' | lia].
Qed.

(** C5.  Along any sequence of [MissionProfile.update] calls on a
    well-formed mission (the initial mission is one), whatever the aircraft
    does in between: every call returns; the cursor never decreases and
    never exceeds the segment count 6; the segments stay WUTO, CLIMB,
    CRUISE, TURN, DESCENT, LANDING in this order; the completed flags are
    always true exactly on the segments before the cursor, so that they are
    set in the order of the segments; and a flag that is set stays set. *)
Theorem mission_cursor_monotone
  (before after : list (R * Aircraft.t)) (m : MissionProfile.t) :
  mission_wf m ->
  exists m1 m2,
    MissionProfile.updates before m = Some m1
    /\ MissionProfile.updates after m1 = Some m2
    /\ (MissionProfile.current_segment_index m1
        <= MissionProfile.current_segment_index m2 <= segment_count)%nat
    /\ segment_names m2
       = ["WUTO"; "CLIMB"; "CRUISE"; "TURN"; "DESCENT"; "LANDING"]%string
    /\ completed_flags m1
       = replicate (MissionProfile.current_segment_index m1) true
         ++ replicate (segment_count - MissionProfile.current_segment_index m1)
                      false
    /\ completed_flags m2
       = replicate (MissionProfile.current_segment_index m2) true
         ++ replicate (segment_count - MissionProfile.current_segment_index m2)
                      false
    /\ (forall j : nat,
          completed_flags m1 !! j = Some true ->
          completed_flags m2 !! j = Some true).
Proof.
  intros Hwf.
  destruct (mission_updates_wf before m Hwf) as (m1 & E1 & Hwf1 & _).
  destruct (mission_updates_wf after m1 Hwf1) as (m2 & E2 & Hwf2 & Hidx).
  exists m1, m2.
  pose proof (wf_names m2 Hwf2) as Hn.
  destruct Hwf1 as (_ & _ & Hf1 & _). destruct Hwf2 as (_ & Hle & Hf2 & _).
  repeat split; try assumption.
  intros j. rewrite Hf1, Hf2, !prefix_flags_lookup. lia.
Qed.

Lemma mission_cursor_monotone_witness :
  exists m1 m2,
    MissionProfile.updates
      [(1 / 60, Aircraft.init Aircraft.default_config)] MissionProfile.init
    = Some m1
    /\ MissionProfile.updates
         [(1 / 60, Aircraft.init Aircraft.default_config)] m1 = Some m2
    /\ (MissionProfile.current_segment_index m1
        <= MissionProfile.current_segment_index m2 <= segment_count)%nat
    /\ segment_names m2
       = ["WUTO"; "CLIMB"; "CRUISE"; "TURN"; "DESCENT"; "LANDING"]%string
    /\ completed_flags m1
       = replicate (MissionProfile.current_segment_index m1) true
         ++ replicate (segment_count - MissionProfile.current_segment_index m1)
                      false
    /\ completed_flags m2
       = replicate (MissionProfile.current_segment_index m2) true
         ++ replicate (segment_count - MissionProfile.current_segment_index m2)
                      false
    /\ (forall j : nat,
          completed_flags m1 !! j = Some true ->
          completed_flags m2 !! j = Some true).
Proof.
  apply mission_cursor_monotone. exact init_mission_wf.
Defined.

(** ** WUTO progress *)

Lemma mission_updates_wuto
  (steps : list (R * Aircraft.t)) (dmax : R) (m : MissionProfile.t) :
  mission_wf m ->
  wuto_progress m <= 30 + dmax ->
  Forall (fun st => fst st <= dmax) steps ->
  exists m',
    MissionProfile.updates steps m = Some m'
    /\ mission_wf m'
    /\ wuto_progress m' <= 30 + dmax.
Proof.
  revert m. induction steps as [| [dt a] rest IH]; intros m Hwf Hp Hall.
  - exists m. auto.
  - apply Forall_cons in Hall as [Hdt Hall]. cbn in Hdt.
    destruct (mission_update_step dt a m Hwf)
      as (a' & m1 & E & Hwf1 & _ & _ & _ & _ & H0 & Hn0).
    assert (Hp1 : wuto_progress m1 <= 30 + dmax).
    { destruct (Nat.eq_dec (MissionProfile.current_segment_index m) 0%nat)
        as [Hz | Hnz].
      - rewrite (H0 Hz). destruct (Rlt_dec (wuto_progress m) 30); lra.
      - rewrite (Hn0 Hnz). exact Hp. }
    destruct (IH m1 Hwf1 Hp1 Hall) as (m' & E' & Hwf' & Hp').
    exists m'. cbn [MissionProfile.updates]. rewrite E.
    cbn [mbind option_bind snd]. auto.
Qed.

(** C10.  Along any sequence of [MissionProfile.update] calls whose time
    steps are at most [dmax], from a well-formed mission whose WUTO
    progress is at most [30 + dmax] (the initial mission, with progress 0,
    when [dmax] is not negative): every call returns and the WUTO progress
    stays at most [30 + dmax]; and whatever the next call is, it returns,
    it leaves the WUTO progress alone once that progress is 30 or more, and
    otherwise it leaves it alone or adds its time step to it. *)
Theorem wuto_progress_bounded
  (steps : list (R * Aircraft.t)) (dmax : R) (m : MissionProfile.t) :
  mission_wf m ->
  wuto_progress m <= 30 + dmax ->
  Forall (fun st => fst st <= dmax) steps ->
  exists m',
    MissionProfile.updates steps m = Some m'
    /\ wuto_progress m' <= 30 + dmax
    /\ forall (dt : R) (a : Aircraft.t),
         exists a' m'',
           MissionProfile.update dt (a, m') = Some (a', m'')
           /\ (30 <= wuto_progress m' -> wuto_progress m'' = wuto_progress m')
           /\ (wuto_progress m'' = wuto_progress m'
               \/ (wuto_progress m' < 30
                   /\ MissionProfile.current_segment_index m' = 0%nat
                   /\ wuto_progress m'' = wuto_progress m' + dt)).
Proof.
  intros Hwf Hp Hall.
  destruct (mission_updates_wuto steps dmax m Hwf Hp Hall)
    as (m' & E & Hwf' & Hp').
  exists m'. split; [exact E |]. split; [exact Hp' |].
  intros dt a.
  destruct (mission_update_step dt a m' Hwf')
    as (a' & m'' & E' & _ & _ & _ & _ & _ & H0 & Hn0).
  exists a', m''. split; [exact E' |].
  destruct (Nat.eq_dec (MissionProfile.current_segment_index m') 0%nat)
    as [Hz | Hnz].
  - rewrite (H0 Hz). destruct (Rlt_dec (wuto_progress m') 30); split;
      intros; try lra; auto.
  - rewrite (Hn0 Hnz). auto.
Qed.

Lemma wuto_progress_bounded_witness :
  exists m',
    MissionProfile.updates
      [(1 / 60, Aircraft.init Aircraft.default_config);
       (1 / 60, Aircraft.init Aircraft.default_config)] MissionProfile.init
    = Some m'
    /\ wuto_progress m' <= 30 + 1 / 60
    /\ forall (dt : R) (a : Aircraft.t),
         exists a' m'',
           MissionProfile.update dt (a, m') = Some (a', m'')
           /\ (30 <= wuto_progress m' -> wuto_progress m'' = wuto_progress m')
           /\ (wuto_progress m'' = wuto_progress m'
               \/ (wuto_progress m' < 30
                   /\ MissionProfile.current_segment_index m' = 0%nat
                   /\ wuto_progress m'' = wuto_progress m' + dt)).
Proof.
  apply wuto_progress_bounded.
  - exact init_mission_wf.
  - unfold wuto_progress. cbn. lra.
  - repeat constructor; cbn; lra.
Defined.

(** ** Collision check *)

Lemma py_int_IZR (z : Z) : (0 <= z)%Z -> py_int (IZR z) = z.
Proof.
  intros Hz. unfold py_int.
  destruct (Rle_dec 0 (IZR z)) as [_ | Hn].
  - apply ZfloorZ.
  - exfalso. apply Hn. now apply IZR_le.
Qed.

(** Over the summit of the one mountain of [mountain_world] and
    [hangar_world] the terrain is 500 m high. *)
Lemma summit_height_of (w : World.t) :
  World.mountains w = [World.mkMountain (Vector3.mk 3000 0 3000) 600 500] ->
  World.get_terrain_height w 3000 3000 = 500.
Proof.
  intros Hm.
  unfold World.get_terrain_height, World.terrain_scale, World.terrain_size.
  rewrite Hm.
  replace (3000 / 50 + 100 / 2) with (IZR 110) by lra.
  rewrite py_int_IZR by lia. cbn -[pow sqrt Rlt_dec Rmax].
  replace ((3000 - 3000) ^ 2 + (3000 - 3000) ^ 2) with 0 by ring.
  rewrite sqrt_0. destruct (Rlt_dec 0 600); [| lra].
  replace (500 * (1 - 0 / 600)) with 500 by lra.
  unfold Rmax. destruct (Rle_dec 0 500); lra.
Qed.

Lemma summit_height : World.get_terrain_height mountain_world 3000 3000 = 500.
Proof. now apply summit_height_of. Qed.

Lemma flying_at_agl (y : R) : FlightSimulator.altitude_agl (flying_at y) = y - 500.
Proof.
  unfold FlightSimulator.altitude_agl, flying_at. cbn -[World.get_terrain_height].
  now rewrite summit_height.
Qed.

(** The distance the collision check compares with its thresholds is the
    least of the distances to the buildings of the world: it is under a
    bound exactly when some building is. *)
Lemma fold_min_lt (f : World.Building -> R) (bs : list World.Building)
  (d : Dist.t) (r : R) :
  Dist.ltb (fold_left (fun d b => Dist.min d (f b)) bs d) r = true
  <-> Dist.ltb d r = true \/ exists b, In b bs /\ f b < r.
Proof.
  revert d. induction bs as [| b bs IH]; intros d; cbn [fold_left].
  - split; [auto | intros [H | (b & [] & _)]; exact H].
  - rewrite IH. split.
    + intros [H | (b' & Hin & Hb)].
      * destruct d as [| r0]; cbn in H |- *.
        -- destruct (Rlt_dec (f b) r); [| discriminate].
           right. exists b. split; [now left | assumption].
        -- unfold Rmin in H. destruct (Rle_dec r0 (f b));
             destruct (Rlt_dec _ r); try discriminate.
           ++ left. destruct (Rlt_dec r0 r); [reflexivity | lra].
           ++ right. exists b. split; [now left | assumption].
      * right. exists b'. split; [now right | assumption].
    + intros [H | (b' & [<- | Hin] & Hb)].
      * left. destruct d as [| r0]; cbn in H |- *; [discriminate |].
        destruct (Rlt_dec r0 r); [| discriminate].
        unfold Rmin. destruct (Rle_dec r0 (f b));
          destruct (Rlt_dec _ r); try reflexivity; lra.
      * left. destruct d as [| r0]; cbn.
        -- destruct (Rlt_dec (f b) r); [reflexivity | lra].
        -- unfold Rmin. destruct (Rle_dec r0 (f b));
             destruct (Rlt_dec _ r); try reflexivity; lra.
      * right. exists b'. split; assumption.
Qed.

Lemma fold_min_le (f : World.Building -> R) (bs : list World.Building)
  (d : Dist.t) (r : R) :
  Dist.leb (fold_left (fun d b => Dist.min d (f b)) bs d) r = true
  <-> Dist.leb d r = true \/ exists b, In b bs /\ f b <= r.
Proof.
  revert d. induction bs as [| b bs IH]; intros d; cbn [fold_left].
  - split; [auto | intros [H | (b & [] & _)]; exact H].
  - rewrite IH. split.
    + intros [H | (b' & Hin & Hb)].
      * destruct d as [| r0]; cbn in H |- *.
        -- destruct (Rle_dec (f b) r); [| discriminate].
           right. exists b. split; [now left | assumption].
        -- unfold Rmin in H. destruct (Rle_dec r0 (f b));
             destruct (Rle_dec _ r); try discriminate.
           ++ left. destruct (Rle_dec r0 r); [reflexivity | lra].
           ++ right. exists b. split; [now left | assumption].
      * right. exists b'. split; [now right | assumption].
    + intros [H | (b' & [<- | Hin] & Hb)].
      * left. destruct d as [| r0]; cbn in H |- *; [discriminate |].
        destruct (Rle_dec r0 r); [| discriminate].
        unfold Rmin. destruct (Rle_dec r0 (f b));
          destruct (Rle_dec _ r); try reflexivity; lra.
      * left. destruct d as [| r0]; cbn.
        -- destruct (Rle_dec (f b) r); [reflexivity | lra].
        -- unfold Rmin. destruct (Rle_dec r0 (f b));
             destruct (Rle_dec _ r); try reflexivity; lra.
      * right. exists b'. split; assumption.
Qed.

Lemma min_building_distance_lt (s : FlightSimulator.t) (r : R) :
  Dist.ltb (FlightSimulator.min_building_distance s) r = true
  <-> building_within s r.
Proof.
  unfold FlightSimulator.min_building_distance, building_within.
  rewrite fold_min_lt. cbn. split; [intros [H | H] | intros H].
  - discriminate.
  - exact H.
  - right. exact H.
Qed.

Lemma min_building_distance_le (s : FlightSimulator.t) (r : R) :
  Dist.leb (FlightSimulator.min_building_distance s) r = true
  <-> building_at_most s r.
Proof.
  unfold FlightSimulator.min_building_distance, building_at_most.
  rewrite fold_min_le. cbn. split; [intros [H | H] | intros H].
  - discriminate.
  - exact H.
  - right. exact H.
Qed.

Lemma not_true_false (b : bool) : b = false <-> ~ b = true.
Proof. destruct b; split; intros H; congruence. Qed.

(** The bands of the collision check, on the terrain clearance and the
    least building distance it computes. *)
Lemma check_collisions_bands (dt : R) (s : FlightSimulator.t) :
  let s' := FlightSimulator.check_collisions dt s in
  let agl := FlightSimulator.altitude_agl s in
  let mbd := FlightSimulator.min_building_distance s in
  (agl < 30 \/ Dist.ltb mbd 30 = true ->
   FlightSimulator.collision_warning s' = true
   /\ FlightSimulator.warning_timer s' = FlightSimulator.warning_timer s + dt
   /\ (agl <= 5 \/ Dist.leb mbd 10 = true ->
       FlightSimulator.crashed s' = true
       /\ Aircraft.velocity (FlightSimulator.aircraft s') = Vector3.mk 0 0 0)
   /\ (5 < agl /\ Dist.leb mbd 10 = false ->
       FlightSimulator.crashed s' = FlightSimulator.crashed s
       /\ FlightSimulator.aircraft s' = FlightSimulator.aircraft s))
  /\ (agl = 50 -> Dist.ltb mbd 100 = false ->
      FlightSimulator.collision_warning s' = true
      /\ FlightSimulator.crashed s' = FlightSimulator.crashed s
      /\ (FlightSimulator.crashed s = false ->
          FlightSimulator.crashed s' = false))
  /\ (agl = 3 ->
      FlightSimulator.crashed s' = true
      /\ Aircraft.velocity (FlightSimulator.aircraft s') = Vector3.mk 0 0 0).
Proof.
  cbv zeta. unfold FlightSimulator.check_collisions,
    FlightSimulator.critical_threshold, FlightSimulator.warning_threshold.
  set (agl := FlightSimulator.altitude_agl s).
  set (mbd := FlightSimulator.min_building_distance s).
  assert (Hmono : Dist.ltb mbd 100 = false -> Dist.ltb mbd 30 = false
                                              /\ Dist.leb mbd 10 = false).
  { destruct mbd as [| r]; cbn; [auto |].
    destruct (Rlt_dec r 100), (Rlt_dec r 30), (Rle_dec r 10);
      intros; split; try reflexivity; try discriminate; lra. }
  split; [| split].
  - intros Hcrit.
    destruct (Rlt_dec agl 30) as [Ha | Ha];
      [| destruct (Dist.ltb mbd 30) eqn:Eb;
         [| destruct Hcrit; [lra | discriminate]]].
    all: destruct (Rle_dec agl 5) as [H5 | H5];
      [| destruct (Dist.leb mbd 10) eqn:E10]; cbn;
      repeat split; try reflexivity; intros;
      repeat match goal with
             | H : _ \/ _ |- _ => destruct H
             | H : _ /\ _ |- _ => destruct H
             end; try lra; try discriminate; try reflexivity.
  - intros H50 Hb. destruct (Hmono Hb) as [H30 H10]. rewrite H30, Hb.
    destruct (Rlt_dec agl 30); [lra |]. destruct (Rlt_dec agl 100); [| lra].
    cbn. auto.
  - intros H3. destruct (Rlt_dec agl 30); [| lra].
    destruct (Rle_dec agl 5); [| lra]. cbn. auto.
Qed.

(** C2.  The collision check of one tick, on the terrain clearance of the
    aircraft and on the buildings of the world.  When the clearance is
    under 30 or some building is nearer than 30, the warning is set and the
    timer takes the time step; there, a clearance of at most 5 or a
    building at most 10 away sets [crashed] and zeroes the velocity, and
    otherwise [crashed] and the aircraft are as before.  At clearance
    exactly 50 with no building nearer than 100 the warning is set and
    [crashed] is as before, so false in the update loop, which only runs
    when it is false.  At clearance 3 [crashed] is set and the velocity is
    zero. *)
Theorem check_collisions_banding (dt : R) (s : FlightSimulator.t) :
  let s' := FlightSimulator.check_collisions dt s in
  let agl := FlightSimulator.altitude_agl s in
  (agl < 30 \/ building_within s 30 ->
   FlightSimulator.collision_warning s' = true
   /\ FlightSimulator.warning_timer s' = FlightSimulator.warning_timer s + dt
   /\ (agl <= 5 \/ building_at_most s 10 ->
       FlightSimulator.crashed s' = true
       /\ Aircraft.velocity (FlightSimulator.aircraft s') = Vector3.mk 0 0 0)
   /\ (5 < agl /\ ~ building_at_most s 10 ->
       FlightSimulator.crashed s' = FlightSimulator.crashed s
       /\ FlightSimulator.aircraft s' = FlightSimulator.aircraft s))
  /\ (agl = 50 -> ~ building_within s 100 ->
      FlightSimulator.collision_warning s' = true
      /\ FlightSimulator.crashed s' = FlightSimulator.crashed s
      /\ (FlightSimulator.crashed s = false ->
          FlightSimulator.crashed s' = false))
  /\ (agl = 3 ->
      FlightSimulator.crashed s' = true
      /\ Aircraft.velocity (FlightSimulator.aircraft s') = Vector3.mk 0 0 0).
Proof.
  cbv zeta. destruct (check_collisions_bands dt s) as (Hcrit & H50 & H3).
  rewrite <- !min_building_distance_lt, <- !min_building_distance_le.
  rewrite <- !not_true_false.
  split; [exact Hcrit |]. split; [exact H50 | exact H3].
Qed.

Lemma building_distance_over_roof (y : R) :
  50 <= y ->
  World.check_building_collision (Vector3.mk 0 y 0)
    (World.mkBuilding (Vector3.mk 0 0 0) 60 50 60) = y - 50.
Proof.
  intros Hy. unfold World.check_building_collision. cbn.
  replace (Rmax (Rmax (0 - 60 / 2 - 0) 0) (0 - (0 + 60 / 2))) with 0
    by (unfold Rmax; repeat destruct (Rle_dec _ _); lra).
  replace (Rmax (Rmax (0 - y) 0) (y - 50)) with (y - 50)
    by (unfold Rmax; repeat destruct (Rle_dec _ _); lra).
  replace (0 * 0 + (y - 50) * (y - 50) + 0 * 0) with ((y - 50) * (y - 50))
    by ring.
  apply sqrt_square. lra.
Qed.

Lemma building_distance_far (p : Vector3.t) (b : World.Building) :
  Vector3.x p - (Vector3.x (World.b_position b) + World.width b / 2)
  <= World.check_building_collision p b.
Proof.
  unfold World.check_building_collision. cbv zeta.
  set (dx := Rmax (Rmax _ 0) (Vector3.x p - _)).
  set (dy := Rmax (Rmax _ 0) (Vector3.y p - _)).
  set (dz := Rmax (Rmax _ 0) (Vector3.z p - _)).
  assert (Hx : 0 <= dx)
    by (subst dx; unfold Rmax; repeat destruct (Rle_dec _ _); lra).
  apply Rle_trans with dx; [subst dx; apply Rmax_r |].
  rewrite <- (sqrt_square dx) at 1 by exact Hx.
  apply sqrt_le_1_alt. nra.
Qed.

Lemma check_collisions_banding_witness :
  (FlightSimulator.crashed
     (FlightSimulator.check_collisions (1 / 60)
        (hangar_sim (Vector3.mk 0 55 0))) = true
   /\ Aircraft.velocity
        (FlightSimulator.aircraft
           (FlightSimulator.check_collisions (1 / 60)
              (hangar_sim (Vector3.mk 0 55 0))))
      = Vector3.mk 0 0 0)
  /\ (FlightSimulator.collision_warning
        (FlightSimulator.check_collisions (1 / 60)
           (hangar_sim (Vector3.mk 3000 550 3000))) = true
      /\ FlightSimulator.crashed
           (FlightSimulator.check_collisions (1 / 60)
              (hangar_sim (Vector3.mk 3000 550 3000))) = false)
  /\ (FlightSimulator.crashed
        (FlightSimulator.check_collisions (1 / 60)
           (hangar_sim (Vector3.mk 3000 503 3000))) = true
      /\ Aircraft.velocity
           (FlightSimulator.aircraft
              (FlightSimulator.check_collisions (1 / 60)
                 (hangar_sim (Vector3.mk 3000 503 3000))))
         = Vector3.mk 0 0 0).
Proof.
  assert (Hagl : forall y,
            FlightSimulator.altitude_agl (hangar_sim (Vector3.mk 3000 y 3000))
            = y - 500).
  { intros y. unfold FlightSimulator.altitude_agl, hangar_sim.
    cbn -[World.get_terrain_height].
    now rewrite (summit_height_of hangar_world eq_refl). }
  split; [| split].
  - destruct (check_collisions_banding (1 / 60)
                (hangar_sim (Vector3.mk 0 55 0))) as (Hcrit & _ & _).
    assert (Hb : building_at_most (hangar_sim (Vector3.mk 0 55 0)) 10).
    { eexists. split; [left; reflexivity |].
      cbn [hangar_sim FlightSimulator.set_flight FlightSimulator.aircraft
           Aircraft.set_position Aircraft.position].
      rewrite building_distance_over_roof; lra. }
    destruct Hcrit as (_ & _ & Hcrash & _).
    + right. destruct Hb as (b & Hin & Hd). exists b. split; [exact Hin | lra].
    + apply Hcrash. right. exact Hb.
  - destruct (check_collisions_banding (1 / 60)
                (hangar_sim (Vector3.mk 3000 550 3000))) as (_ & H50 & _).
    destruct H50 as (Hw & _ & Hc).
    + rewrite Hagl. lra.
    + intros (b & [<- | []] & Hd).
      pose proof (building_distance_far (Vector3.mk 3000 550 3000)
                    (World.mkBuilding (Vector3.mk 0 0 0) 60 50 60)) as Hfar.
      cbn [hangar_sim FlightSimulator.set_flight FlightSimulator.aircraft
           Aircraft.set_position Aircraft.position] in Hd.
      cbn [Vector3.x World.b_position World.width] in Hfar. lra.
    + split; [exact Hw | apply Hc; reflexivity].
  - destruct (check_collisions_banding (1 / 60)
                (hangar_sim (Vector3.mk 3000 503 3000))) as (_ & _ & H3).
    apply H3. rewrite Hagl. lra.
Defined.

(** ** Crash *)

Lemma check_collisions_crash (dt : R) (s : FlightSimulator.t) :
  FlightSimulator.altitude_agl s <= 5 ->
  let s' := FlightSimulator.check_collisions dt s in
  FlightSimulator.crashed s' = true
  /\ FlightSimulator.collision_warning s' = true
  /\ FlightSimulator.warning_timer s' = FlightSimulator.warning_timer s + dt
  /\ FlightSimulator.paused s' = FlightSimulator.paused s
  /\ Aircraft.velocity (FlightSimulator.aircraft s') = Vector3.zero.
Proof.
  intros H5. unfold FlightSimulator.check_collisions,
    FlightSimulator.critical_threshold.
  destruct (Rlt_dec (FlightSimulator.altitude_agl s) 30); [| lra].
  destruct (Rle_dec (FlightSimulator.altitude_agl s) 5); [| lra].
  cbn. auto.
Qed.

Lemma crashed_sim_state :
  FlightSimulator.crashed crashed_sim = true
  /\ FlightSimulator.collision_warning crashed_sim = true
  /\ FlightSimulator.warning_timer crashed_sim = 1 / 60.
Proof.
  destruct (check_collisions_crash (1 / 60) (flying_at 503))
    as (Hc & Hw & Ht & _).
  { rewrite flying_at_agl. lra. }
  unfold crashed_sim. rewrite Hc, Hw, Ht. cbn. repeat split. lra.
Qed.

(** The camera key works in every mode. *)
Lemma cycle_camera_mode_total (c : Camera.t) :
  exists c', Camera.cycle_camera_mode c = Some c'.
Proof.
  destruct c as [off pos []]; eexists; reflexivity.
Qed.

(** Every event is handled, and it leaves the aircraft alone unless it is
    the reset of a crashed simulator. *)
Lemma handle_event_total (e : FlightSimulator.event) (s : FlightSimulator.t) :
  exists s', FlightSimulator.handle_event e s = Some s'.
Proof.
  destruct e as [| [] |]; cbn [FlightSimulator.handle_event]; eauto.
  destruct (cycle_camera_mode_total (FlightSimulator.camera s)) as (c & ->).
  cbn [mbind option_bind]. eauto.
Qed.

Lemma update_when_crashed {pygame : Pygame}
  (dt : R) (keys : Aircraft.Keys) (s : FlightSimulator.t) :
  FlightSimulator.crashed s = true -> FlightSimulator.update dt keys s = Some s.
Proof.
  intros Hc. unfold FlightSimulator.update. rewrite Hc, orb_true_r. reflexivity.
Qed.

Lemma crashed_step {pygame : Pygame}
  (o : FlightSimulator.op) (s : FlightSimulator.t) :
  FlightSimulator.crashed s = true -> is_reset o = false ->
  exists s', FlightSimulator.apply_op o s = Some s'
             /\ FlightSimulator.crashed s' = true.
Proof.
  intros Hc Hr. destruct o as [e | dt keys].
  - destruct (handle_event_total e s) as (s' & E). exists s'.
    split; [exact E |].
    destruct e as [| [] |]; cbn [FlightSimulator.handle_event is_reset] in *;
      try (injection E as <-; exact Hc); try discriminate.
    destruct (Camera.cycle_camera_mode (FlightSimulator.camera s));
      cbn [mbind option_bind] in E; [injection E as <-; exact Hc | discriminate].
  - exists s. split; [now apply update_when_crashed | exact Hc].
Qed.

Lemma only_reset_clears_crashed {pygame : Pygame}
  (o : FlightSimulator.op) (s s' : FlightSimulator.t) :
  FlightSimulator.crashed s = true ->
  FlightSimulator.apply_op o s = Some s' ->
  FlightSimulator.crashed s' = false ->
  o = FlightSimulator.Event (FlightSimulator.KEYDOWN FlightSimulator.K_r)
  /\ s' = FlightSimulator.reset_simulation s.
Proof.
  intros Hc E Hf. destruct (is_reset o) eqn:Hr.
  - destruct o as [[| [] |] | dt keys]; try discriminate Hr.
    split; [reflexivity |]. cbn in E. rewrite Hc in E. congruence.
  - destruct (crashed_step o s Hc Hr) as (s1 & E1 & Hc1). congruence.
Qed.

(** C3.  From a crashed simulator, any sequence of loop operations without
    the reset event runs to the end and leaves [crashed] true; in the
    state reached every [update] returns the state unchanged; an operation
    after which [crashed] is false is the reset event, and its result is
    [reset_simulation]; and [reset_simulation] does clear [crashed]. *)
Theorem crashed_until_reset {pygame : Pygame}
  (ops : list FlightSimulator.op) (s : FlightSimulator.t) :
  FlightSimulator.crashed s = true ->
  Forall (fun o => is_reset o = false) ops ->
  exists s',
    FlightSimulator.run ops s = Some s'
    /\ FlightSimulator.crashed s' = true
    /\ (forall dt keys, FlightSimulator.update dt keys s' = Some s')
    /\ (forall o s'',
          FlightSimulator.apply_op o s' = Some s'' ->
          FlightSimulator.crashed s'' = false ->
          o = FlightSimulator.Event (FlightSimulator.KEYDOWN FlightSimulator.K_r)
          /\ s'' = FlightSimulator.reset_simulation s')
    /\ FlightSimulator.crashed (FlightSimulator.reset_simulation s') = false.
Proof.
  revert s. induction ops as [| o rest IH]; intros s Hc Hall.
  - exists s. split; [reflexivity |]. split; [exact Hc |].
    split; [intros; now apply update_when_crashed |].
    split; [intros o s''; now apply only_reset_clears_crashed | reflexivity].
  - apply Forall_cons in Hall as [Ho Hall].
    destruct (crashed_step o s Hc Ho) as (s1 & E1 & Hc1).
    destruct (IH s1 Hc1 Hall) as (s' & E' & H').
    exists s'. cbn [FlightSimulator.run]. rewrite E1. cbn [mbind option_bind].
    split; [exact E' | exact H'].
Qed.

Lemma crashed_until_reset_witness :
  exists s',
    FlightSimulator.run (pygame := no_rotation)
      [FlightSimulator.Update (1 / 60) Aircraft.no_keys;
       FlightSimulator.Event (FlightSimulator.KEYDOWN FlightSimulator.K_p);
       FlightSimulator.Event (FlightSimulator.KEYDOWN FlightSimulator.K_c);
       FlightSimulator.Update (1 / 60) shift_held]
      crashed_sim = Some s'
    /\ FlightSimulator.crashed s' = true
    /\ (forall dt keys,
          FlightSimulator.update (pygame := no_rotation) dt keys s' = Some s')
    /\ (forall o s'',
          FlightSimulator.apply_op (pygame := no_rotation) o s' = Some s'' ->
          FlightSimulator.crashed s'' = false ->
          o = FlightSimulator.Event (FlightSimulator.KEYDOWN FlightSimulator.K_r)
          /\ s'' = FlightSimulator.reset_simulation s')
    /\ FlightSimulator.crashed (FlightSimulator.reset_simulation s') = false.
Proof.
  apply crashed_until_reset.
  - exact (proj1 crashed_sim_state).
  - repeat constructor.
Defined.

(** ** The states the loop reaches *)

Lemma aircraft_update_frame (dt : R) (keys : Aircraft.Keys) (a : Aircraft.t) :
  Aircraft.get_total_mass a <> 0 ->
  exists a',
    Aircraft.update dt keys a = Some a'
    /\ config_of a' = config_of a
    /\ 0 <= Aircraft.fuel_mass a'.
Proof.
  intros Hm. destruct (update_stages dt keys a Hm) as (p & v & _ & _ & _ & E).
  eexists. split; [exact E |].
  destruct (apply_controls_frame dt keys a) as (_ & _ & _ & _ & _ & _ & Ec).
  unfold Aircraft.update_mission_data. cbn zeta.
  destruct (Z.ltb _ _); cbn; (split; [exact Ec | apply Rmax_l]).
Qed.

Lemma reset_segments (m : MissionProfile.t) :
  mission_wf m ->
  MissionProfile.segments (MissionProfile.reset m)
  = MissionProfile.create_default_mission.
Proof.
  intros (Hst & _). cbn.
  transitivity (map fresh_segment (map static (MissionProfile.segments m))).
  - rewrite map_map. apply map_ext. intros g. reflexivity.
  - rewrite Hst. reflexivity.
Qed.

Lemma reset_mission_wf (m : MissionProfile.t) :
  mission_wf m -> mission_wf (MissionProfile.reset m).
Proof.
  intros Hwf. pose proof (reset_segments m Hwf) as E.
  unfold mission_wf, completed_flags. rewrite E. cbn.
  repeat split; try discriminate. unfold segment_count. lia.
Qed.

Lemma check_collisions_frame (dt : R) (s : FlightSimulator.t) :
  let s' := FlightSimulator.check_collisions dt s in
  config_of (FlightSimulator.aircraft s') = config_of (FlightSimulator.aircraft s)
  /\ Aircraft.fuel_mass (FlightSimulator.aircraft s')
     = Aircraft.fuel_mass (FlightSimulator.aircraft s)
  /\ FlightSimulator.mission s' = FlightSimulator.mission s
  /\ (FlightSimulator.collision_warning s' = false ->
      FlightSimulator.warning_timer s' = 0)
  /\ (FlightSimulator.collision_warning s' = true ->
      FlightSimulator.warning_timer s' = FlightSimulator.warning_timer s + dt).
Proof.
  unfold FlightSimulator.check_collisions. cbn zeta.
  repeat match goal with
         | |- context [if ?c then _ else _] => destruct c
         end; cbn; repeat split; intros; try reflexivity; try discriminate.
Qed.

(** The collision check leaves the camera, the pause flag and the
    attitude and throttle of the aircraft alone. *)
Lemma check_collisions_keeps (dt : R) (s : FlightSimulator.t) :
  let s' := FlightSimulator.check_collisions dt s in
  FlightSimulator.camera s' = FlightSimulator.camera s
  /\ FlightSimulator.paused s' = FlightSimulator.paused s
  /\ Aircraft.throttle (FlightSimulator.aircraft s')
     = Aircraft.throttle (FlightSimulator.aircraft s)
  /\ Aircraft.position (FlightSimulator.aircraft s')
     = Aircraft.position (FlightSimulator.aircraft s).
Proof.
  unfold FlightSimulator.check_collisions. cbn zeta.
  repeat match goal with
         | |- context [if ?c then _ else _] => destruct c
         end; cbn; repeat split; reflexivity.
Qed.

Lemma handle_event_wf
  (e : FlightSimulator.event) (s s' : FlightSimulator.t) :
  sim_wf s -> FlightSimulator.handle_event e s = Some s' -> sim_wf s'.
Proof.
  intros Hwf E. pose proof Hwf as (Hc & Hf & Hm & Ht).
  destruct e as [| [] |]; cbn [FlightSimulator.handle_event] in E;
    try (injection E as <-; exact Hwf).
  - injection E as <-.
    destruct (FlightSimulator.crashed s); [| exact Hwf].
    unfold sim_wf. cbn. split; [exact Hc |].
    split.
    + apply (f_equal Aircraft.cfg_fuel_capacity) in Hc. cbn in Hc.
      rewrite Hc. lra.
    + split; [now apply reset_mission_wf | reflexivity].
  - destruct (Camera.cycle_camera_mode (FlightSimulator.camera s));
      cbn [mbind option_bind] in E; [| discriminate].
    injection E as <-. exact Hwf.
Qed.

(** On a well-formed simulator the flight part of [update] returns: the
    result is the collision check of the state after the aircraft and
    mission updates. *)
Lemma update_flight_total
  (dt : R) (keys : Aircraft.Keys) (s : FlightSimulator.t) :
  sim_wf s ->
  exists s0,
    FlightSimulator.update_flight dt keys s
    = Some (FlightSimulator.check_collisions dt s0)
    /\ sim_wf (FlightSimulator.check_collisions dt s0)
    /\ FlightSimulator.warning_timer s0 = FlightSimulator.warning_timer s
    /\ FlightSimulator.camera s0 = FlightSimulator.camera s
    /\ FlightSimulator.paused s0 = FlightSimulator.paused s.
Proof.
  intros Hwf. pose proof Hwf as (Hc & Hf & Hm & Ht).
  unfold FlightSimulator.update_flight.
  destruct (aircraft_update_frame dt keys (FlightSimulator.aircraft s))
    as (a1 & E1 & Hc1 & Hf1).
  { unfold Aircraft.get_total_mass.
    apply (f_equal Aircraft.cfg_mass) in Hc. cbn in Hc. rewrite Hc. lra. }
  rewrite E1. cbn [mbind option_bind].
  destruct (mission_update_step dt a1 (FlightSimulator.mission s) Hm)
    as (a2 & m2 & E2 & Hm2 & _ & Hc2 & Hf2 & _).
  rewrite E2. cbn [mbind option_bind].
  set (s1 := FlightSimulator.set_flight s a2 m2).
  exists s1. split; [reflexivity |].
  destruct (check_collisions_frame dt s1) as (Kc & Kf & Km & Kt & _).
  split; [| repeat split].
  unfold sim_wf. rewrite Kc, Kf, Km. subst s1. cbn.
  rewrite Hc2, Hc1, Hf2. auto.
Qed.

(** The camera update fails in the orbit mode and in no other. *)
Lemma update_camera_cases
  (rx ry : Vector3.t -> R -> Vector3.t) (a : Aircraft.t) (c : Camera.t) :
  (Camera.camera_mode c = Camera.orbit -> Camera.update_camera rx ry a c = None)
  /\ (Camera.camera_mode c <> Camera.orbit ->
      exists c', Camera.update_camera rx ry a c = Some c'
                 /\ Camera.camera_mode c' = Camera.camera_mode c).
Proof.
  unfold Camera.update_camera.
  destruct (Camera.camera_mode c) eqn:Em; split; intros H;
    try reflexivity; try discriminate; try contradiction;
    (eexists; split; [reflexivity | cbn; now rewrite Em]).
Qed.

(** [update] on a well-formed simulator.  Paused or crashed, it returns
    the state as it is.  Otherwise the flight part returns, and the update
    returns its result with the camera moved, except in the orbit mode,
    where it raises. *)
Lemma sim_update_cases {pygame : Pygame}
  (dt : R) (keys : Aircraft.Keys) (s : FlightSimulator.t) :
  sim_wf s ->
  (frozen s = true -> FlightSimulator.update dt keys s = Some s)
  /\ (frozen s = false ->
      exists s0,
        FlightSimulator.update_flight dt keys s
        = Some (FlightSimulator.check_collisions dt s0)
        /\ sim_wf (FlightSimulator.check_collisions dt s0)
        /\ FlightSimulator.warning_timer s0 = FlightSimulator.warning_timer s
        /\ FlightSimulator.paused s0 = FlightSimulator.paused s
        /\ (Camera.camera_mode (FlightSimulator.camera s) = Camera.orbit ->
            FlightSimulator.update dt keys s = None)
        /\ (Camera.camera_mode (FlightSimulator.camera s) <> Camera.orbit ->
            exists c,
              FlightSimulator.update dt keys s
              = Some (FlightSimulator.set_camera
                        (FlightSimulator.check_collisions dt s0) c)
              /\ Camera.camera_mode c
                 = Camera.camera_mode (FlightSimulator.camera s))).
Proof.
  intros Hwf. unfold frozen, FlightSimulator.update. split.
  - intros ->. reflexivity.
  - intros ->.
    destruct (update_flight_total dt keys s Hwf)
      as (s0 & E & Hwf1 & Et & Ec & Ep).
    exists s0. rewrite E. cbn [mbind option_bind].
    destruct (check_collisions_keeps dt s0) as (Kc & _).
    rewrite Kc, Ec.
    destruct (update_camera_cases rotate_x rotate_y
                (FlightSimulator.aircraft
                   (FlightSimulator.check_collisions dt s0))
                (FlightSimulator.camera s)) as (Horb & Hok).
    split; [reflexivity |]. split; [exact Hwf1 |]. split; [exact Et |].
    split; [exact Ep |]. split.
    + intros Hm. now rewrite (Horb Hm).
    + intros Hm. destruct (Hok Hm) as (c & -> & Emode).
      exists c. split; [reflexivity | exact Emode].
Qed.

Lemma init_sim_wf (w : World.t) : sim_wf (FlightSimulator.init w).
Proof.
  unfold sim_wf. split; [reflexivity |].
  split; [cbn; lra |]. split; [exact init_mission_wf | reflexivity].
Qed.

(** An operation that returns keeps the simulator well-formed. *)
Lemma apply_op_wf {pygame : Pygame}
  (o : FlightSimulator.op) (s s' : FlightSimulator.t) :
  sim_wf s -> FlightSimulator.apply_op o s = Some s' -> sim_wf s'.
Proof.
  intros Hwf E. destruct o as [e | dt keys];
    cbn [FlightSimulator.apply_op] in E.
  - now apply (handle_event_wf e s).
  - destruct (sim_update_cases dt keys s Hwf) as (Hfrozen & Hlive).
    destruct (frozen s) eqn:Ef.
    + rewrite (Hfrozen eq_refl) in E. injection E as <-. exact Hwf.
    + destruct (Hlive eq_refl) as (s0 & _ & Hwf1 & _ & _ & Horb & Hok).
      destruct (Camera.camera_mode (FlightSimulator.camera s)) eqn:Em;
        try (destruct Hok as (c & Ec & _); [discriminate |];
             rewrite Ec in E; injection E as <-; exact Hwf1).
      rewrite (Horb eq_refl) in E. discriminate.
Qed.

Lemma reachable_wf {pygame : Pygame} (w : World.t) (s : FlightSimulator.t) :
  FlightSimulator.reachable w s -> sim_wf s.
Proof.
  induction 1 as [| o s s' _ IH E].
  - apply init_sim_wf.
  - now apply (apply_op_wf o s).
Qed.

(** ** Reset *)

(** C9.  In any state the loop reaches, [reset_simulation] gives back the
    initial aircraft (position (0,500,0), velocity (0,0,100), rotation
    (0,0,0), throttle 0.5, fuel 80% of the capacity, no samples, range and
    time 0), the six default segments with [completed] false and progress
    0, the cursor 0, empty profile samples, and [crashed] false, no
    collision warning and a zero warning timer. *)
Theorem reset_restores_initial_state {pygame : Pygame}
  (w : World.t) (s : FlightSimulator.t) :
  FlightSimulator.reachable w s ->
  let s' := FlightSimulator.reset_simulation s in
  let a := FlightSimulator.aircraft s' in
  let m := FlightSimulator.mission s' in
  (a = FlightSimulator.aircraft (FlightSimulator.init w)
   /\ Aircraft.position a = Vector3.mk 0 500 0
   /\ Aircraft.velocity a = Vector3.mk 0 0 100
   /\ Aircraft.rotation a = Vector3.mk 0 0 0
   /\ Aircraft.throttle a = 0.5
   /\ Aircraft.fuel_mass a = Aircraft.fuel_capacity a * 0.8
   /\ Aircraft.mission_data a = Aircraft.empty_mission_data
   /\ Aircraft.total_range a = 0
   /\ Aircraft.mission_time a = 0)
  /\ (MissionProfile.segments m = MissionProfile.create_default_mission
      /\ length (MissionProfile.segments m) = 6%nat
      /\ Forall (fun g => MissionSegment.completed g = false
                          /\ MissionSegment.progress g = 0
                          /\ MissionSegment.turn_time g = None)
                (MissionProfile.segments m)
      /\ MissionProfile.current_segment_index m = 0%nat
      /\ MissionProfile.mission_complete m = false
      /\ MissionProfile.total_time m = 0
      /\ MissionProfile.total_distance m = 0
      /\ MissionProfile.profile_data m = MissionProfile.empty_profile_data)
  /\ (FlightSimulator.crashed s' = false
      /\ FlightSimulator.collision_warning s' = false
      /\ FlightSimulator.warning_timer s' = 0).
Proof.
  intros Hr. pose proof (reachable_wf w s Hr) as (Hc & _ & Hm & _).
  cbv zeta. split; [| split].
  - assert (Ea : Aircraft.reset (FlightSimulator.aircraft s)
                 = Aircraft.init (config_of (FlightSimulator.aircraft s)))
      by reflexivity.
    cbn [FlightSimulator.reset_simulation FlightSimulator.aircraft].
    split; [rewrite Ea, Hc; reflexivity |]. repeat split.
  - cbn [FlightSimulator.reset_simulation FlightSimulator.mission].
    pose proof (reset_segments _ Hm) as Es. rewrite Es.
    split; [reflexivity |]. split; [reflexivity |].
    split; [| repeat split].
    cbn. repeat constructor.
  - repeat split.
Qed.

Lemma reset_restores_initial_state_witness :
  let s := FlightSimulator.set_paused (FlightSimulator.init mountain_world)
             true in
  let s' := FlightSimulator.reset_simulation s in
  let a := FlightSimulator.aircraft s' in
  let m := FlightSimulator.mission s' in
  (a = FlightSimulator.aircraft (FlightSimulator.init mountain_world)
   /\ Aircraft.position a = Vector3.mk 0 500 0
   /\ Aircraft.velocity a = Vector3.mk 0 0 100
   /\ Aircraft.rotation a = Vector3.mk 0 0 0
   /\ Aircraft.throttle a = 0.5
   /\ Aircraft.fuel_mass a = Aircraft.fuel_capacity a * 0.8
   /\ Aircraft.mission_data a = Aircraft.empty_mission_data
   /\ Aircraft.total_range a = 0
   /\ Aircraft.mission_time a = 0)
  /\ (MissionProfile.segments m = MissionProfile.create_default_mission
      /\ length (MissionProfile.segments m) = 6%nat
      /\ Forall (fun g => MissionSegment.completed g = false
                          /\ MissionSegment.progress g = 0
                          /\ MissionSegment.turn_time g = None)
                (MissionProfile.segments m)
      /\ MissionProfile.current_segment_index m = 0%nat
      /\ MissionProfile.mission_complete m = false
      /\ MissionProfile.total_time m = 0
      /\ MissionProfile.total_distance m = 0
      /\ MissionProfile.profile_data m = MissionProfile.empty_profile_data)
  /\ (FlightSimulator.crashed s' = false
      /\ FlightSimulator.collision_warning s' = false
      /\ FlightSimulator.warning_timer s' = 0).
Proof.
  apply (reset_restores_initial_state (pygame := no_rotation) mountain_world).
  apply (FlightSimulator.reachable_op mountain_world
           (FlightSimulator.Event (FlightSimulator.KEYDOWN FlightSimulator.K_p))
           (FlightSimulator.init mountain_world)).
  - apply FlightSimulator.reachable_init.
  - reflexivity.
Defined.

(** ** Warning timer *)



(** * Further properties of the aircraft *)

(** A function of the aircraft that ignores rotation and throttle is left
    alone by the control inputs. *)
Lemma apply_controls_preserves {A : Type} (f : Aircraft.t -> A) :
  (forall a r, f (Aircraft.set_rotation a r) = f a) ->
  (forall a th, f (Aircraft.set_throttle a th) = f a) ->
  forall dt keys a, f (Aircraft.apply_controls dt keys a) = f a.
Proof.
  intros Hr Ht dt keys a.
  assert (Hp : forall a0 r, f (Aircraft.set_pitch a0 r) = f a0)
    by (intros; apply Hr).
  assert (Hl : forall a0 r, f (Aircraft.set_roll a0 r) = f a0)
    by (intros; apply Hr).
  assert (Hy : forall a0 r, f (Aircraft.set_yaw a0 r) = f a0)
    by (intros; apply Hr).
  assert (S1 : forall a0, f (Aircraft.fuel_check a0) = f a0).
  { intros a0. unfold Aircraft.fuel_check.
    destruct (Rle_dec _ _); [apply Ht | reflexivity]. }
  assert (S2 : forall a0, f (Aircraft.pitch_control dt keys a0) = f a0).
  { intros a0. unfold Aircraft.pitch_control.
    destruct (Aircraft.K_w keys), (Aircraft.K_s keys);
      rewrite ?Hp; reflexivity. }
  assert (S3 : forall a0, f (Aircraft.roll_control dt keys a0) = f a0).
  { intros a0. unfold Aircraft.roll_control.
    destruct (Aircraft.K_a keys), (Aircraft.K_d keys);
      rewrite ?Hl; reflexivity. }
  assert (S4 : forall a0, f (Aircraft.yaw_control dt keys a0) = f a0).
  { intros a0. unfold Aircraft.yaw_control.
    destruct (Aircraft.K_q keys), (Aircraft.K_e keys);
      rewrite ?Hy; reflexivity. }
  assert (S5 : forall a0, f (Aircraft.throttle_control dt keys a0) = f a0).
  { intros a0. unfold Aircraft.throttle_control.
    destruct (Aircraft.K_LSHIFT keys), (Aircraft.K_LCTRL keys);
      rewrite ?Ht; reflexivity. }
  assert (S6 : forall a0, f (Aircraft.auto_level keys a0) = f a0).
  { intros a0. unfold Aircraft.auto_level.
    destruct (Aircraft.K_SPACE keys); rewrite ?Hl, ?Hp; reflexivity. }
  unfold Aircraft.apply_controls. now rewrite S6, S5, S4, S3, S2, S1.
Qed.

Lemma update_mission_data_preserves {A : Type} (f : Aircraft.t -> A) :
  (forall a d, f (Aircraft.set_mission_data a d) = f a) ->
  (forall a r t, f (Aircraft.set_range_time a r t) = f a) ->
  forall dt a, f (Aircraft.update_mission_data dt a) = f a.
Proof.
  intros Hd Hr dt a. unfold Aircraft.update_mission_data. cbv zeta.
  destruct (Z.ltb _ _); rewrite ?Hd, ?Hr; reflexivity.
Qed.

(** What [Aircraft.update] returns, stage by stage, for a function of the
    aircraft that only reads rotation and throttle. *)
Lemma update_attitude_throttle (dt : R) (keys : Aircraft.Keys) (a : Aircraft.t) :
  Aircraft.get_total_mass a <> 0 ->
  exists a',
    Aircraft.update dt keys a = Some a'
    /\ Aircraft.rotation a'
       = Aircraft.rotation (Aircraft.apply_controls dt keys a)
    /\ Aircraft.throttle a' = throttle_at_physics dt keys a.
Proof.
  intros Hm. destruct (update_stages dt keys a Hm) as (p & v & _ & _ & _ & E).
  eexists. split; [exact E |]. split.
  - rewrite (update_mission_data_preserves Aircraft.rotation)
      by reflexivity. reflexivity.
  - rewrite (update_mission_data_preserves Aircraft.throttle)
      by reflexivity. cbn. apply apply_controls_throttle.
Qed.

Lemma throttle_at_physics_range
  (dt : R) (keys : Aircraft.Keys) (a : Aircraft.t) :
  0 <= dt -> 0 <= Aircraft.throttle a <= 1 ->
  0 <= throttle_at_physics dt keys a <= 1.
Proof.
  intros Hdt Hth. unfold throttle_at_physics.
  destruct (Rle_dec (Aircraft.fuel_mass a) 0), (Aircraft.K_LSHIFT keys),
    (Aircraft.K_LCTRL keys);
    unfold Rmin, Rmax; repeat destruct (Rle_dec _ _); lra.
Qed.

(** X1.  [Aircraft.update] keeps the throttle between 0 and 1: with a time
    step that is not negative and a throttle in that range at entry, the
    update returns with the throttle in that range. *)
Theorem update_keeps_throttle_range
  (dt : R) (keys : Aircraft.Keys) (a : Aircraft.t) :
  Aircraft.get_total_mass a <> 0 ->
  0 <= dt -> 0 <= Aircraft.throttle a <= 1 ->
  exists a',
    Aircraft.update dt keys a = Some a'
    /\ 0 <= Aircraft.throttle a' <= 1.
Proof.
  intros Hm Hdt Hth.
  destruct (update_attitude_throttle dt keys a Hm) as (a' & E & _ & Et).
  exists a'. split; [exact E |]. rewrite Et.
  now apply throttle_at_physics_range.
Qed.

Lemma update_keeps_throttle_range_witness :
  exists a',
    Aircraft.update (1 / 60) shift_held (Aircraft.init Aircraft.default_config)
    = Some a'
    /\ 0 <= Aircraft.throttle a' <= 1.
Proof.
  apply update_keeps_throttle_range.
  - unfold Aircraft.get_total_mass. cbn. lra.
  - lra.
  - cbn. lra.
Defined.

Lemma apply_controls_attitude (dt : R) (keys : Aircraft.Keys) (a : Aircraft.t) :
  0 <= dt -> attitude_ok a -> attitude_ok (Aircraft.apply_controls dt keys a).
Proof.
  intros Hdt. pose proof PI_RGT_0 as Hpi.
  assert (S1 : forall a0, attitude_ok a0 -> attitude_ok (Aircraft.fuel_check a0)).
  { intros a0 H. unfold Aircraft.fuel_check.
    destruct (Rle_dec _ _); exact H. }
  assert (S2 : forall a0, attitude_ok a0 ->
                          attitude_ok (Aircraft.pitch_control dt keys a0)).
  { intros a0 [Hp Hr]. unfold Aircraft.pitch_control, attitude_ok.
    destruct (Aircraft.K_w keys), (Aircraft.K_s keys); cbn;
      (split; [| exact Hr]); unfold Rmin, Rmax;
      repeat destruct (Rle_dec _ _); lra. }
  assert (S3 : forall a0, attitude_ok a0 ->
                          attitude_ok (Aircraft.roll_control dt keys a0)).
  { intros a0 [Hp Hr]. unfold Aircraft.roll_control, attitude_ok.
    destruct (Aircraft.K_a keys), (Aircraft.K_d keys); cbn;
      (split; [exact Hp |]); unfold Rmin, Rmax;
      repeat destruct (Rle_dec _ _); lra. }
  assert (S4 : forall a0, attitude_ok a0 ->
                          attitude_ok (Aircraft.yaw_control dt keys a0)).
  { intros a0 H. unfold Aircraft.yaw_control.
    destruct (Aircraft.K_q keys), (Aircraft.K_e keys); exact H. }
  assert (S5 : forall a0, attitude_ok a0 ->
                          attitude_ok (Aircraft.throttle_control dt keys a0)).
  { intros a0 H. unfold Aircraft.throttle_control.
    destruct (Aircraft.K_LSHIFT keys), (Aircraft.K_LCTRL keys); exact H. }
  assert (S6 : forall a0, attitude_ok a0 ->
                          attitude_ok (Aircraft.auto_level keys a0)).
  { intros a0 [Hp Hr]. unfold Aircraft.auto_level, attitude_ok.
    destruct (Aircraft.K_SPACE keys); cbn; [| auto].
    unfold Aircraft.pitch, Aircraft.roll in *. split; lra. }
  intros H. unfold Aircraft.apply_controls.
  apply S6, S5, S4, S3, S2, S1, H.
Qed.

(** X2.  The manual attitude limits hold across [Aircraft.update]: with a
    time step that is not negative, a pitch within plus or minus pi/6 and a
    roll within plus or minus pi/3 stay within these limits, whatever keys
    are pressed. *)
Theorem update_keeps_attitude_limits
  (dt : R) (keys : Aircraft.Keys) (a : Aircraft.t) :
  Aircraft.get_total_mass a <> 0 ->
  0 <= dt -> attitude_ok a ->
  exists a', Aircraft.update dt keys a = Some a' /\ attitude_ok a'.
Proof.
  intros Hm Hdt Hok.
  destruct (update_attitude_throttle dt keys a Hm) as (a' & E & Er & _).
  exists a'. split; [exact E |].
  pose proof (apply_controls_attitude dt keys a Hdt Hok) as H.
  unfold attitude_ok, Aircraft.pitch, Aircraft.roll in *. now rewrite Er.
Qed.

Lemma update_keeps_attitude_limits_witness :
  exists a',
    Aircraft.update (1 / 60)
      (Aircraft.mkKeys true false false true false false false false true)
      (Aircraft.init Aircraft.default_config) = Some a'
    /\ attitude_ok a'.
Proof.
  apply update_keeps_attitude_limits.
  - unfold Aircraft.get_total_mass. cbn. lra.
  - lra.
  - unfold attitude_ok. cbn. pose proof PI_RGT_0. lra.
Defined.

(** X3.  Thrust never exceeds the throttle setting's share of the maximum
    thrust: with maximum thrust and throttle not negative and a
    non-negative altitude, [get_thrust] lies between 0 and
    [max_thrust * throttle]. *)
Theorem get_thrust_range (a : Aircraft.t) :
  0 <= Aircraft.max_thrust a -> 0 <= Aircraft.throttle a ->
  0 <= Vector3.y (Aircraft.position a) ->
  0 <= Aircraft.get_thrust a <= Aircraft.max_thrust a * Aircraft.throttle a.
Proof.
  intros Hm Ht Hy. unfold Aircraft.get_thrust.
  assert (Ha : 0 <= Aircraft.altitude_factor a <= 1).
  { unfold Aircraft.altitude_factor. cbv zeta.
    destruct (Rlt_dec _ 20000); lra. }
  assert (Hs : 0 <= Aircraft.speed_factor a <= 1).
  { unfold Aircraft.speed_factor. cbv zeta.
    pose proof (length_nonneg (Aircraft.velocity a)).
    destruct (Rlt_dec _ 1000); lra. }
  pose proof (Rmult_le_pos _ _ Hm Ht) as Hmt.
  set (mt := Aircraft.max_thrust a * Aircraft.throttle a) in *.
  split.
  - apply Rmult_le_pos; [apply Rmult_le_pos |]; lra.
  - assert (H1 : mt * Aircraft.altitude_factor a <= mt) by nra.
    assert (H2 : 0 <= mt * Aircraft.altitude_factor a) by nra.
    nra.
Qed.

Lemma get_thrust_range_witness :
  0 <= Aircraft.get_thrust (Aircraft.init Aircraft.default_config)
    <= Aircraft.max_thrust (Aircraft.init Aircraft.default_config)
       * Aircraft.throttle (Aircraft.init Aircraft.default_config).
Proof.
  apply get_thrust_range; cbn; lra.
Defined.

Lemma rho_pos (a : Aircraft.t) : 0 < Aircraft.rho a.
Proof.
  unfold Aircraft.rho. apply Rmult_lt_0_compat; [lra | apply exp_pos].
Qed.

(** X4.  Stall limiting: whatever the angle of attack, the lift is at most
    the lift of the clamped coefficient 1.5 in magnitude, and it is zero
    below 0.1 m/s. *)
Theorem get_lift_clamped (a : Aircraft.t) (alpha : R) :
  0 <= Aircraft.wing_area a ->
  let V := Vector3.length (Aircraft.velocity a) in
  Rabs (Aircraft.get_lift a alpha)
  <= 0.5 * Aircraft.rho a * V * V * Aircraft.wing_area a * 1.5
  /\ (V < 0.1 -> Aircraft.get_lift a alpha = 0).
Proof.
  intros Hs. cbv zeta. unfold Aircraft.get_lift. cbv zeta.
  pose proof (rho_pos a) as Hrho.
  pose proof (length_nonneg (Aircraft.velocity a)) as HV.
  set (V := Vector3.length (Aircraft.velocity a)) in *.
  assert (Hq : 0 <= 0.5 * Aircraft.rho a * V * V * Aircraft.wing_area a).
  { assert (H1 : 0 <= Aircraft.rho a * V) by nra.
    assert (H2 : 0 <= Aircraft.rho a * V * V) by nra.
    assert (H3 : 0 <= Aircraft.rho a * V * V * Aircraft.wing_area a) by nra.
    lra. }
  destruct (Rlt_dec V 0.1) as [Hlow | Hhigh].
  - split; [| reflexivity]. rewrite Rabs_R0. nra.
  - split; [| intros; lra].
    set (CL := Rmax (-1.5) (Rmin 1.5 (Aircraft.CL0 + Aircraft.CL_alpha * alpha))).
    assert (Hc : -1.5 <= CL <= 1.5).
    { subst CL. unfold Rmax, Rmin. repeat destruct (Rle_dec _ _); lra. }
    apply Rabs_le. split; nra.
Qed.

Lemma get_lift_clamped_witness :
  let a := Aircraft.init Aircraft.default_config in
  let V := Vector3.length (Aircraft.velocity a) in
  Rabs (Aircraft.get_lift a 1)
  <= 0.5 * Aircraft.rho a * V * V * Aircraft.wing_area a * 1.5
  /\ (V < 0.1 -> Aircraft.get_lift a 1 = 0).
Proof.
  apply get_lift_clamped. cbn. lra.
Defined.

(** X5.  Drag is never negative, and from 0.1 m/s on it is at least the
    parasitic drag of the coefficient [CD0]; the induced part uses the
    unclamped lift coefficient. *)
Theorem get_drag_lower_bound (a : Aircraft.t) (alpha : R) :
  0 <= Aircraft.wing_area a ->
  let V := Vector3.length (Aircraft.velocity a) in
  0 <= Aircraft.get_drag a alpha
  /\ (0.1 <= V ->
      0.5 * Aircraft.rho a * V * V * Aircraft.wing_area a * Aircraft.CD0
      <= Aircraft.get_drag a alpha).
Proof.
  intros Hs. cbv zeta. unfold Aircraft.get_drag, Aircraft.CD0, Aircraft.K.
  cbv zeta.
  pose proof (rho_pos a) as Hrho.
  pose proof (length_nonneg (Aircraft.velocity a)) as HV.
  set (V := Vector3.length (Aircraft.velocity a)) in *.
  set (CL := Aircraft.CL0 + Aircraft.CL_alpha * alpha).
  assert (Hq : 0 <= 0.5 * Aircraft.rho a * V * V * Aircraft.wing_area a).
  { assert (H1 : 0 <= Aircraft.rho a * V) by nra.
    assert (H2 : 0 <= Aircraft.rho a * V * V) by nra.
    assert (H3 : 0 <= Aircraft.rho a * V * V * Aircraft.wing_area a) by nra.
    lra. }
  assert (Hcl : 0 <= CL * CL) by nra.
  destruct (Rlt_dec V 0.1) as [Hlow | Hhigh].
  - split; [lra | intros; lra].
  - split; [| intros _]; nra.
Qed.

Lemma get_drag_lower_bound_witness :
  let a := Aircraft.init Aircraft.default_config in
  let V := Vector3.length (Aircraft.velocity a) in
  0 <= Aircraft.get_drag a 1
  /\ (0.1 <= V ->
      0.5 * Aircraft.rho a * V * V * Aircraft.wing_area a * Aircraft.CD0
      <= Aircraft.get_drag a 1).
Proof.
  apply get_drag_lower_bound. cbn. lra.
Defined.

(** ** Samples, range and fuel burnt *)

Lemma py_int_mono (x y : R) : 0 <= x <= y -> (py_int x <= py_int y)%Z.
Proof.
  intros [Hx Hxy]. unfold py_int.
  destruct (Rle_dec 0 x); [| lra]. destruct (Rle_dec 0 y); [| lra].
  now apply Zfloor_le.
Qed.

Lemma horizontal_speed_le (v : Vector3.t) :
  0 <= sqrt (Vector3.x v * Vector3.x v + Vector3.z v * Vector3.z v)
    <= Vector3.length v.
Proof.
  split; [apply sqrt_pos |]. apply sqrt_le_1.
  - nra.
  - apply length_squared_nonneg.
  - unfold Vector3.length_squared. nra.
Qed.

Lemma update_mission_data_samples (dt : R) (a : Aircraft.t) :
  0 <= dt -> samples_ok a ->
  let a' := Aircraft.update_mission_data dt a in
  samples_ok a'
  /\ (length (Aircraft.time (Aircraft.mission_data a'))
      <= S (length (Aircraft.time (Aircraft.mission_data a))))%nat
  /\ Aircraft.total_range a <= Aircraft.total_range a'
     <= Aircraft.total_range a + Vector3.length (Aircraft.velocity a) * dt.
Proof.
  intros Hdt (E1 & E2 & E3 & E4 & Hn & Ht).
  pose proof (horizontal_speed_le (Aircraft.velocity a)) as [Hh0 Hh].
  assert (Hmono : (py_int (Aircraft.mission_time a)
                   <= py_int (Aircraft.mission_time a + dt))%Z)
    by (apply py_int_mono; lra).
  set (hs := sqrt (Vector3.x (Aircraft.velocity a) * Vector3.x (Aircraft.velocity a)
                   + Vector3.z (Aircraft.velocity a) * Vector3.z (Aircraft.velocity a)))
    in *.
  assert (Hr : Aircraft.total_range a <= Aircraft.total_range a + hs * dt
               <= Aircraft.total_range a + Vector3.length (Aircraft.velocity a) * dt)
    by nra.
  unfold Aircraft.update_mission_data. cbv zeta. fold hs.
  cbn [Aircraft.mission_data Aircraft.set_range_time Aircraft.time].
  destruct (Z.ltb_spec
              (Z.of_nat (length (Aircraft.time (Aircraft.mission_data a))))
              (py_int (Aircraft.mission_time a + dt))) as [Hlt | Hge].
  - unfold samples_ok. cbn. rewrite !length_app. cbn.
    repeat split; try lia; try lra.
  - unfold samples_ok. cbn. repeat split; try lia; try lra; try assumption.
Qed.

Lemma update_log_step (dt : R) (keys : Aircraft.Keys) (a : Aircraft.t) :
  fuel_ready a -> 0 <= dt -> samples_ok a ->
  exists a',
    Aircraft.update dt keys a = Some a'
    /\ fuel_ready a'
    /\ samples_ok a'
    /\ (length (Aircraft.time (Aircraft.mission_data a'))
        <= S (length (Aircraft.time (Aircraft.mission_data a))))%nat
    /\ Aircraft.total_range a <= Aircraft.total_range a'
       <= Aircraft.total_range a + Aircraft.max_speed * dt.
Proof.
  intros Hr Hdt Hs.
  destruct (update_keeps_fuel_ready dt keys a Hdt Hr) as (a' & E & Hr' & _).
  exists a'. split; [exact E |]. split; [exact Hr' |].
  destruct (update_stages dt keys a) as (p & v & _ & Hv & _ & E').
  { destruct Hr as (Hm & Hf & _). unfold Aircraft.get_total_mass. lra. }
  rewrite E in E'. injection E' as ->.
  set (a2 := snd (Aircraft.update_fuel dt
                    (Aircraft.set_velocity
                       (Aircraft.set_position
                          (Aircraft.apply_controls dt keys a) p) v))).
  assert (Ed : Aircraft.mission_data a2 = Aircraft.mission_data a)
    by (subst a2; cbn;
        now rewrite (apply_controls_preserves Aircraft.mission_data)).
  assert (Et : Aircraft.mission_time a2 = Aircraft.mission_time a)
    by (subst a2; cbn;
        now rewrite (apply_controls_preserves Aircraft.mission_time)).
  assert (Eg : Aircraft.total_range a2 = Aircraft.total_range a)
    by (subst a2; cbn;
        now rewrite (apply_controls_preserves Aircraft.total_range)).
  assert (Ev : Aircraft.velocity a2 = v) by reflexivity.
  assert (Hs2 : samples_ok a2).
  { unfold samples_ok in *. rewrite Ed, Et. exact Hs. }
  destruct (update_mission_data_samples dt a2 Hdt Hs2) as (Hs' & Hn & Hg).
  rewrite Ed in Hn. rewrite Eg, Ev in Hg.
  split; [exact Hs' |]. split; [exact Hn |].
  assert (Vector3.length v * dt <= Aircraft.max_speed * dt)
    by (apply Rmult_le_compat_r; assumption).
  destruct Hg as [Hg1 Hg2]. split; [exact Hg1 |].
  eapply Rle_trans; [exact Hg2 | lra].
Qed.

(** X6.  Sampling of the flight: along any sequence of [Aircraft.update]
    calls with time steps that are not negative, the five sample lists
    stay equally long, there are never more samples than whole seconds of
    mission time, and the calls add at most one sample each. *)
Theorem samples_at_most_one_per_second
  (steps : list (R * Aircraft.Keys)) (a : Aircraft.t) :
  fuel_ready a -> samples_ok a ->
  Forall (fun st => 0 <= fst st) steps ->
  exists a',
    Aircraft.updates steps a = Some a'
    /\ samples_ok a'
    /\ (length (Aircraft.time (Aircraft.mission_data a'))
        <= length (Aircraft.time (Aircraft.mission_data a)) + length steps)%nat.
Proof.
  revert a. induction steps as [| [dt keys] rest IH]; intros a Hr Hs Hall.
  - exists a. split; [reflexivity |]. split; [exact Hs | cbn; lia].
  - apply Forall_cons in Hall as [Hdt Hall]. cbn in Hdt.
    destruct (update_log_step dt keys a Hr Hdt Hs)
      as (a1 & E & Hr1 & Hs1 & Hn1 & _).
    destruct (IH a1 Hr1 Hs1 Hall) as (a' & E' & Hs' & Hn').
    exists a'. cbn [Aircraft.updates]. rewrite E. cbn [mbind option_bind].
    split; [exact E' |]. split; [exact Hs' |]. cbn [length]. lia.
Qed.

Lemma samples_at_most_one_per_second_witness :
  exists a',
    Aircraft.updates [(1 / 60, Aircraft.no_keys); (1, shift_held)]
      (Aircraft.init Aircraft.default_config) = Some a'
    /\ samples_ok a'
    /\ (length (Aircraft.time (Aircraft.mission_data a'))
        <= length (Aircraft.time
                     (Aircraft.mission_data
                        (Aircraft.init Aircraft.default_config))) + 2)%nat.
Proof.
  apply (samples_at_most_one_per_second
           [(1 / 60, Aircraft.no_keys); (1, shift_held)]).
  - unfold fuel_ready. cbn. lra.
  - unfold samples_ok, py_int. cbn.
    destruct (Rle_dec 0 0); [| lra].
    change 0 with (IZR 0). rewrite ZfloorZ. repeat split; try lia. cbn. lra.
  - repeat constructor; cbn; lra.
Defined.

Lemma update_mission_data_range (dt : R) (a : Aircraft.t) :
  0 <= dt ->
  Aircraft.total_range a
  <= Aircraft.total_range (Aircraft.update_mission_data dt a)
  <= Aircraft.total_range a + Vector3.length (Aircraft.velocity a) * dt.
Proof.
  intros Hdt.
  pose proof (horizontal_speed_le (Aircraft.velocity a)) as [Hh0 Hh].
  unfold Aircraft.update_mission_data. cbv zeta.
  destruct (Z.ltb _ _); cbn; nra.
Qed.

(** X7.  The cumulative range never decreases, and one update adds at most
    [max_speed] times the time step to it. *)
Theorem range_grows_at_most_max_speed
  (dt : R) (keys : Aircraft.Keys) (a : Aircraft.t) :
  Aircraft.get_total_mass a <> 0 -> 0 <= dt ->
  exists a',
    Aircraft.update dt keys a = Some a'
    /\ Aircraft.total_range a <= Aircraft.total_range a'
       <= Aircraft.total_range a + Aircraft.max_speed * dt.
Proof.
  intros Hm Hdt.
  destruct (update_stages dt keys a Hm) as (p & v & _ & Hv & _ & E).
  eexists. split; [exact E |].
  match goal with
  | |- context [Aircraft.update_mission_data dt ?X] =>
      pose proof (update_mission_data_range dt X Hdt) as [H1 H2];
      assert (Eg : Aircraft.total_range X = Aircraft.total_range a)
        by (cbn; now rewrite (apply_controls_preserves Aircraft.total_range));
      assert (Ev : Aircraft.velocity X = v) by reflexivity
  end.
  rewrite Eg in H1, H2. rewrite Ev in H2.
  split; [exact H1 |]. eapply Rle_trans; [exact H2 |].
  apply Rplus_le_compat_l. now apply Rmult_le_compat_r.
Qed.

Lemma range_grows_at_most_max_speed_witness :
  exists a',
    Aircraft.update (1 / 60) Aircraft.no_keys
      (Aircraft.init Aircraft.default_config) = Some a'
    /\ Aircraft.total_range (Aircraft.init Aircraft.default_config)
       <= Aircraft.total_range a'
       <= Aircraft.total_range (Aircraft.init Aircraft.default_config)
          + Aircraft.max_speed * (1 / 60).
Proof.
  apply range_grows_at_most_max_speed.
  - unfold Aircraft.get_total_mass. cbn. lra.
  - lra.
Defined.

(** X8.  One update burns at most [fuel_flow_rate * throttle * dt], with
    the throttle the physics step sees: the altitude efficiency never
    raises the consumption, and the fuel stops at zero. *)
Theorem fuel_burn_bounded
  (dt : R) (keys : Aircraft.Keys) (a : Aircraft.t) :
  fuel_ready a -> 0 <= dt ->
  exists a',
    Aircraft.update dt keys a = Some a'
    /\ Aircraft.fuel_mass a - Aircraft.fuel_mass a'
       <= Aircraft.fuel_flow_rate a * throttle_at_physics dt keys a * dt.
Proof.
  intros (Hm & Hf & Hth & Hff) Hdt.
  destruct (update_stages dt keys a) as (p & v & Hp & _ & _ & E).
  { unfold Aircraft.get_total_mass. lra. }
  eexists. split; [exact E |].
  rewrite (update_mission_data_preserves Aircraft.fuel_mass) by reflexivity.
  destruct (apply_controls_frame dt keys a) as (_ & Ef & Er & _).
  pose proof (apply_controls_throttle dt keys a) as Et.
  pose proof (throttle_at_physics_nonneg dt keys a Hdt Hth) as Ht.
  cbn. rewrite Ef, Er, Et.
  set (c := Aircraft.fuel_flow_rate a * throttle_at_physics dt keys a * dt).
  assert (Hc : 0 <= c).
  { subst c. apply Rmult_le_pos; [apply Rmult_le_pos |]; assumption. }
  unfold Aircraft.service_ceiling in Hp.
  assert (He : 0 <= (if Rlt_dec (Vector3.y p) 15000
                     then 1 - Vector3.y p / 30000 else 0.5) <= 1).
  { destruct (Rlt_dec _ _); lra. }
  set (e := if Rlt_dec (Vector3.y p) 15000
            then 1 - Vector3.y p / 30000 else 0.5) in *.
  assert (Hce : c * e <= c) by nra.
  unfold Rmax. destruct (Rle_dec _ _); lra.
Qed.

Lemma fuel_burn_bounded_witness :
  exists a',
    Aircraft.update (1 / 60) shift_held (Aircraft.init Aircraft.default_config)
    = Some a'
    /\ Aircraft.fuel_mass (Aircraft.init Aircraft.default_config)
       - Aircraft.fuel_mass a'
       <= Aircraft.fuel_flow_rate (Aircraft.init Aircraft.default_config)
          * throttle_at_physics (1 / 60) shift_held
              (Aircraft.init Aircraft.default_config) * (1 / 60).
Proof.
  apply fuel_burn_bounded.
  - unfold fuel_ready. cbn. lra.
  - lra.
Defined.

(** * Further properties of the mission profile *)

(** [MissionProfile.update] on a well-formed mission that is not finished:
    it executes the current segment, which is not completed and has the
    constructor fields of the default mission, stores the segment back,
    adds the time step to the total time and advances the cursor exactly
    when the segment came back completed. *)
Lemma mission_update_current (dt : R) (a : Aircraft.t) (m : MissionProfile.t) :
  mission_wf m ->
  (MissionProfile.current_segment_index m < segment_count)%nat ->
  let i := MissionProfile.current_segment_index m in
  exists g a1 g' m',
    MissionProfile.segments m !! i = Some g
    /\ MissionSegment.completed g = false
    /\ map static MissionProfile.create_default_mission !! i = Some (static g)
    /\ MissionProfile.execute_segment g dt a = Some (a1, g')
    /\ MissionProfile.update dt (a, m)
       = Some (after_segment i (MissionSegment.completed g') a1, m')
    /\ MissionProfile.segments m' = <[i := g']> (MissionProfile.segments m)
    /\ MissionProfile.current_segment_index m'
       = (if MissionSegment.completed g' then S i else i)
    /\ MissionProfile.mission_complete m'
       = (MissionSegment.completed g' && (segment_count <=? S i)%nat)
    /\ MissionProfile.total_time m' = MissionProfile.total_time m + dt
    /\ MissionProfile.total_distance m' = Aircraft.total_range a1
    /\ MissionProfile.profile_data m'
       = (let pd := MissionProfile.profile_data m in
          if Z.ltb (Z.of_nat (length (MissionProfile.p_altitude pd)))
                   (py_int (MissionProfile.total_time m + dt))
          then MissionProfile.mkProfile
                 (MissionProfile.p_altitude pd ++ [MissionProfile.alt a1])
                 (MissionProfile.p_range pd ++ [Aircraft.total_range a1])
                 (MissionProfile.p_fuel pd ++ [Aircraft.fuel_mass a1])
                 (MissionProfile.p_segments pd ++ [MissionSegment.name g'])
          else pd).
Proof.
  intros Hwf Hlt.
  destruct (wf_segments m Hwf)
    as (g0 & g1 & g2 & g3 & g4 & g5 & Hs & Hst & Hin & N0).
  pose proof Hwf as (_ & Hidx & Hfl & Hmc).
  destruct m as [segs i mc tf td tt de pd].
  cbn in Hs, Hidx, Hfl, Hmc, Hlt. subst segs.
  unfold completed_flags, segment_count in *. cbn in Hfl.
  rewrite !Forall_cons in Hin.
  destruct Hin as (I0 & I1 & I2 & I3 & I4 & I5 & _).
  assert (Hst' : map static MissionProfile.create_default_mission
                 = [static g0; static g1; static g2; static g3; static g4;
                    static g5]) by (symmetry; exact Hst).
  destruct mc; [specialize (Hmc eq_refl); lia |].
  cbv zeta. unfold MissionProfile.update, after_segment, segment_count.
  cbn [MissionProfile.current_segment_index MissionProfile.mission_complete
       MissionProfile.segments].
  rewrite Hst'.
  destruct i as [| [| [| [| [| [| i]]]]]]; try lia;
    cbn in Hfl; injection Hfl as F0 F1 F2 F3 F4 F5;
    cbn [orb length Nat.leb lookup list_lookup mbind option_bind].
  all: match goal with
       | |- context [MissionProfile.execute_segment ?g ?d ?x] =>
           destruct (execute_segment_total g d x) as (a1 & g' & E);
           [ assumption | exists g, a1, g'; rewrite E ]
       end.
  all: cbn [mbind option_bind]; unfold MissionProfile.record_profile_data;
    cbn [MissionProfile.set_totals MissionProfile.set_segments
         MissionProfile.profile_data MissionProfile.total_time
         MissionProfile.segments MissionProfile.current_segment_index
         MissionProfile.mission_complete MissionProfile.total_fuel_consumed
         MissionProfile.display_enabled MissionProfile.total_distance];
    destruct (Z.ltb _ _);
    destruct (MissionSegment.completed g') eqn:Ec;
    cbn -[static];
    (eexists; repeat split; try reflexivity; try assumption).
Qed.

(** ** The six segments, one by one *)

(** [execute_segment] on the TURN segment of the default mission, in
    closed form. *)
Lemma execute_segment_turn (g : MissionSegment.t) (dt : R) (a : Aircraft.t) :
  static g = ("TURN"%string, Some 5000, Some 180, Some 120, None) ->
  let tt := match MissionSegment.turn_time g with
            | Some t0 => t0
            | None => 0
            end + dt in
  let a1 := Aircraft.set_pitch (Aircraft.set_phase a "TURN")
              ((5000 - MissionProfile.alt a) * 0.001) in
  let a2 := Aircraft.set_yaw (Aircraft.set_roll a1 (PI / 6))
              (Aircraft.yaw a + 9.81 * tan (PI / 6) / 180 * dt) in
  let g1 := MissionSegment.set_turn_time g (Some tt) in
  MissionProfile.execute_segment g dt a
  = if Rge_dec tt 120
    then Some (Aircraft.set_roll a2 0, MissionSegment.set_completed g1 true)
    else Some (a2, g1).
Proof.
  unfold static. intros H. injection H as En Ea Es Ed Ei.
  unfold MissionProfile.execute_segment. cbv zeta. rewrite En.
  cbn [String.eqb Ascii.eqb Bool.eqb].
  unfold MissionProfile.execute_turn.
  cbn [MissionSegment.target_altitude MissionSegment.target_speed
       MissionSegment.duration MissionSegment.set_turn_time].
  rewrite Ea, Es, Ed. cbn [mbind option_bind].
  rewrite py_div_some by lra. cbn [mbind option_bind].
  reflexivity.
Qed.

(** X9 (mission.py, [MissionProfile.update] with [execute_turn]): while
    the TURN segment is current, a call returns, holds the pitch at
    (5000 - altitude) * 0.001, advances the yaw by 9.81 * tan(pi/6) / 180
    per second, adds the time step to the turn timer, and moves on to
    DESCENT exactly when the timer has reached 120 s; the roll is pi/6
    until then and 0 on the call that ends the turn. *)
Theorem turn_segment_policy
  (dt : R) (a : Aircraft.t) (m : MissionProfile.t) :
  mission_wf m ->
  MissionProfile.current_segment_index m = 3%nat ->
  exists a' m',
    MissionProfile.update dt (a, m) = Some (a', m')
    /\ Aircraft.pitch a' = (5000 - MissionProfile.alt a) * 0.001
    /\ Aircraft.yaw a' = Aircraft.yaw a + 9.81 * tan (PI / 6) / 180 * dt
    /\ turn_elapsed m' = turn_elapsed m + dt
    /\ (120 <= turn_elapsed m + dt ->
        MissionProfile.current_segment_index m' = 4%nat
        /\ Aircraft.roll a' = 0)
    /\ (turn_elapsed m + dt < 120 ->
        MissionProfile.current_segment_index m' = 3%nat
        /\ Aircraft.roll a' = PI / 6).
Proof.
  intros Hwf Hi.
  destruct (mission_update_current dt a m Hwf)
    as (g & a1 & g' & m' & Hl & Hc & Hst & E & U & Hs & Hx & _);
    [rewrite Hi; unfold segment_count; lia |].
  rewrite Hi in *. cbn in Hst. apply (inj Some) in Hst. symmetry in Hst.
  rewrite (execute_segment_turn g dt a Hst) in E.
  assert (Ht : turn_elapsed m
               = match MissionSegment.turn_time g with
                 | Some t0 => t0
                 | None => 0
                 end)
    by (unfold turn_elapsed; now rewrite Hl).
  assert (Ht' : turn_elapsed m'
                = match MissionSegment.turn_time g' with
                  | Some t0 => t0
                  | None => 0
                  end).
  { unfold turn_elapsed. rewrite Hs, list_lookup_insert_eq; [reflexivity |].
    eapply lookup_lt_Some, Hl. }
  exists (after_segment 3 (MissionSegment.completed g') a1), m'.
  split; [exact U |]. rewrite Ht, Ht', Hx. clear U Hs Hx Ht Ht'.
  unfold after_segment, segment_count.
  destruct (Rge_dec _ 120) as [Hge | Hlt]; injection E as <- <-;
    cbn -[Rplus Rmult Rdiv tan PI]; rewrite ?Hc; cbn -[Rplus Rmult Rdiv tan PI];
    repeat split; intros; try reflexivity; lra.
Qed.

Lemma turn_segment_policy_witness :
  exists a' m',
    MissionProfile.update 1
      (Aircraft.init Aircraft.default_config,
       MissionProfile.set_index
         (MissionProfile.set_segments MissionProfile.init
            (map (fun g => MissionSegment.set_completed g true)
                 (take 3 MissionProfile.create_default_mission)
             ++ drop 3 MissionProfile.create_default_mission)) 3)
    = Some (a', m')
    /\ Aircraft.roll a' = PI / 6.
Proof.
  edestruct (turn_segment_policy 1 (Aircraft.init Aircraft.default_config)
    (MissionProfile.set_index
       (MissionProfile.set_segments MissionProfile.init
          (map (fun g => MissionSegment.set_completed g true)
               (take 3 MissionProfile.create_default_mission)
           ++ drop 3 MissionProfile.create_default_mission)) 3))
    as (a' & m' & U & _ & _ & _ & _ & Hlt).
  - repeat split; cbn; unfold segment_count; try lia; discriminate.
  - reflexivity.
  - exists a', m'. split; [exact U |]. apply Hlt.
    unfold turn_elapsed. cbn. lra.
Defined.

Lemma mission_at_wf (k : nat) : (k <= segment_count)%nat -> mission_wf (mission_at k).
Proof.
  unfold segment_count. intros Hk.
  destruct k as [| [| [| [| [| [| [| k]]]]]]]; try lia;
    repeat split; cbn; unfold segment_count; try lia; discriminate.
Qed.

(** [mission_update_current] with the cursor at a given segment [k] and
    the constructor fields of that segment spelled out. *)
Lemma mission_update_at
  (k : nat) (dt : R) (a : Aircraft.t) (m : MissionProfile.t) :
  mission_wf m ->
  MissionProfile.current_segment_index m = k ->
  (k < segment_count)%nat ->
  exists g a1 g' m' d,
    MissionProfile.create_default_mission !! k = Some d
    /\ (MissionSegment.name g = MissionSegment.name d
        /\ MissionSegment.target_altitude g = MissionSegment.target_altitude d
        /\ MissionSegment.target_speed g = MissionSegment.target_speed d
        /\ MissionSegment.duration g = MissionSegment.duration d
        /\ MissionSegment.distance g = MissionSegment.distance d)
    /\ MissionSegment.completed g = false
    /\ MissionProfile.segments m !! k = Some g
    /\ MissionProfile.execute_segment g dt a = Some (a1, g')
    /\ MissionProfile.update dt (a, m)
       = Some (after_segment k (MissionSegment.completed g') a1, m')
    /\ MissionProfile.current_segment_index m'
       = (if MissionSegment.completed g' then S k else k)
    /\ MissionProfile.mission_complete m'
       = (MissionSegment.completed g' && (segment_count <=? S k)%nat)
    /\ MissionProfile.segments m' = <[k := g']> (MissionProfile.segments m)
    /\ MissionProfile.total_time m' = MissionProfile.total_time m + dt.
Proof.
  intros Hwf Hi Hk.
  destruct (mission_update_current dt a m Hwf)
    as (g & a1 & g' & m' & Hl & Hc & Hst & E & U & Hs & Hx & Hmc & Ht & _);
    [rewrite Hi; exact Hk |].
  rewrite Hi in *.
  destruct (MissionProfile.create_default_mission !! k) as [d |] eqn:Hd.
  - exists g, a1, g', m', d. repeat split; try assumption.
    all: assert (Hst' : static d = static g)
      by (apply (inj Some); rewrite <- Hst;
          change (map static MissionProfile.create_default_mission)
            with (static <$> MissionProfile.create_default_mission);
          now rewrite list_lookup_fmap, Hd).
    all: unfold static in Hst'; congruence.
  - apply lookup_ge_None in Hd. cbn in Hd. unfold segment_count in Hk. lia.
Qed.

Ltac segment_cases E :=
  unfold MissionProfile.alt, MissionProfile.spd, Aircraft.pitch,
    Aircraft.roll, Aircraft.yaw in *;
  cbn -[Rplus Rmult Rdiv Rminus Ropp Rmin Rmax Rabs IZR Vector3.length] in E;
  repeat match type of E with
         | context [if ?c then _ else _] => destruct c
         end.

Ltac segment_finish E Hc :=
  cbn -[Rplus Rmult Rdiv Rminus Ropp Rmin Rmax Rabs IZR Vector3.length] in *;
  injection E as <- <-;
  cbn -[Rplus Rmult Rdiv Rminus Ropp Rmin Rmax Rabs IZR Vector3.length];
  rewrite ?Hc;
  cbn -[Rplus Rmult Rdiv Rminus Ropp Rmin Rmax Rabs IZR Vector3.length];
  repeat split; intros; try reflexivity; try lra.

(** X10 (mission.py, [MissionProfile.update] with [execute_wuto]): while
    WUTO is current, a call returns; during the first 30 s of progress it
    sets the throttle to 0.3 and stays in WUTO; afterwards it sets full
    throttle, and moves on to CLIMB exactly when the altitude has reached
    100 m. *)
Theorem wuto_segment_policy
  (dt : R) (a : Aircraft.t) (m : MissionProfile.t) :
  mission_wf m ->
  MissionProfile.current_segment_index m = 0%nat ->
  exists a' m',
    MissionProfile.update dt (a, m) = Some (a', m')
    /\ (wuto_progress m < 30 ->
        Aircraft.throttle a' = 0.3
        /\ MissionProfile.current_segment_index m' = 0%nat)
    /\ (30 <= wuto_progress m ->
        Aircraft.throttle a' = 1
        /\ (100 <= MissionProfile.alt a ->
            MissionProfile.current_segment_index m' = 1%nat)
        /\ (MissionProfile.alt a < 100 ->
            MissionProfile.current_segment_index m' = 0%nat)).
Proof.
  intros Hwf Hi.
  destruct (mission_update_at 0 dt a m Hwf Hi)
    as (g & a1 & g' & m' & d & Hd & (En & Ea & Es & Ed & Ei) & Hc & Hl & E & U
        & Hx & _); [unfold segment_count; lia |].
  injection Hd as <-. cbn in En, Ea.
  exists (after_segment 0 (MissionSegment.completed g') a1), m'.
  split; [exact U |]. rewrite Hx. unfold wuto_progress. rewrite Hl.
  unfold MissionProfile.execute_segment, MissionProfile.execute_wuto in E.
  cbv zeta in E. rewrite En, Ea in E.
  cbn [String.eqb Ascii.eqb Bool.eqb mbind option_bind] in E.
  unfold MissionProfile.alt in *. cbn [Aircraft.position Aircraft.set_throttle
    Aircraft.set_phase Aircraft.set_mission_data] in E.
  unfold after_segment, segment_count.
  segment_cases E; segment_finish E Hc.
Qed.

Lemma wuto_segment_policy_witness :
  exists a' m',
    MissionProfile.update 1 (aircraft_at 50, mission_at 0) = Some (a', m')
    /\ Aircraft.throttle a' = 0.3.
Proof.
  edestruct (wuto_segment_policy 1 (aircraft_at 50) (mission_at 0))
    as (a' & m' & U & Hlt & _).
  - apply mission_at_wf. unfold segment_count. lia.
  - reflexivity.
  - exists a', m'. split; [exact U |]. apply Hlt.
    unfold wuto_progress. cbn. lra.
Defined.

(** X11 (mission.py, [MissionProfile.update] with [execute_climb]): while
    CLIMB is current, a call returns; below 5000 m it stays in CLIMB,
    moves the pitch by 0.5 rad/s towards min(0.3, (5000 - altitude)/1000)
    and moves the throttle by 0.5 per second, up to at most 1 below
    150 m/s and down to at least 0.5 otherwise; from 5000 m on it levels
    the pitch to 0, leaves the throttle alone and moves on to CRUISE. *)
Theorem climb_segment_policy
  (dt : R) (a : Aircraft.t) (m : MissionProfile.t) :
  mission_wf m ->
  MissionProfile.current_segment_index m = 1%nat ->
  let want := Rmin 0.3 ((5000 - MissionProfile.alt a) / 1000) in
  exists a' m',
    MissionProfile.update dt (a, m) = Some (a', m')
    /\ (5000 <= MissionProfile.alt a ->
        MissionProfile.current_segment_index m' = 2%nat
        /\ Aircraft.pitch a' = 0
        /\ Aircraft.throttle a' = Aircraft.throttle a)
    /\ (MissionProfile.alt a < 5000 ->
        MissionProfile.current_segment_index m' = 1%nat
        /\ (Aircraft.pitch a < want ->
            Aircraft.pitch a' = Aircraft.pitch a + 0.5 * dt)
        /\ (want < Aircraft.pitch a ->
            Aircraft.pitch a' = Aircraft.pitch a - 0.5 * dt)
        /\ (Aircraft.pitch a = want -> Aircraft.pitch a' = Aircraft.pitch a)
        /\ (MissionProfile.spd a < 150 ->
            Aircraft.throttle a'
            = Rmin 1 (Aircraft.throttle a + dt * 0.5))
        /\ (150 <= MissionProfile.spd a ->
            Aircraft.throttle a'
            = Rmax 0.5 (Aircraft.throttle a - dt * 0.5))).
Proof.
  intros Hwf Hi want.
  destruct (mission_update_at 1 dt a m Hwf Hi)
    as (g & a1 & g' & m' & d & Hd & (En & Ea & Es & Ed & Ei) & Hc & Hl & E & U
        & Hx & _); [unfold segment_count; lia |].
  injection Hd as <-. cbn in En, Ea, Es.
  exists (after_segment 1 (MissionSegment.completed g') a1), m'.
  split; [exact U |]. rewrite Hx.
  unfold MissionProfile.execute_segment, MissionProfile.execute_climb in E.
  cbv zeta in E. rewrite En, Ea, Es in E.
  cbn [String.eqb Ascii.eqb Bool.eqb mbind option_bind] in E.
  subst want. unfold MissionProfile.alt, MissionProfile.spd in *.
  cbn -[Rplus Rmult Rdiv Rminus Ropp Rmin Rmax Rabs IZR Vector3.length] in E.
  unfold after_segment, segment_count.
  segment_cases E; segment_finish E Hc.
Qed.

Lemma climb_segment_policy_witness :
  exists a' m',
    MissionProfile.update 1 (aircraft_at 5000, mission_at 1) = Some (a', m')
    /\ MissionProfile.current_segment_index m' = 2%nat.
Proof.
  edestruct (climb_segment_policy 1 (aircraft_at 5000) (mission_at 1))
    as (a' & m' & U & Hge & _).
  - apply mission_at_wf. unfold segment_count. lia.
  - reflexivity.
  - exists a', m'. split; [exact U |]. apply Hge. cbn. lra.
Defined.

(** X12 (mission.py, [MissionProfile.update] with [execute_cruise]): while
    CRUISE is current, a call returns and sets the pitch to
    (5000 - altitude) * 0.001; when the speed is more than 5 m/s off
    200 m/s the throttle moves by a hundredth of the speed error and is
    kept within 0.3 and 1, otherwise it is left alone; the mission moves on
    to TURN exactly when the range flown has reached 200 km. *)
Theorem cruise_segment_policy
  (dt : R) (a : Aircraft.t) (m : MissionProfile.t) :
  mission_wf m ->
  MissionProfile.current_segment_index m = 2%nat ->
  exists a' m',
    MissionProfile.update dt (a, m) = Some (a', m')
    /\ Aircraft.pitch a' = (5000 - MissionProfile.alt a) * 0.001
    /\ (5 < Rabs (200 - MissionProfile.spd a) ->
        Aircraft.throttle a'
        = Rmax 0.3 (Rmin 1 (Aircraft.throttle a
                            + (200 - MissionProfile.spd a) * 0.01)))
    /\ (Rabs (200 - MissionProfile.spd a) <= 5 ->
        Aircraft.throttle a' = Aircraft.throttle a)
    /\ (200000 <= Aircraft.total_range a ->
        MissionProfile.current_segment_index m' = 3%nat)
    /\ (Aircraft.total_range a < 200000 ->
        MissionProfile.current_segment_index m' = 2%nat).
Proof.
  intros Hwf Hi.
  destruct (mission_update_at 2 dt a m Hwf Hi)
    as (g & a1 & g' & m' & d & Hd & (En & Ea & Es & Ed & Ei) & Hc & Hl & E & U
        & Hx & _); [unfold segment_count; lia |].
  injection Hd as <-. cbn in En, Ea, Es, Ei.
  exists (after_segment 2 (MissionSegment.completed g') a1), m'.
  split; [exact U |]. rewrite Hx.
  unfold MissionProfile.execute_segment, MissionProfile.execute_cruise in E.
  cbv zeta in E. rewrite En, Ea, Es, Ei in E.
  cbn [String.eqb Ascii.eqb Bool.eqb mbind option_bind
       MissionSegment.distance MissionSegment.set_progress py_truthy] in E.
  destruct (Req_dec_T 200000 0); [lra |].
  rewrite Ei in E. cbn [mbind option_bind] in E.
  unfold MissionProfile.alt, MissionProfile.spd in *.
  cbn -[Rplus Rmult Rdiv Rminus Ropp Rmin Rmax Rabs IZR Vector3.length] in E.
  unfold after_segment, segment_count.
  segment_cases E; segment_finish E Hc.
Qed.

Lemma cruise_segment_policy_witness :
  exists a' m',
    MissionProfile.update 1 (aircraft_at 4000, mission_at 2) = Some (a', m')
    /\ MissionProfile.current_segment_index m' = 2%nat.
Proof.
  edestruct (cruise_segment_policy 1 (aircraft_at 4000) (mission_at 2))
    as (a' & m' & U & _ & _ & _ & _ & Hlt).
  - apply mission_at_wf. unfold segment_count. lia.
  - reflexivity.
  - exists a', m'. split; [exact U |]. apply Hlt. cbn. lra.
Defined.

(** X13 (mission.py, [MissionProfile.update] with [execute_descent]):
    while DESCENT is current, a call returns; above 500 m it stays in
    DESCENT, lowers the throttle by 0.3 per second but not below 0.2, and
    lowers the pitch by 0.3 rad/s as long as it is above
    -min(0.2, (altitude - 500)/2000); at 500 m or below it levels the pitch
    to 0, leaves the throttle alone and moves on to LANDING. *)
Theorem descent_segment_policy
  (dt : R) (a : Aircraft.t) (m : MissionProfile.t) :
  mission_wf m ->
  MissionProfile.current_segment_index m = 4%nat ->
  let want := - Rmin 0.2 ((MissionProfile.alt a - 500) / 2000) in
  exists a' m',
    MissionProfile.update dt (a, m) = Some (a', m')
    /\ (MissionProfile.alt a <= 500 ->
        MissionProfile.current_segment_index m' = 5%nat
        /\ Aircraft.pitch a' = 0
        /\ Aircraft.throttle a' = Aircraft.throttle a)
    /\ (500 < MissionProfile.alt a ->
        MissionProfile.current_segment_index m' = 4%nat
        /\ Aircraft.throttle a' = Rmax 0.2 (Aircraft.throttle a - dt * 0.3)
        /\ (want < Aircraft.pitch a ->
            Aircraft.pitch a' = Aircraft.pitch a - 0.3 * dt)
        /\ (Aircraft.pitch a <= want ->
            Aircraft.pitch a' = Aircraft.pitch a)).
Proof.
  intros Hwf Hi want.
  destruct (mission_update_at 4 dt a m Hwf Hi)
    as (g & a1 & g' & m' & d & Hd & (En & Ea & Es & Ed & Ei) & Hc & Hl & E & U
        & Hx & _); [unfold segment_count; lia |].
  injection Hd as <-. cbn in En, Ea.
  exists (after_segment 4 (MissionSegment.completed g') a1), m'.
  split; [exact U |]. rewrite Hx.
  unfold MissionProfile.execute_segment, MissionProfile.execute_descent in E.
  cbv zeta in E. rewrite En, Ea in E.
  cbn [String.eqb Ascii.eqb Bool.eqb mbind option_bind] in E.
  subst want. unfold after_segment, segment_count.
  segment_cases E; segment_finish E Hc.
Qed.

Lemma descent_segment_policy_witness :
  exists a' m',
    MissionProfile.update 1 (aircraft_at 400, mission_at 4) = Some (a', m')
    /\ MissionProfile.current_segment_index m' = 5%nat.
Proof.
  edestruct (descent_segment_policy 1 (aircraft_at 400) (mission_at 4))
    as (a' & m' & U & Hle & _).
  - apply mission_at_wf. unfold segment_count. lia.
  - reflexivity.
  - exists a', m'. split; [exact U |]. apply Hle. cbn. lra.
Defined.

(** X14 (mission.py, [MissionProfile.update] with [execute_landing]):
    while LANDING is current, a call returns; above 10 m it holds the
    pitch at -0.1, keeps the velocity, lowers the throttle by 0.5 per
    second (not below 0.1) while the speed is above 70 m/s, and stays in
    LANDING; at 10 m or below it stops the aircraft (velocity zero,
    throttle 0), completes the mission and sets the phase to COMPLETE. *)
Theorem landing_segment_policy
  (dt : R) (a : Aircraft.t) (m : MissionProfile.t) :
  mission_wf m ->
  MissionProfile.current_segment_index m = 5%nat ->
  exists a' m',
    MissionProfile.update dt (a, m) = Some (a', m')
    /\ (MissionProfile.alt a <= 10 ->
        MissionProfile.current_segment_index m' = 6%nat
        /\ MissionProfile.mission_complete m' = true
        /\ Aircraft.velocity a' = Vector3.zero
        /\ Aircraft.throttle a' = 0
        /\ Aircraft.phase (Aircraft.mission_data a') = "COMPLETE"%string)
    /\ (10 < MissionProfile.alt a ->
        MissionProfile.current_segment_index m' = 5%nat
        /\ MissionProfile.mission_complete m' = false
        /\ Aircraft.pitch a' = -0.1
        /\ Aircraft.velocity a' = Aircraft.velocity a
        /\ Aircraft.phase (Aircraft.mission_data a') = "LANDING"%string
        /\ (70 < MissionProfile.spd a ->
            Aircraft.throttle a' = Rmax 0.1 (Aircraft.throttle a - dt * 0.5))
        /\ (MissionProfile.spd a <= 70 ->
            Aircraft.throttle a' = Aircraft.throttle a)).
Proof.
  intros Hwf Hi.
  destruct (mission_update_at 5 dt a m Hwf Hi)
    as (g & a1 & g' & m' & d & Hd & (En & Ea & Es & Ed & Ei) & Hc & Hl & E & U
        & Hx & Hmc & _); [unfold segment_count; lia |].
  injection Hd as <-. cbn in En, Es.
  exists (after_segment 5 (MissionSegment.completed g') a1), m'.
  split; [exact U |]. rewrite Hx, Hmc.
  unfold MissionProfile.execute_segment, MissionProfile.execute_landing in E.
  cbv zeta in E. rewrite En, Es in E.
  cbn [String.eqb Ascii.eqb Bool.eqb mbind option_bind] in E.
  unfold after_segment, segment_count.
  segment_cases E; segment_finish E Hc.
Qed.

Lemma landing_segment_policy_witness :
  exists a' m',
    MissionProfile.update 1 (aircraft_at 10, mission_at 5) = Some (a', m')
    /\ MissionProfile.mission_complete m' = true.
Proof.
  edestruct (landing_segment_policy 1 (aircraft_at 10) (mission_at 5))
    as (a' & m' & U & Hle & _).
  - apply mission_at_wf. unfold segment_count. lia.
  - reflexivity.
  - exists a', m'. split; [exact U |]. apply Hle. cbn. lra.
Defined.

(** ** The throttle under the autopilot *)

Ltac throttle_bounds :=
  unfold throttle_ok in *; cbn [Aircraft.throttle Aircraft.set_throttle
    Aircraft.set_pitch Aircraft.set_roll Aircraft.set_yaw Aircraft.set_rotation
    Aircraft.set_velocity Aircraft.set_phase Aircraft.set_mission_data] in *;
  unfold Rmin, Rmax; repeat destruct (Rle_dec _ _); lra.

Lemma execute_segment_throttle
  (g g' : MissionSegment.t) (dt : R) (a a' : Aircraft.t) :
  0 <= dt -> throttle_ok a ->
  MissionProfile.execute_segment g dt a = Some (a', g') ->
  throttle_ok a'.
Proof.
  intros Hdt Hth. unfold MissionProfile.execute_segment. cbn zeta.
  set (a0 := Aircraft.set_phase a (MissionSegment.name g)).
  assert (H0 : throttle_ok a0) by exact Hth. clearbody a0.
  repeat (destruct (String.eqb _ _);
          [ unfold MissionProfile.execute_wuto, MissionProfile.execute_climb,
              MissionProfile.execute_cruise, MissionProfile.execute_turn,
              MissionProfile.execute_descent, MissionProfile.execute_landing;
            intros H; exec_cases H; inversion H; subst; throttle_bounds |]).
  intros H; inversion H; subst; exact H0.
Qed.

(** Whatever the mission, a call of [MissionProfile.update] with a time
    step that is not negative keeps the throttle within 0 and 1. *)
Lemma mission_update_throttle
  (dt : R) (a a' : Aircraft.t) (m m' : MissionProfile.t) :
  0 <= dt -> throttle_ok a ->
  MissionProfile.update dt (a, m) = Some (a', m') ->
  throttle_ok a'.
Proof.
  intros Hdt Hth. unfold MissionProfile.update.
  destruct (_ || _); [intros H; inversion H; subst; exact Hth |].
  destruct (MissionProfile.segments m !! _) as [g |];
    cbn [mbind option_bind]; [| discriminate].
  destruct (MissionProfile.execute_segment g dt a) as [[a1 g1] |] eqn:E;
    cbn [mbind option_bind]; [| discriminate].
  apply execute_segment_throttle in E; [| assumption ..].
  cbv zeta. destruct (MissionSegment.completed g1);
    [destruct (_ <=? _)%nat |]; intros H; inversion H; subst; exact E.
Qed.

Lemma handle_event_throttle
  (e : FlightSimulator.event) (s s' : FlightSimulator.t) :
  throttle_ok (FlightSimulator.aircraft s) ->
  FlightSimulator.handle_event e s = Some s' ->
  throttle_ok (FlightSimulator.aircraft s').
Proof.
  intros Hth E.
  destruct e as [| [] |]; cbn [FlightSimulator.handle_event] in E;
    try (injection E as <-; exact Hth).
  - injection E as <-. destruct (FlightSimulator.crashed s); [| exact Hth].
    unfold throttle_ok. cbn. lra.
  - destruct (Camera.cycle_camera_mode (FlightSimulator.camera s));
      cbn [mbind option_bind] in E; [| discriminate].
    injection E as <-. exact Hth.
Qed.

Lemma update_flight_throttle
  (dt : R) (keys : Aircraft.Keys) (s s' : FlightSimulator.t) :
  sim_wf s -> throttle_ok (FlightSimulator.aircraft s) -> 0 <= dt ->
  FlightSimulator.update_flight dt keys s = Some s' ->
  throttle_ok (FlightSimulator.aircraft s').
Proof.
  intros Hwf Hth Hdt. pose proof Hwf as (Hc & Hf & Hm & Ht).
  unfold FlightSimulator.update_flight.
  destruct (update_attitude_throttle dt keys (FlightSimulator.aircraft s))
    as (a1 & E1 & _ & Et).
  { unfold Aircraft.get_total_mass.
    apply (f_equal Aircraft.cfg_mass) in Hc. cbn in Hc. rewrite Hc. lra. }
  rewrite E1. cbn [mbind option_bind].
  assert (H1 : throttle_ok a1)
    by (unfold throttle_ok; rewrite Et;
        now apply throttle_at_physics_range).
  destruct (MissionProfile.update dt (a1, FlightSimulator.mission s))
    as [[a2 m2] |] eqn:E2; cbn [mbind option_bind]; [| discriminate].
  apply mission_update_throttle in E2; [| assumption ..].
  intros H. injection H as <-.
  destruct (check_collisions_keeps dt (FlightSimulator.set_flight s a2 m2))
    as (_ & _ & Kt & _).
  unfold throttle_ok. rewrite Kt. exact E2.
Qed.

Lemma apply_op_throttle {pygame : Pygame}
  (o : FlightSimulator.op) (s s' : FlightSimulator.t) :
  sim_wf s -> throttle_ok (FlightSimulator.aircraft s) -> forward o ->
  FlightSimulator.apply_op o s = Some s' ->
  throttle_ok (FlightSimulator.aircraft s').
Proof.
  intros Hwf Hth Hfw.
  destruct o as [e | dt keys]; cbn [FlightSimulator.apply_op forward] in *.
  - now apply handle_event_throttle.
  - unfold FlightSimulator.update.
    destruct (_ || _); [intros H; injection H as <-; exact Hth |].
    destruct (FlightSimulator.update_flight dt keys s) as [s1 |] eqn:E1;
      cbn [mbind option_bind]; [| discriminate].
    apply update_flight_throttle in E1; [| assumption ..].
    destruct (Camera.update_camera _ _ _ _); cbn [mbind option_bind];
      [| discriminate].
    intros H. injection H as <-. exact E1.
Qed.

(** An operation other than the camera key keeps the camera mode, and
    outside the orbit mode every operation returns. *)
Lemma apply_op_camera_mode {pygame : Pygame}
  (o : FlightSimulator.op) (s s' : FlightSimulator.t) :
  sim_wf s -> o <> camera_key ->
  FlightSimulator.apply_op o s = Some s' ->
  Camera.camera_mode (FlightSimulator.camera s')
  = Camera.camera_mode (FlightSimulator.camera s).
Proof.
  intros Hwf Ho E. destruct o as [e | dt keys];
    cbn [FlightSimulator.apply_op] in E.
  - destruct e as [| [] |]; cbn [FlightSimulator.handle_event] in E;
      try (injection E as <-; reflexivity).
    + injection E as <-. destruct (FlightSimulator.crashed s); reflexivity.
    + exfalso. apply Ho. reflexivity.
  - destruct (sim_update_cases dt keys s Hwf) as (Hfrozen & Hlive).
    destruct (frozen s) eqn:Ef.
    + rewrite (Hfrozen eq_refl) in E. injection E as <-. reflexivity.
    + destruct (Hlive eq_refl) as (s0 & _ & _ & _ & _ & Horb & Hok).
      destruct (Camera.camera_mode (FlightSimulator.camera s)) eqn:Em;
        try (destruct Hok as (c & Ec & Emode); [discriminate |];
             rewrite Ec in E; injection E as <-; exact Emode).
      rewrite (Horb eq_refl) in E. discriminate.
Qed.

Lemma apply_op_total {pygame : Pygame}
  (o : FlightSimulator.op) (s : FlightSimulator.t) :
  sim_wf s ->
  Camera.camera_mode (FlightSimulator.camera s) <> Camera.orbit ->
  exists s', FlightSimulator.apply_op o s = Some s'.
Proof.
  intros Hwf Hm. destruct o as [e | dt keys]; cbn [FlightSimulator.apply_op].
  - apply handle_event_total.
  - destruct (sim_update_cases dt keys s Hwf) as (Hfrozen & Hlive).
    destruct (frozen s) eqn:Ef; [eauto |].
    destruct (Hlive eq_refl) as (s0 & _ & _ & _ & _ & _ & Hok).
    destruct (Hok Hm) as (c & E & _). eauto.
Qed.

(** X15 (main.py [FlightSimulator.update] with aircraft.py [update] and
    mission.py [MissionProfile.update]): from a well-formed simulator
    whose throttle is within 0 and 1, after every sequence of loop
    operations with time steps that are not negative that runs through,
    the throttle is still within 0 and 1, whatever the pilot holds and
    whatever segment the autopilot flies; and the sequence does run
    through when the camera is not in the orbit mode at the start and the
    camera key is not among the operations. *)
Theorem run_keeps_throttle_range {pygame : Pygame}
  (ops : list FlightSimulator.op) (s : FlightSimulator.t) :
  sim_wf s -> throttle_ok (FlightSimulator.aircraft s) ->
  Forall forward ops ->
  (forall s', FlightSimulator.run ops s = Some s' ->
              throttle_ok (FlightSimulator.aircraft s'))
  /\ (Camera.camera_mode (FlightSimulator.camera s) <> Camera.orbit ->
      Forall (fun o => o <> camera_key) ops ->
      exists s', FlightSimulator.run ops s = Some s').
Proof.
  intros Hwf Hth Hops. revert s Hwf Hth.
  induction Hops as [| o ops Ho _ IH]; intros s Hwf Hth.
  - split.
    + intros s' E. injection E as <-. exact Hth.
    + intros _ _. exists s. reflexivity.
  - cbn [FlightSimulator.run]. split.
    + intros s' E.
      destruct (FlightSimulator.apply_op o s) as [s1 |] eqn:E1;
        cbn [mbind option_bind] in E; [| discriminate].
      apply (IH s1); [now apply (apply_op_wf o s) | | exact E].
      now apply (apply_op_throttle o s).
    + intros Hm Hk. apply Forall_cons in Hk as [Hk1 Hk].
      destruct (apply_op_total o s Hwf Hm) as (s1 & E1).
      rewrite E1. cbn [mbind option_bind].
      apply (IH s1).
      * now apply (apply_op_wf o s).
      * now apply (apply_op_throttle o s).
      * rewrite (apply_op_camera_mode o s s1 Hwf Hk1 E1). exact Hm.
      * exact Hk.
Qed.

Lemma run_keeps_throttle_range_witness :
  (forall s',
      FlightSimulator.run (pygame := no_rotation)
        [FlightSimulator.Update (1 / 60) shift_held;
         FlightSimulator.Event (FlightSimulator.KEYDOWN FlightSimulator.K_p)]
        (FlightSimulator.init mountain_world) = Some s' ->
      throttle_ok (FlightSimulator.aircraft s'))
  /\ exists s',
       FlightSimulator.run (pygame := no_rotation)
         [FlightSimulator.Update (1 / 60) shift_held;
          FlightSimulator.Event (FlightSimulator.KEYDOWN FlightSimulator.K_p)]
         (FlightSimulator.init mountain_world) = Some s'.
Proof.
  destruct (run_keeps_throttle_range (pygame := no_rotation)
              [FlightSimulator.Update (1 / 60) shift_held;
               FlightSimulator.Event
                 (FlightSimulator.KEYDOWN FlightSimulator.K_p)]
              (FlightSimulator.init mountain_world)) as (Hth & Hrun).
  - apply init_sim_wf.
  - unfold throttle_ok. cbn. lra.
  - repeat constructor. cbn. lra.
  - split; [exact Hth |]. apply Hrun.
    + discriminate.
    + repeat constructor; discriminate.
Defined.

(** ** The recorded mission profile *)

(** A finished mission is returned as it is. *)
Lemma mission_update_finished
  (dt : R) (a : Aircraft.t) (m : MissionProfile.t) :
  mission_wf m ->
  MissionProfile.current_segment_index m = segment_count ->
  MissionProfile.update dt (a, m) = Some (a, m).
Proof.
  intros Hwf Hi.
  destruct (wf_segments m Hwf) as (g0 & g1 & g2 & g3 & g4 & g5 & Hs & _).
  unfold MissionProfile.update. rewrite Hs, Hi. cbn.
  now rewrite orb_true_r.
Qed.

Lemma default_static_name (g : MissionSegment.t) :
  In (static g) (map static MissionProfile.create_default_mission) ->
  In (MissionSegment.name g)
     (map MissionSegment.name MissionProfile.create_default_mission).
Proof.
  intros Hin. cbn in Hin. unfold static in Hin.
  destruct Hin as [H | [H | [H | [H | [H | [H | []]]]]]];
    injection H as En _ _ _ _; rewrite <- En; cbn; tauto.
Qed.

Lemma mission_update_profile
  (dt : R) (a : Aircraft.t) (m : MissionProfile.t) :
  mission_wf m -> profile_ok m -> 0 <= dt ->
  exists a' m',
    MissionProfile.update dt (a, m) = Some (a', m')
    /\ mission_wf m' /\ profile_ok m'.
Proof.
  intros Hwf Hp Hdt.
  destruct (mission_update_step dt a m Hwf) as (a' & m' & U & Hwf' & _).
  exists a', m'. split; [exact U |]. split; [exact Hwf' |].
  pose proof Hwf as (_ & Hle & _).
  destruct (Nat.eq_dec (MissionProfile.current_segment_index m) segment_count)
    as [Hi | Hi].
  { rewrite (mission_update_finished dt a m Hwf Hi) in U.
    injection U as <- <-. exact Hp. }
  destruct (mission_update_current dt a m Hwf)
    as (g & a1 & g' & m1 & Hl & Hc & Hst & E & U1 & _ & _ & _ & Ht & _ & Hpd);
    [lia |].
  rewrite U1 in U. injection U as _ <-.
  assert (Hn : In (MissionSegment.name g')
                  (map MissionSegment.name
                       MissionProfile.create_default_mission)).
  { apply default_static_name.
    destruct (execute_segment_static _ _ _ _ _ E) as (-> & _).
    apply list_elem_of_In. eapply list_elem_of_lookup_2, Hst. }
  destruct Hp as (P1 & P2 & P3 & P4 & P5 & P6).
  unfold profile_ok. rewrite Hpd, Ht. cbv zeta.
  assert (Hm : (py_int (MissionProfile.total_time m)
                <= py_int (MissionProfile.total_time m + dt))%Z)
    by (apply py_int_mono; lra).
  destruct (Z.ltb _ _) eqn:Hlt; cbn [MissionProfile.p_altitude
    MissionProfile.p_range MissionProfile.p_fuel MissionProfile.p_segments].
  - apply Z.ltb_lt in Hlt. rewrite !length_app. cbn [length].
    repeat split; try lia; try lra.
    apply Forall_app. split; [exact P6 | apply Forall_singleton; exact Hn].
  - repeat split; try assumption; try lia; lra.
Qed.

(** X16 (mission.py, [record_profile_data] inside [MissionProfile.update]):
    along any sequence of update calls with time steps that are not
    negative, from a well-formed mission whose profile is in order (the
    initial mission is one), every call returns and the four lists of the
    profile stay equally long, hold at most one sample per whole second of
    mission time, and the recorded segment names are always names of the
    six segments: the 'COMPLETE' branch of [record_profile_data] is never
    taken. *)
Theorem profile_samples_in_order
  (steps : list (R * Aircraft.t)) (m : MissionProfile.t) :
  mission_wf m -> profile_ok m ->
  Forall (fun step => 0 <= fst step) steps ->
  exists m',
    MissionProfile.updates steps m = Some m'
    /\ profile_ok m'
    /\ ~ In "COMPLETE"%string
         (MissionProfile.p_segments (MissionProfile.profile_data m')).
Proof.
  intros Hwf Hp Hs. revert m Hwf Hp.
  induction Hs as [| [dt a] rest Hdt _ IH]; intros m Hwf Hp.
  - exists m. split; [reflexivity |]. split; [exact Hp |].
    destruct Hp as (_ & _ & _ & _ & _ & P6). rewrite Forall_forall in P6.
    intros Hin. apply list_elem_of_In, P6 in Hin. cbn in Hin.
    repeat destruct Hin as [Hin | Hin]; try discriminate Hin. exact Hin.
  - destruct (mission_update_profile dt a m Hwf Hp Hdt)
      as (a' & m1 & U & Hwf1 & Hp1).
    destruct (IH m1 Hwf1 Hp1) as (m' & R & Hk).
    exists m'. split; [| exact Hk].
    cbn [MissionProfile.updates]. rewrite U. exact R.
Qed.

Lemma profile_samples_in_order_witness :
  exists m',
    MissionProfile.updates [(2, aircraft_at 50); (1, aircraft_at 60)]
      MissionProfile.init = Some m'
    /\ profile_ok m'
    /\ ~ In "COMPLETE"%string
         (MissionProfile.p_segments (MissionProfile.profile_data m')).
Proof.
  apply profile_samples_in_order.
  - exact init_mission_wf.
  - unfold profile_ok. cbn.
    repeat split; try lra; try (apply Forall_nil; exact I).
    unfold py_int. destruct (Rle_dec 0 0); [| lra].
    change 0 with (IZR 0). rewrite ZfloorZ. lia.
  - repeat constructor; cbn; lra.
Defined.

(** * Further properties of the world *)

Lemma sum_squares_zero (x y z : R) :
  x * x + y * y + z * z = 0 <-> x = 0 /\ y = 0 /\ z = 0.
Proof.
  split.
  - intros H. repeat split; nra.
  - intros (-> & -> & ->). lra.
Qed.

Lemma axis_gap_nonneg (lo hi x : R) : 0 <= Rmax (Rmax (lo - x) 0) (x - hi).
Proof.
  unfold Rmax. repeat destruct (Rle_dec _ _); lra.
Qed.

Lemma axis_gap_zero (lo hi x : R) :
  Rmax (Rmax (lo - x) 0) (x - hi) = 0 <-> lo <= x <= hi.
Proof.
  unfold Rmax. repeat destruct (Rle_dec _ _); split; intros; lra.
Qed.

(** X17 (world.py, [check_building_collision]): the distance to a building
    is never negative, it is zero exactly when the point lies in the box of
    the building (between the two faces on each axis, the ground and the
    roof), and it is at least the height of the point above the roof. *)
Theorem building_distance_zero_iff_inside (p : Vector3.t) (b : World.Building) :
  let cx := Vector3.x (World.b_position b) in
  let cz := Vector3.z (World.b_position b) in
  0 <= World.check_building_collision p b
  /\ (World.check_building_collision p b = 0 <->
      cx - World.width b / 2 <= Vector3.x p <= cx + World.width b / 2
      /\ 0 <= Vector3.y p <= World.height b
      /\ cz - World.depth b / 2 <= Vector3.z p <= cz + World.depth b / 2)
  /\ Vector3.y p - World.height b <= World.check_building_collision p b.
Proof.
  cbv zeta. unfold World.check_building_collision. cbv zeta.
  set (dx := Rmax (Rmax _ 0) (Vector3.x p - _)).
  set (dy := Rmax (Rmax _ 0) (Vector3.y p - _)).
  set (dz := Rmax (Rmax _ 0) (Vector3.z p - _)).
  assert (Hx : 0 <= dx) by apply axis_gap_nonneg.
  assert (Hy : 0 <= dy) by apply axis_gap_nonneg.
  assert (Hz : 0 <= dz) by apply axis_gap_nonneg.
  assert (Hs : 0 <= dx * dx + dy * dy + dz * dz) by nra.
  split; [apply sqrt_pos |]. split.
  - rewrite <- (axis_gap_zero _ _ (Vector3.x p)),
      <- (axis_gap_zero 0 _ (Vector3.y p)),
      <- (axis_gap_zero _ _ (Vector3.z p)).
    fold dx dy dz. rewrite <- sum_squares_zero. split.
    + intros H. now apply sqrt_eq_0.
    + intros ->. apply sqrt_0.
  - apply Rle_trans with dy; [subst dy; apply Rmax_r |].
    rewrite <- (sqrt_square dy) at 1 by exact Hy.
    apply sqrt_le_1_alt. nra.
Qed.

(** The mountains only raise the terrain. *)
Lemma mountains_raise (x z : R) (ms : list World.Mountain) (h : R) :
  let f := fun base_height mo =>
    let dist := sqrt ((x - Vector3.x (World.m_position mo)) ^ 2
                      + (z - Vector3.z (World.m_position mo)) ^ 2) in
    if Rlt_dec dist (World.radius mo)
    then Rmax base_height (World.m_height mo * (1 - dist / World.radius mo))
    else base_height in
  h <= fold_left f ms h
  /\ forall mo, In mo ms ->
       let dist := sqrt ((x - Vector3.x (World.m_position mo)) ^ 2
                         + (z - Vector3.z (World.m_position mo)) ^ 2) in
       dist < World.radius mo ->
       World.m_height mo * (1 - dist / World.radius mo) <= fold_left f ms h.
Proof.
  cbv zeta. revert h. induction ms as [| m0 ms IH]; intros h.
  - split; [cbn; lra | intros mo []].
  - cbn [fold_left].
    match goal with
    | |- _ <= fold_left ?f ms ?h1 /\ _ =>
        destruct (IH h1) as (I1 & I2); assert (Hh : h <= h1)
    end.
    { destruct (Rlt_dec _ _); [apply Rmax_l | lra]. }
    split; [lra |]. intros mo [<- | Hin] Hd.
    + eapply Rle_trans; [| exact I1].
      destruct (Rlt_dec _ _); [apply Rmax_r | contradiction].
    + now apply I2.
Qed.

Lemma octave_bound (i : nat) (gx gz : Z) :
  - (50 / 2 ^ i) <= World.octave i gx gz <= 50 / 2 ^ i.
Proof.
  unfold World.octave. cbv zeta.
  assert (Hp : 0 < 2 ^ i) by (apply pow_lt; lra).
  assert (Ha : 0 < 50 / 2 ^ i) by (apply Rdiv_lt_0_compat; lra).
  pose proof (SIN_bound (IZR gx / (10 * 2 ^ i))) as Hs.
  pose proof (COS_bound (IZR gz / (10 * 2 ^ i))) as Hc.
  set (a := 50 / 2 ^ i) in *.
  set (s := sin _) in *. set (c := cos _) in *.
  assert (Hsc : -1 <= s * c <= 1) by nra.
  rewrite Rmult_assoc. nra.
Qed.

Lemma height_map_bound (gx gz : Z) :
  - 96.875 <= World.height_map gx gz <= 96.875.
Proof.
  unfold World.height_map. cbn [fold_left seq].
  pose proof (octave_bound 0 gx gz) as H0.
  pose proof (octave_bound 1 gx gz) as H1.
  pose proof (octave_bound 2 gx gz) as H2.
  pose proof (octave_bound 3 gx gz) as H3.
  pose proof (octave_bound 4 gx gz) as H4.
  simpl pow in *. lra.
Qed.

(** X18 (world.py, [get_terrain_height]): the terrain is never lower than
    -96.875 m, the least the five octaves of the height map can add up
    to, and at a point inside the foot of a mountain it is at least the
    height of the cone of that mountain there. *)
Theorem terrain_at_least_mountain
  (w : World.t) (x z : R) (mo : World.Mountain) :
  In mo (World.mountains w) ->
  let dist := sqrt ((x - Vector3.x (World.m_position mo)) ^ 2
                    + (z - Vector3.z (World.m_position mo)) ^ 2) in
  dist < World.radius mo ->
  - 96.875 <= World.get_terrain_height w x z
  /\ World.m_height mo * (1 - dist / World.radius mo)
     <= World.get_terrain_height w x z.
Proof.
  intros Hin dist Hd. unfold World.get_terrain_height. cbv zeta.
  match goal with
  | |- _ <= fold_left _ _ ?h /\ _ =>
      destruct (mountains_raise x z (World.mountains w) h) as (I1 & I2);
      assert (Hh : - 96.875 <= h)
  end.
  { destruct (_ && _)%bool; [apply height_map_bound | lra]. }
  split; [lra |]. now apply I2.
Qed.

Lemma terrain_at_least_mountain_witness :
  - 96.875 <= World.get_terrain_height mountain_world 3000 3000
  /\ 500 * (1 - sqrt ((3000 - 3000) ^ 2 + (3000 - 3000) ^ 2) / 600)
     <= World.get_terrain_height mountain_world 3000 3000.
Proof.
  apply (terrain_at_least_mountain mountain_world 3000 3000
           (World.mkMountain (Vector3.mk 3000 0 3000) 600 500)).
  - left. reflexivity.
  - cbn [World.m_position World.radius Vector3.x Vector3.z].
    replace ((3000 - 3000) ^ 2 + (3000 - 3000) ^ 2) with 0 by ring.
    rewrite sqrt_0. lra.
Defined.

(** * The view, the clouds and the camera *)

Lemma sin_cos_one (t : R) : sin t * sin t + cos t * cos t = 1.
Proof.
  pose proof (sin2_cos2 t) as H. unfold Rsqr in H. exact H.
Qed.

(** X19 (world.py, [rotate_vector]): a rotation keeps the squared length
    of the vector, whatever the axis string, and rotating back by the
    opposite angle about the same axis returns the vector. *)
Theorem rotate_vector_isometry (v : Vector3.t) (angle : R) (axis : string) :
  Vector3.length_squared (WorldView.rotate_vector v angle axis)
  = Vector3.length_squared v
  /\ WorldView.rotate_vector (WorldView.rotate_vector v angle axis)
       (- angle) axis = v.
Proof.
  pose proof (sin_cos_one angle) as H.
  unfold WorldView.rotate_vector. cbv zeta. rewrite sin_neg, cos_neg.
  destruct v as [x y z]. set (s := sin angle) in *. set (c := cos angle) in *.
  destruct (String.eqb axis "y"); [| destruct (String.eqb axis "x")];
    unfold Vector3.length_squared; cbn [Vector3.x Vector3.y Vector3.z].
  - split.
    + replace ((x * c + z * s) * (x * c + z * s) + y * y
               + (- x * s + z * c) * (- x * s + z * c))
        with ((x * x + z * z) * (s * s + c * c) + y * y) by ring.
      rewrite H. ring.
    + f_equal.
      * replace ((x * c + z * s) * c + (- x * s + z * c) * - s)
          with (x * (s * s + c * c)) by ring. rewrite H. ring.
      * replace (- (x * c + z * s) * - s + (- x * s + z * c) * c)
          with (z * (s * s + c * c)) by ring. rewrite H. ring.
  - split.
    + replace (x * x + (y * c - z * s) * (y * c - z * s)
               + (y * s + z * c) * (y * s + z * c))
        with (x * x + (y * y + z * z) * (s * s + c * c)) by ring.
      rewrite H. ring.
    + f_equal.
      * replace ((y * c - z * s) * c - (y * s + z * c) * - s)
          with (y * (s * s + c * c)) by ring. rewrite H. ring.
      * replace ((y * c - z * s) * - s + (y * s + z * c) * c)
          with (z * (s * s + c * c)) by ring. rewrite H. ring.
  - split; reflexivity.
Qed.

Lemma tan_thirty_pos : 0 < tan (WorldView.radians (60 / 2)).
Proof.
  unfold WorldView.radians. pose proof PI_RGT_0 as Hpi.
  apply tan_gt_0; lra.
Qed.

(** [project_3d_to_2d] never raises: the division by the depth is
    guarded and the tangent of half the field of view is positive. *)
Lemma project_total (w h : Z) (p cam rot : Vector3.t) :
  exists r, WorldView.project_3d_to_2d w h p cam rot = Some r.
Proof.
  unfold WorldView.project_3d_to_2d. cbv zeta.
  destruct (Rle_dec _ 0) as [| Hz]; [eauto |].
  pose proof tan_thirty_pos as Ht.
  rewrite py_div_some by lra. cbn [mbind option_bind].
  rewrite !py_div_some by lra. cbn [mbind option_bind]. eauto.
Qed.

(** X20 (world.py, [project_3d_to_2d]): the projection never raises; with
    the aircraft rotation zero a point is hidden exactly when it is not in
    front of the camera (its z is at most the camera's), and a point
    straight ahead of the camera, at any distance [d > 0], lands on the
    centre of the screen. *)
Theorem projection_straight_ahead
  (w h : Z) (p cam rot : Vector3.t) (d : R) :
  0 < d ->
  (exists r, WorldView.project_3d_to_2d w h p cam rot = Some r)
  /\ (WorldView.project_3d_to_2d w h p cam Vector3.zero
      = Some WorldView.Hidden <-> Vector3.z p <= Vector3.z cam)
  /\ WorldView.project_3d_to_2d w h
       (Vector3.add cam (Vector3.mk 0 0 d)) cam Vector3.zero
     = Some (WorldView.Pixel (py_int (IZR w / 2)) (py_int (IZR h / 2))).
Proof.
  intros Hd. split; [apply project_total |].
  pose proof tan_thirty_pos as Ht.
  assert (Hrot : forall q,
    WorldView.rotate_vector
      (WorldView.rotate_vector q (- Vector3.y Vector3.zero) "y")
      (- Vector3.x Vector3.zero * 0.5) "x" = q).
  { intros [x y z]. unfold WorldView.rotate_vector.
    cbn [String.eqb Ascii.eqb Bool.eqb Vector3.zero Vector3.x Vector3.y
         Vector3.z].
    replace (- 0 * 0.5) with 0 by lra. replace (- 0) with 0 by lra.
    rewrite sin_0, cos_0. f_equal; ring. }
  unfold WorldView.project_3d_to_2d. cbv zeta. rewrite !Hrot. split.
  - unfold WorldView.sub. cbn [Vector3.z].
    destruct (Rle_dec _ 0) as [Hz | Hz].
    + split; [intros _; lra | reflexivity].
    + rewrite py_div_some by lra. cbn [mbind option_bind].
      rewrite !py_div_some by lra. cbn [mbind option_bind].
      split; [discriminate | intros; lra].
  - unfold WorldView.sub, Vector3.add. cbn [Vector3.x Vector3.y Vector3.z].
    destruct (Rle_dec _ 0) as [Hz | Hz]; [lra |].
    rewrite py_div_some by lra. cbn [mbind option_bind].
    rewrite !py_div_some by lra. cbn [mbind option_bind].
    do 3 f_equal; f_equal; field; lra.
Qed.

Lemma projection_straight_ahead_witness :
  WorldView.project_3d_to_2d 1280 720
    (Vector3.add Vector3.zero (Vector3.mk 0 0 100)) Vector3.zero Vector3.zero
  = Some (WorldView.Pixel (py_int (IZR 1280 / 2)) (py_int (IZR 720 / 2))).
Proof.
  apply (projection_straight_ahead 1280 720 Vector3.zero Vector3.zero
           Vector3.zero 100).
  lra.
Defined.



(** ** Camera *)

(** X22 (main.py, [cycle_camera_mode]): from any of the four modes the
    camera key works; it leaves the camera position alone, the offset it
    sets is never the initial offset (0, 15, -50), and after the first
    press four further presses give the same camera state again. *)
Theorem camera_modes_cycle (c : Camera.t) :
  In (Camera.camera_mode c) Camera.modes ->
  exists c1,
    Camera.cycle_camera_mode c = Some c1
    /\ Camera.camera_position c1 = Camera.camera_position c
    /\ Camera.camera_offset c1 <> Camera.camera_offset Camera.init
    /\ Camera.camera_mode c1 <> Camera.camera_mode c
    /\ Camera.cycles 4 c1 = Some c1.
Proof.
  destruct c as [off pos mode]. cbn [Camera.camera_mode Camera.modes In].
  intros [<- | [<- | [<- | [<- | []]]]]; eexists;
    (split; [reflexivity |]); cbn;
    (split; [reflexivity |]);
    (split; [intros H; injection H; intros; lra |]);
    (split; [discriminate | reflexivity]).
Qed.

Lemma camera_modes_cycle_witness :
  exists c1,
    Camera.cycle_camera_mode Camera.init = Some c1
    /\ Camera.camera_position c1 = Camera.camera_position Camera.init
    /\ Camera.camera_offset c1 <> Camera.camera_offset Camera.init
    /\ Camera.camera_mode c1 <> Camera.camera_mode Camera.init
    /\ Camera.cycles 4 c1 = Some c1.
Proof.
  apply camera_modes_cycle. cbn. tauto.
Defined.

Lemma update_camera_step
  (rotate_x rotate_y : Vector3.t -> R -> Vector3.t)
  (a : Aircraft.t) (c : Camera.t) :
  steering_mode (Camera.camera_mode c) ->
  Camera.update_camera rotate_x rotate_y a c
  = Some (Camera.follow c (Camera.target_pos rotate_x rotate_y a c)
            (camera_rate (Camera.camera_mode c))).
Proof.
  unfold Camera.update_camera, camera_rate.
  intros [-> | [-> | ->]]; reflexivity.
Qed.

(** X23 (main.py, [update_camera]): in the third-person, chase and free
    modes every camera update returns, keeps mode and offset, and covers
    the fraction 0.1, 0.2 or 0.05 of the way to the target point; while
    the aircraft stays as it is, the vector from the camera to the target
    after [n] updates is the initial one scaled by (1 - fraction)^n. *)
Theorem camera_closes_in
  (rotate_x rotate_y : Vector3.t -> R -> Vector3.t)
  (n : nat) (a : Aircraft.t) (c : Camera.t) :
  steering_mode (Camera.camera_mode c) ->
  let target := Camera.target_pos rotate_x rotate_y a c in
  exists c',
    Camera.update_cameras rotate_x rotate_y n a c = Some c'
    /\ Camera.camera_mode c' = Camera.camera_mode c
    /\ Camera.camera_offset c' = Camera.camera_offset c
    /\ WorldView.sub target (Camera.camera_position c')
       = Vector3.scale (WorldView.sub target (Camera.camera_position c))
           ((1 - camera_rate (Camera.camera_mode c)) ^ n).
Proof.
  intros Hm. cbv zeta. revert c Hm. induction n as [| n IH]; intros c Hm.
  - exists c. repeat split.
    destruct c as [off [x y z] mode].
    unfold WorldView.sub, Vector3.scale. cbn. f_equal; ring.
  - cbn [Camera.update_cameras]. rewrite update_camera_step by exact Hm.
    cbn [mbind option_bind].
    set (T := Camera.target_pos rotate_x rotate_y a c).
    set (k := camera_rate (Camera.camera_mode c)).
    set (c1 := Camera.follow c T k).
    assert (Hmode : Camera.camera_mode c1 = Camera.camera_mode c)
      by reflexivity.
    assert (Hoff : Camera.camera_offset c1 = Camera.camera_offset c)
      by reflexivity.
    assert (HT : Camera.target_pos rotate_x rotate_y a c1 = T)
      by reflexivity.
    destruct (IH c1) as (c' & E & Em & Eo & Ed); [rewrite Hmode; exact Hm |].
    exists c'. split; [exact E |]. rewrite Em, Eo, Hmode, Hoff.
    repeat split. rewrite HT, Hmode in Ed. rewrite Ed. fold k.
    subst c1. unfold Camera.follow, WorldView.sub, Vector3.scale.
    cbn [Camera.camera_position Vector3.x Vector3.y Vector3.z].
    f_equal; simpl pow; ring.
Qed.

Lemma camera_closes_in_witness :
  exists c',
    Camera.update_cameras (fun v _ => v) (fun v _ => v) 2
      (Aircraft.init Aircraft.default_config) Camera.init = Some c'
    /\ Camera.camera_mode c' = Camera.third_person.
Proof.
  edestruct (camera_closes_in (fun v _ => v) (fun v _ => v) 2
               (Aircraft.init Aircraft.default_config) Camera.init)
    as (c' & E & Em & _).
  - left. reflexivity.
  - exists c'. split; [exact E | exact Em].
Defined.

(** X24 (main.py, [update] with [update_camera]): in the orbit mode, which
    two presses of the camera key select, every frame update of a
    simulator that is neither paused nor crashed raises: the aircraft,
    mission and collision steps run through, but the camera step calls
    [math.sin] and main.py does not import [math]. *)
Theorem orbit_camera_raises {pygame : Pygame}
  (dt : R) (keys : Aircraft.Keys) (s : FlightSimulator.t) :
  sim_wf s ->
  FlightSimulator.paused s || FlightSimulator.crashed s = false ->
  Camera.camera_mode (FlightSimulator.camera s) = Camera.orbit ->
  (exists s', FlightSimulator.update_flight dt keys s = Some s')
  /\ FlightSimulator.update dt keys s = None.
Proof.
  intros Hwf Hrun Hm.
  destruct (sim_update_cases dt keys s Hwf) as (_ & Hlive).
  destruct (Hlive Hrun) as (s0 & E & _ & _ & _ & Horb & _).
  split; [eauto | now apply Horb].
Qed.

Lemma orbit_camera_raises_witness :
  exists s,
    FlightSimulator.run (pygame := no_rotation) [camera_key; camera_key]
      (FlightSimulator.init mountain_world) = Some s
    /\ (exists s',
          FlightSimulator.update_flight (1 / 60) Aircraft.no_keys s = Some s')
    /\ FlightSimulator.update (pygame := no_rotation) (1 / 60)
         Aircraft.no_keys s = None.
Proof.
  exists (FlightSimulator.set_camera (FlightSimulator.init mountain_world)
            (Camera.mk (Vector3.mk 30 15 (-30)) Vector3.zero Camera.orbit)).
  split; [reflexivity |].
  apply (orbit_camera_raises (pygame := no_rotation)).
  - apply init_sim_wf.
  - reflexivity.
  - reflexivity.
Defined.

(** * The numbers on the display *)

Lemma py_mod_range (x y : R) : 0 < y -> 0 <= HUD.py_mod x y < y.
Proof.
  intros Hy. unfold HUD.py_mod.
  pose proof (Zfloor_bound (x / y)) as [Hl Hu].
  assert (E : x = x / y * y) by (field; lra).
  set (q := IZR (Zfloor (x / y))) in *. set (r := x / y) in *.
  split; nra.
Qed.

Lemma py_int_floor (x : R) : 0 <= x -> py_int x = Zfloor x.
Proof.
  intros Hx. unfold py_int. destruct (Rle_dec 0 x); [reflexivity | lra].
Qed.

Lemma py_int_below (x : R) (n : Z) :
  0 <= x < IZR n -> (0 <= py_int x < n)%Z.
Proof.
  intros [Hx Hn]. rewrite py_int_floor by exact Hx.
  pose proof (Zfloor_bound x) as [Hl Hu]. split.
  - apply Zfloor_lub. exact Hx.
  - apply lt_IZR. lra.
Qed.

(** [render_basic_hud]: the heading shown is a whole number of degrees
    from 0 to 359, whatever the yaw. *)
Lemma heading_range (a : Aircraft.t) : (0 <= HUD.heading a <= 359)%Z.
Proof.
  unfold HUD.heading.
  pose proof (py_int_below
                (HUD.py_mod (HUD.degrees (Aircraft.yaw a)) 360) 360) as H.
  destruct H as [H0 H1]; [apply py_mod_range; lra | lia].
Qed.

(** X25 (hud.py, [render_mission_info]): for a mission time that is not
    negative the clock shows the whole seconds of the mission time: the
    seconds are within 0 and 59, the minutes are not negative, and sixty
    times the minutes plus the seconds is [int(total_time)]. *)
Theorem mission_clock_whole_seconds (m : MissionProfile.t) :
  0 <= MissionProfile.total_time m ->
  let '(minutes, seconds) := HUD.mission_clock m in
  (0 <= minutes)%Z /\ (0 <= seconds <= 59)%Z
  /\ (60 * minutes + seconds)%Z = py_int (MissionProfile.total_time m).
Proof.
  intros Ht. unfold HUD.mission_clock. cbv zeta.
  set (t := MissionProfile.total_time m) in *.
  assert (Hq : (0 <= Zfloor (t / 60))%Z).
  { apply Zfloor_lub. apply Rmult_le_pos; lra. }
  unfold HUD.py_floordiv. rewrite py_int_IZR by exact Hq.
  pose proof (py_mod_range t 60 ltac:(lra)) as Hr.
  pose proof (py_int_below (HUD.py_mod t 60) 60 Hr) as Hs.
  split; [exact Hq |]. split; [lia |].
  rewrite (py_int_floor t) by exact Ht.
  rewrite py_int_floor by apply Hr.
  unfold HUD.py_mod.
  replace (t - 60 * IZR (Zfloor (t / 60)))
    with (t + IZR (- (60 * Zfloor (t / 60))))
    by (rewrite opp_IZR, mult_IZR; lra).
  rewrite Zfloor_addz. lia.
Qed.

Lemma mission_clock_whole_seconds_witness :
  let '(minutes, seconds) := HUD.mission_clock MissionProfile.init in
  (0 <= minutes)%Z /\ (0 <= seconds <= 59)%Z
  /\ (60 * minutes + seconds)%Z
     = py_int (MissionProfile.total_time MissionProfile.init).
Proof.
  apply (mission_clock_whole_seconds MissionProfile.init). cbn. lra.
Defined.

(** X26 (hud.py, [render_warning]): the terrain warning blinks twice a
    second: for a timer that is not negative it is drawn during the first
    quarter of a second, not drawn during the second quarter, and drawn
    again at any time exactly when it was drawn half a second before. *)
Theorem warning_blinks_twice_a_second (timer : R) :
  0 <= timer ->
  HUD.warning_visible (timer + 1 / 2) = HUD.warning_visible timer
  /\ (timer < 1 / 4 -> HUD.warning_visible timer = true)
  /\ (1 / 4 <= timer < 1 / 2 -> HUD.warning_visible timer = false).
Proof.
  intros Ht. unfold HUD.warning_visible.
  rewrite !py_int_floor by lra. split; [| split].
  - replace ((timer + 1 / 2) * 4) with (timer * 4 + IZR 2) by lra.
    rewrite Zfloor_addz.
    replace (Zfloor (timer * 4) + 2)%Z with (Zfloor (timer * 4) + 1 * 2)%Z
      by lia.
    now rewrite Z.mod_add by lia.
  - intros Hlt. rewrite (Zfloor_eq 0) by (simpl; lra). reflexivity.
  - intros Hq. rewrite (Zfloor_eq 1) by (simpl; lra). reflexivity.
Qed.

Lemma warning_blinks_twice_a_second_witness :
  HUD.warning_visible (1 / 60 + 1 / 2) = HUD.warning_visible (1 / 60)
  /\ (1 / 60 < 1 / 4 -> HUD.warning_visible (1 / 60) = true)
  /\ (1 / 4 <= 1 / 60 < 1 / 2 -> HUD.warning_visible (1 / 60) = false).
Proof.
  apply (warning_blinks_twice_a_second (1 / 60)). lra.
Defined.

(** X27 (hud.py, [render_detailed_view]): the performance block never
    divides by zero; the lift-to-drag ratio it prints has a square of at
    most 250 (at most about 15.8 in size) whatever the pitch, and with
    fuel that is not negative the endurance and the range estimate are not
    negative. *)
Theorem performance_data_bounds (a : Aircraft.t) :
  0 <= Aircraft.fuel_mass a ->
  exists ld climb endurance range,
    HUD.performance_data a = Some (ld, climb, endurance, range)
    /\ ld * ld <= 250 /\ 0 <= endurance /\ 0 <= range.
Proof.
  intros Hf. unfold HUD.performance_data. cbv zeta.
  destruct (Rgt_dec (Vector3.length _) 0) as [Hs |].
  2: { do 4 eexists. split; [reflexivity |]. lra. }
  set (CL := Aircraft.CL0 + Aircraft.CL_alpha * Aircraft.pitch a).
  set (CD := Aircraft.CD0 + Aircraft.K * CL * CL).
  assert (HCD : 0.025 <= CD)
    by (subst CD; unfold Aircraft.CD0, Aircraft.K; nra).
  assert (Hsq : CL * CL <= 250 * (CD * CD)).
  { pose proof (Rle_0_sqr (CL * CL - 0.625)) as H2. unfold Rsqr in H2.
    subst CD. unfold Aircraft.CD0, Aircraft.K. clearbody CL. nra. }
  clearbody CD. clearbody CL.
  destruct (Rgt_dec CD 0) as [_ | Hn]; [| exfalso; lra].
  rewrite (py_div_some CL CD) by lra. cbn [mbind option_bind].
  assert (Hld : CL / CD * (CL / CD) <= 250).
  { assert (E : CL / CD * (CL / CD) = CL * CL / (CD * CD)) by (field; lra).
    rewrite E.
    replace 250 with (250 * (CD * CD) / (CD * CD)) by (field; lra).
    unfold Rdiv. apply Rmult_le_compat_r; [| exact Hsq].
    apply Rlt_le, Rinv_0_lt_compat. nra. }
  destruct (Rgt_dec (_ * _) 0) as [Hp |].
  - rewrite py_div_some by lra. cbn [mbind option_bind].
    do 4 eexists. split; [reflexivity |].
    assert (He : 0 <= Aircraft.fuel_mass a
                     / (Aircraft.fuel_flow_rate a * Aircraft.throttle a)).
    { apply Rmult_le_pos; [exact Hf |].
      apply Rlt_le, Rinv_0_lt_compat. lra. }
    repeat split; [exact Hld | exact He |].
    apply Rmult_le_pos; lra.
  - do 4 eexists. split; [reflexivity |]. repeat split; [exact Hld | lra ..].
Qed.

Lemma performance_data_bounds_witness :
  exists ld climb endurance range,
    HUD.performance_data (Aircraft.init Aircraft.default_config)
    = Some (ld, climb, endurance, range)
    /\ ld * ld <= 250 /\ 0 <= endurance /\ 0 <= range.
Proof.
  apply (performance_data_bounds (Aircraft.init Aircraft.default_config)).
  cbn. lra.
Defined.

(** * physics.py: the standard atmosphere and the turn *)

Lemma temperature_floor (h : R) :
  216.65 <= AtmosphereISA.get_temperature h
  /\ (h < 11000 -> 216.65 < AtmosphereISA.get_temperature h).
Proof.
  unfold AtmosphereISA.get_temperature, AtmosphereISA.SEA_LEVEL_TEMP,
    AtmosphereISA.TEMP_LAPSE_RATE.
  destruct (Rlt_dec h 11000); split; intros; lra.
Qed.

Lemma lapse_exponent :
  py_div (- AtmosphereISA.GRAVITY)
         (AtmosphereISA.TEMP_LAPSE_RATE * AtmosphereISA.GAS_CONSTANT)
  = Some (- AtmosphereISA.GRAVITY
          / (AtmosphereISA.TEMP_LAPSE_RATE * AtmosphereISA.GAS_CONSTANT))
  /\ 0 < - AtmosphereISA.GRAVITY
         / (AtmosphereISA.TEMP_LAPSE_RATE * AtmosphereISA.GAS_CONSTANT).
Proof.
  unfold AtmosphereISA.GRAVITY, AtmosphereISA.TEMP_LAPSE_RATE,
    AtmosphereISA.GAS_CONSTANT.
  split; [apply py_div_some; lra |].
  assert (Hd : / (-0.0065 * 287.05) < 0) by (apply Rinv_lt_0_compat; lra).
  unfold Rdiv. nra.
Qed.

(** The pressure below 11000 m in closed form. *)
Lemma pressure_troposphere_value (h : R) :
  h < 11000 ->
  let ratio := AtmosphereISA.get_temperature h / AtmosphereISA.SEA_LEVEL_TEMP in
  0 < ratio
  /\ AtmosphereISA.pressure_troposphere h
     = Some (AtmosphereISA.SEA_LEVEL_PRESSURE
             * Rpower ratio
                 (- AtmosphereISA.GRAVITY
                  / (AtmosphereISA.TEMP_LAPSE_RATE
                     * AtmosphereISA.GAS_CONSTANT))).
Proof.
  intros Hh. cbv zeta.
  destruct (temperature_floor h) as (_ & Ht). specialize (Ht Hh).
  assert (Hr : 0 < AtmosphereISA.get_temperature h
                   / AtmosphereISA.SEA_LEVEL_TEMP)
    by (apply Rdiv_lt_0_compat; unfold AtmosphereISA.SEA_LEVEL_TEMP; lra).
  split; [exact Hr |].
  unfold AtmosphereISA.pressure_troposphere. cbv zeta.
  rewrite (py_div_some (AtmosphereISA.get_temperature h))
    by (unfold AtmosphereISA.SEA_LEVEL_TEMP; lra).
  cbn [mbind option_bind]. rewrite (proj1 lapse_exponent).
  cbn [mbind option_bind]. unfold AtmosphereISA.py_pow.
  destruct (Rlt_dec 0 _); [reflexivity | contradiction].
Qed.

Lemma pressure_positive (h : R) :
  exists p, AtmosphereISA.get_pressure h = Some p /\ 0 < p.
Proof.
  assert (Htrop : forall x, x < 11000 ->
            exists p, AtmosphereISA.pressure_troposphere x = Some p /\ 0 < p).
  { intros x Hx. destruct (pressure_troposphere_value x Hx) as (_ & E).
    eexists. split; [exact E |].
    apply Rmult_lt_0_compat; [unfold AtmosphereISA.SEA_LEVEL_PRESSURE; lra |].
    apply exp_pos. }
  unfold AtmosphereISA.get_pressure.
  destruct (Rlt_dec h 11000) as [Hh | Hh]; [now apply Htrop |].
  destruct (Htrop 10999 ltac:(lra)) as (p & E & Hp). rewrite E.
  cbn [mbind option_bind].
  rewrite py_div_some by (unfold AtmosphereISA.GAS_CONSTANT; lra).
  cbn [mbind option_bind]. eexists. split; [reflexivity |].
  apply Rmult_lt_0_compat; [exact Hp | apply exp_pos].
Qed.

(** X28 (physics.py, [AtmosphereISA]): at every altitude the temperature
    is at least 216.65 K, and pressure and density are computed without a
    division by zero or a power of a base that is not positive, and are
    positive. *)
Theorem atmosphere_well_defined (h : R) :
  216.65 <= AtmosphereISA.get_temperature h
  /\ exists p rho,
       AtmosphereISA.get_pressure h = Some p /\ 0 < p
       /\ AtmosphereISA.get_density h = Some rho /\ 0 < rho.
Proof.
  destruct (temperature_floor h) as (Ht & _). split; [exact Ht |].
  destruct (pressure_positive h) as (p & E & Hp).
  assert (Hd : 0 < AtmosphereISA.GAS_CONSTANT * AtmosphereISA.get_temperature h)
    by (unfold AtmosphereISA.GAS_CONSTANT; nra).
  exists p, (p / (AtmosphereISA.GAS_CONSTANT * AtmosphereISA.get_temperature h)).
  split; [exact E |]. split; [exact Hp |]. split.
  - unfold AtmosphereISA.get_density. rewrite E. cbn [mbind option_bind].
    apply py_div_some. lra.
  - now apply Rdiv_lt_0_compat.
Qed.

(** X29 (physics.py, [get_pressure]): the pressure is not monotone at the
    tropopause.  From 11000 m on it starts from the pressure at 10999 m,
    so at 11000 m it is higher than anywhere between 10999 m and
    11000 m. *)
Theorem pressure_jumps_at_tropopause (h : R) :
  10999 < h < 11000 ->
  exists p p11,
    AtmosphereISA.get_pressure h = Some p
    /\ AtmosphereISA.get_pressure 11000 = Some p11
    /\ p < p11.
Proof.
  intros [Hl Hu].
  destruct (pressure_troposphere_value h Hu) as (Hr & E).
  destruct (pressure_troposphere_value 10999 ltac:(lra)) as (Hr0 & E0).
  destruct lapse_exponent as (_ & Hexp).
  do 2 eexists. split; [| split].
  - unfold AtmosphereISA.get_pressure.
    destruct (Rlt_dec h 11000); [exact E | contradiction].
  - unfold AtmosphereISA.get_pressure.
    destruct (Rlt_dec 11000 11000); [lra |]. rewrite E0.
    cbn [mbind option_bind].
    rewrite py_div_some by (unfold AtmosphereISA.GAS_CONSTANT; lra).
    cbn [mbind option_bind].
    replace (11000 - 11000) with 0 by lra.
    unfold Rdiv. rewrite Rmult_0_r, Rmult_0_l, exp_0, Rmult_1_r.
    reflexivity.
  - apply Rmult_lt_compat_l;
      [unfold AtmosphereISA.SEA_LEVEL_PRESSURE; lra |].
    apply Rlt_Rpower_l; [exact Hexp |]. split; [exact Hr |].
    unfold AtmosphereISA.get_temperature, AtmosphereISA.SEA_LEVEL_TEMP,
      AtmosphereISA.TEMP_LAPSE_RATE in *.
    destruct (Rlt_dec h 11000); [| contradiction].
    destruct (Rlt_dec 10999 11000); [| lra].
    unfold Rdiv. apply Rmult_lt_compat_r; lra.
Qed.

Lemma pressure_jumps_at_tropopause_witness :
  exists p p11,
    AtmosphereISA.get_pressure 10999.5 = Some p
    /\ AtmosphereISA.get_pressure 11000 = Some p11
    /\ p < p11.
Proof.
  apply (pressure_jumps_at_tropopause 10999.5). lra.
Defined.

(** X30 (physics.py, [calculate_turn_rate] and [calculate_turn_radius],
    with mission.py [execute_turn]): for a positive speed and a bank angle
    whose tangent is not zero, turn rate times turn radius is the speed;
    and the yaw the TURN segment adds in a call is the turn rate at its
    target speed 180 m/s and bank pi/6, times the time step. *)
Theorem turn_rate_times_radius
  (v bank dt : R) (g g' : MissionSegment.t) (a a' : Aircraft.t) :
  0 < v -> tan bank <> 0 ->
  static g = ("TURN"%string, Some 5000, Some 180, Some 120, None) ->
  MissionProfile.execute_segment g dt a = Some (a', g') ->
  exists omega r omega_turn,
    PerformanceCalculator.calculate_turn_rate v bank = Some omega
    /\ PerformanceCalculator.calculate_turn_radius v bank = Some (Dist.Fin r)
    /\ omega * r = v
    /\ PerformanceCalculator.calculate_turn_rate 180 (PI / 6) = Some omega_turn
    /\ Aircraft.yaw a' = Aircraft.yaw a + omega_turn * dt.
Proof.
  intros Hv Ht Hst E.
  assert (Hb : bank <> 0) by (intros ->; apply Ht; apply tan_0).
  exists (9.81 * tan bank / v), (v ^ 2 / (9.81 * tan bank)),
    (9.81 * tan (PI / 6) / 180).
  unfold PerformanceCalculator.calculate_turn_rate,
    PerformanceCalculator.calculate_turn_radius.
  destruct (Rgt_dec v 0); [| lra]. destruct (Rgt_dec 180 0); [| lra].
  destruct (Req_dec_T bank 0); [contradiction |].
  rewrite !py_div_some by lra.
  cbn [mbind option_bind].
  repeat split; [field; lra |].
  rewrite (execute_segment_turn g dt a Hst) in E. cbv zeta in E.
  destruct (Rge_dec _ 120); injection E as <- _; reflexivity.
Qed.

Lemma turn_rate_times_radius_witness :
  exists omega r omega_turn,
    PerformanceCalculator.calculate_turn_rate 180 (PI / 6) = Some omega
    /\ PerformanceCalculator.calculate_turn_radius 180 (PI / 6)
       = Some (Dist.Fin r)
    /\ omega * r = 180
    /\ PerformanceCalculator.calculate_turn_rate 180 (PI / 6) = Some omega_turn
    /\ Aircraft.yaw
         (Aircraft.set_yaw
            (Aircraft.set_roll
               (Aircraft.set_pitch
                  (Aircraft.set_phase (aircraft_at 5000) "TURN")
                  ((5000 - MissionProfile.alt (aircraft_at 5000)) * 0.001))
               (PI / 6))
            (Aircraft.yaw (aircraft_at 5000) + 9.81 * tan (PI / 6) / 180 * 1))
       = Aircraft.yaw (aircraft_at 5000) + omega_turn * 1.
Proof.
  assert (Hs : 0 < sqrt 3) by (apply sqrt_lt_R0; lra).
  apply (turn_rate_times_radius 180 (PI / 6) 1
           (MissionSegment.init "TURN" (Some 5000) (Some 180) (Some 120) None)
           (MissionSegment.set_turn_time
              (MissionSegment.init "TURN" (Some 5000) (Some 180) (Some 120)
                 None) (Some (0 + 1)))).
  - lra.
  - rewrite tan_PI6. apply Rgt_not_eq. apply Rdiv_lt_0_compat; lra.
  - reflexivity.
  - rewrite execute_segment_turn by reflexivity. cbn [MissionSegment.turn_time
      MissionSegment.init]. destruct (Rge_dec (0 + 1) 120); [lra |].
    reflexivity.
Defined.

(** ** A long frame *)





